(** * MHMS: the CCTV monitoring and windowed-aggregation engine

    A shallow embedding of
      - [backend/services/cctv_monitoring_service.py]
        ([calculate_peak_weighted_average] and the control operations of
        [CCTVMonitoringService]), and
      - [backend/services/sentiment_analysis_service.py]
        ([calculate_peak_weighted_nlp_average]).

    Conventions of the embedding.
      - Scores and wall-clock readings are Python floats in the source.
        [Binary64] embeds [calculate_peak_weighted_average] on Rocq's
        primitive binary64 floats, operation for operation as Python
        evaluates it: what is said of the double the function returns is
        said there.  [Aggregation] and the service model carry the numbers as
        exact rationals [Q]: the value of the same formulas before rounding,
        used where a result is about which scores are selected, stored and
        handed on, or holds of the rationals only and says so; these are
        stated up to [==] on [Q].
      - The service object is a record; attributes that the source creates
        and deletes at run time ([hasattr]/[delattr]) carry an [attr] wrapper.
      - The camera devices and the MySQL store are explicit components of the
        world that the operations thread through; what the outside decides
        (whether a probe succeeds, whether the database raises) is an explicit
        argument of the operation.
      - Background workers are recorded as spawned thread handles; their
        interleaving with the caller is not modelled. *)

From Stdlib Require Import QArith Qabs Qminmax Lqa Lia.
From Stdlib Require Floats.
From stdpp Require Import gmap strings list.

(** A decimal literal of type [float] denotes the nearest double, as it does
    in Python. *)
Set Warnings "-inexact-float".

(** ** Aggregation engine *)

Module Aggregation.

Local Open Scope Q_scope.

(** The arithmetic of this module is exact: a score is the rational it
    denotes, sums and quotients do not round.  The double-precision
    evaluation of the visual average is in [Binary64] below. *)

(** [sum(scores)]: Python's built-in, a left fold starting at 0. *)
Definition sum (scores : list Q) : Q := fold_left Qplus scores 0.

(** [len(scores)] as a number. *)
Definition len {A} (l : list A) : Q := inject_Z (Z.of_nat (length l)).

(** [statistics.mean] on a non-empty list. *)
Definition mean (scores : list Q) : Q := sum scores / len scores.

Definition NEUTRAL_BASELINE : Q := 45 # 100.
Definition SIGNIFICANCE_THRESHOLD : Q := 12 # 100.

(** [abs(score - NEUTRAL_BASELINE) >= SIGNIFICANCE_THRESHOLD] *)
Definition is_significant (score : Q) : bool :=
  Qle_bool SIGNIFICANCE_THRESHOLD (Qabs (score - NEUTRAL_BASELINE)).

(** The loop that appends the significant scores, in order. *)
Fixpoint significant_of (scores : list Q) : list Q :=
  match scores with
  | [] => []
  | score :: rest =>
      if is_significant score then score :: significant_of rest
      else significant_of rest
  end.

(** cctv_monitoring_service.py, [calculate_peak_weighted_average]. *)
Definition calculate_peak_weighted_average (scores : list Q) : Q :=
  match scores with
  | [] => 0
  | [score] => score
  | _ =>
      let overall_avg := sum scores / len scores in
      let significant_scores := significant_of scores in
      match significant_scores with
      | _ :: _ =>
          let peak_avg := sum significant_scores / len significant_scores in
          let weighted_score := (peak_avg * (7 # 10)) + (overall_avg * (3 # 10)) in
          weighted_score
      | [] => overall_avg
      end
  end.

Definition HIGH_RISK_THRESHOLD : Q := 65 # 100.

(** [[score for score in scores if score is not None]] *)
Fixpoint valid_of (scores : list (option Q)) : list Q :=
  match scores with
  | [] => []
  | Some score :: rest => score :: valid_of rest
  | None :: rest => valid_of rest
  end.

(** The loop that appends the scores with [score >= HIGH_RISK_THRESHOLD]. *)
Fixpoint high_risk_of (valid_scores : list Q) : list Q :=
  match valid_scores with
  | [] => []
  | score :: rest =>
      if Qle_bool HIGH_RISK_THRESHOLD score then score :: high_risk_of rest
      else high_risk_of rest
  end.

(** sentiment_analysis_service.py, [calculate_peak_weighted_nlp_average]. *)
Definition calculate_peak_weighted_nlp_average (scores : list (option Q)) : Q :=
  match scores with
  | [] => 0
  | _ =>
      let valid_scores := valid_of scores in
      match valid_scores with
      | [] => 0
      | [score] => score
      | _ =>
          let overall_avg := mean valid_scores in
          let high_risk_scores := high_risk_of valid_scores in
          match high_risk_scores with
          | _ :: _ =>
              let high_risk_avg := mean high_risk_scores in
              let weighted_score := (high_risk_avg * (8 # 10)) + (overall_avg * (2 # 10)) in
              weighted_score
          | [] => overall_avg
          end
      end
  end.

(** [min(scores)] and [max(scores)] on a list; 0 stands for the
    [ValueError] of the empty list, which no statement below reaches. *)
Definition list_min (scores : list Q) : Q :=
  match scores with
  | [] => 0
  | s :: rest => fold_left Qmin rest s
  end.

Definition list_max (scores : list Q) : Q :=
  match scores with
  | [] => 0
  | s :: rest => fold_left Qmax rest s
  end.

(** *** The reference definitions, in the words of the specification *)

Module Reference.

(** Arithmetic mean: the total divided by the count. *)
Definition total (l : list Q) : Q := fold_right Qplus 0 l.
Definition arith_mean (l : list Q) : Q := total l / inject_Z (Z.of_nat (length l)).

(** "discarding missing/absent entries first" *)
Definition present (l : list (option Q)) : list Q :=
  flat_map (fun o => match o with Some s => [s] | None => [] end) l.

(** "high_risk = subset where score >= 0.65" *)
Definition high_risk (l : list Q) : list Q :=
  List.filter (fun s => if Qlt_le_dec s (65 # 100) then false else true) l.

Definition peak_weighted_nlp_average (l : list (option Q)) : Q :=
  let vs := present l in
  match length vs with
  | O => 0
  | S O => hd 0 vs
  | _ =>
      if Nat.eqb (length (high_risk vs)) 0 then arith_mean vs
      else (8 # 10) * arith_mean (high_risk vs) + (2 # 10) * arith_mean vs
  end.

End Reference.

End Aggregation.

(** ** The visual average in double precision *)

Module Binary64.

Import Floats.
Local Open Scope float_scope.

(** A Python [float] is an IEEE 754 binary64 number: Rocq's primitive
    [float], whose literals denote the nearest double as Python's do, and
    whose operations round to nearest, ties to even. *)

(** [float(n)] for an [int], as the division [x / len(scores)] converts its
    divisor: the nearest double. *)
Definition of_int (n : Z) : float := SF2Prim (binary_normalize prec emax n 0 false).

(** [len(scores)] where the source divides by it. *)
Definition len {A} (l : list A) : float := of_int (Z.of_nat (length l)).

(** [sum(scores)] up to CPython 3.11: the additions from left to right,
    starting at the integer 0. *)
Definition sum_left (scores : list float) : float := fold_left add scores 0.

(** [sum(scores)] from CPython 3.12 on: the first item is added to the
    integer 0, the others by Neumaier's compensated summation, which
    carries the rounding errors in [c] and adds them at the end when [c] is
    finite and not zero. *)
Definition is_finite (x : float) : bool := negb (is_nan x || is_infinity x).

Definition neumaier (acc : float * float) (x : float) : float * float :=
  let '(f_result, c) := acc in
  let t := f_result + x in
  (t, if abs x <=? abs f_result then c + ((f_result - t) + x)
      else c + ((x - t) + f_result)).

Definition sum_compensated (scores : list float) : float :=
  match scores with
  | [] => 0
  | x :: rest =>
      let '(f_result, c) := fold_left neumaier rest (0 + x, 0) in
      if negb (is_zero c) && is_finite c then f_result + c else f_result
  end.

Definition NEUTRAL_BASELINE : float := 0.45.
Definition SIGNIFICANCE_THRESHOLD : float := 0.12.

(** [deviation = abs(score - NEUTRAL_BASELINE)];
    [deviation >= SIGNIFICANCE_THRESHOLD] *)
Definition is_significant (score : float) : bool :=
  let deviation := abs (score - NEUTRAL_BASELINE) in
  SIGNIFICANCE_THRESHOLD <=? deviation.

(** The loop that appends the significant scores, in order. *)
Fixpoint significant_of (scores : list float) : list float :=
  match scores with
  | [] => []
  | score :: rest =>
      if is_significant score then score :: significant_of rest
      else significant_of rest
  end.

Section Summation.

(** The built-in [sum] of the interpreter that runs the service. *)
Variable py_sum : list float -> float.

(** cctv_monitoring_service.py, [calculate_peak_weighted_average]. *)
Definition calculate_peak_weighted_average (scores : list float) : float :=
  match scores with
  | [] => 0
  | [score] => score
  | _ =>
      let overall_avg := py_sum scores / len scores in
      let significant_scores := significant_of scores in
      match significant_scores with
      | _ :: _ =>
          let peak_avg := py_sum significant_scores / len significant_scores in
          let weighted_score := (peak_avg * 0.7) + (overall_avg * 0.3) in
          weighted_score
      | [] => overall_avg
      end
  end.

End Summation.

(** [min(scores)] and [max(scores)]: the first item is kept until a
    smaller (greater) one is met; 0 stands for the [ValueError] of the empty
    list, which no statement below reaches. *)
Definition list_min (scores : list float) : float :=
  match scores with
  | [] => 0
  | s :: rest => fold_left (fun least item => if item <? least then item else least) rest s
  end.

Definition list_max (scores : list float) : float :=
  match scores with
  | [] => 0
  | s :: rest =>
      fold_left (fun greatest item => if greatest <? item then item else greatest) rest s
  end.

(** The rational number a finite double is; 0 for the infinities and for
    NaN, which are no scores. *)
Definition exact (x : float) : Q :=
  match Prim2SF x with
  | S754_finite s m e =>
      let magnitude :=
        match e with
        | Z0 => inject_Z (Zpos m)
        | Zpos p => inject_Z (Zpos (m * 2 ^ p))
        | Zneg p => Zpos m # 2 ^ p
        end in
      if s then (- magnitude)%Q else magnitude
  | _ => 0%Q
  end.


(** *** The reference definition, in the words of the specification *)

Module Reference.

Section Summation.

Variable py_sum : list float -> float.

(** The mean, as Python takes it of a list of floats. *)
Definition mean (l : list float) : float := py_sum l / len l.

(** "significant = subset where |score - 0.45| >= 0.12" *)
Definition significant (l : list float) : list float :=
  List.filter (fun score => 0.12 <=? abs (score - 0.45)) l.

(** "0 or 1 input -> 0.0 or the single value; if significant non-empty:
    result = 0.7 * peak_avg + 0.3 * overall_avg; else overall_avg". *)
Definition peak_weighted_average (l : list float) : float :=
  match length l with
  | O => 0
  | S O => hd 0 l
  | _ =>
      if Nat.eqb (length (significant l)) 0 then mean l
      else 0.7 * mean (significant l) + 0.3 * mean l
  end.

End Summation.

End Reference.

End Binary64.

(** ** Most frequent emotion label *)

Module Emotion.

(** [emotions.count(e)] *)
Definition count (emotions : list string) (e : string) : nat :=
  length (List.filter (fun e' => bool_decide (e' = e)) emotions).

(** One step of [max(items, key=key)]: CPython keeps the running maximum
    and replaces it only by an item whose key is strictly greater. *)
Definition keep_greater {A} (key : A -> nat) (best y : A) : A :=
  if (key best <? key y)%nat then y else best.

(** [max(items, key=key)]: among several maximal items the first one met
    in iteration order is returned.  [None] stands for the [ValueError] of
    an empty iterable. *)
Definition py_max {A} (key : A -> nat) (items : list A) : option A :=
  match items with
  | [] => None
  | x :: rest => Some (fold_left (keep_greater key) rest x)
  end.

(** The order in which [set(emotions)] is iterated.  CPython iterates a set
    in hash-table order; for strings the hash is salted per process, so the
    order is no function of the order of insertion.  An iteration order is
    any function that lists every member once. *)
Definition set_iteration := list string -> list string.

Definition valid_set_iteration (set_order : set_iteration) : Prop :=
  forall l : list string,
    NoDup (set_order l) /\ (forall e : string, e ∈ set_order l <-> e ∈ l).

(** [max(set(emotions), key=emotions.count)] *)
Definition most_common (set_order : set_iteration) (emotions : list string) : option string :=
  py_max (count emotions) (set_order emotions).

(** One iteration order a hash table can produce: every member once, the
    member whose last occurrence is latest in the list comes first. *)
Definition latest_first : set_iteration := fun l => reverse (remove_dups l).

(** "mode of the labels, ties broken by first-seen label": the label of
    greatest count, the earliest in event order among equals. *)
Definition first_seen_mode (emotions : list string) : option string :=
  py_max (count emotions) emotions.

End Emotion.

(** ** The monitoring service *)

Module Service.

Import Aggregation.

(** *** Python values of the embedding *)

(** An attribute that [hasattr] may find missing. *)
Inductive attr (A : Type) : Type :=
| Absent
| Present (a : A).
Arguments Absent {A}.
Arguments Present {A} a.

Inductive exn : Type :=
| PyException (msg : string)
| UnboundLocalError (var : string)
| KeyError (key : string)
| AttributeError (msg : string).

Inductive outcome (A : Type) : Type :=
| Return (a : A)
| Raise (e : exn).
Arguments Return {A} a.
Arguments Raise {A} e.

(** A [dict], or a [defaultdict] when [dict_factory] holds the value its
    factory builds ([list] gives the empty list, [float] gives 0.0). *)
Record pydict (V : Type) : Type := PyDict {
  dict_factory : option V;
  dict_items : gmap string V
}.
Arguments PyDict {V} _ _.
Arguments dict_factory {V} _.
Arguments dict_items {V} _.

(** [k in d] *)
Definition contains {V} (d : pydict V) (k : string) : bool :=
  bool_decide (is_Some (dict_items d !! k)).

(** [d[k]]: a plain dict raises [KeyError] on a missing key, a
    [defaultdict] stores and returns the factory's value. *)
Definition getitem {V} (d : pydict V) (k : string) : outcome V * pydict V :=
  match dict_items d !! k with
  | Some v => (Return v, d)
  | None =>
      match dict_factory d with
      | Some v0 => (Return v0, PyDict (dict_factory d) (<[k := v0]> (dict_items d)))
      | None => (Raise (KeyError k), d)
      end
  end.

(** [d[k] = v] *)
Definition setitem {V} (d : pydict V) (k : string) (v : V) : pydict V :=
  PyDict (dict_factory d) (<[k := v]> (dict_items d)).

Record datetime : Type := DateTime {
  dt_date : nat;   (* calendar day *)
  dt_time : nat    (* seconds since midnight *)
}.

(** *** Cameras *)

(** A [cv2.VideoCapture] object. *)
Record capture : Type := Capture {
  cap_device : nat;
  cap_serial : nat
}.

(** What a device does when probed: [isOpened()], and the two components
    of the test [read()]. *)
Record probe_result : Type := Probe {
  pr_opened : bool;
  pr_ret : bool;
  pr_frame : bool  (* frame is not None *)
}.

(** *** The store *)

Record monitoring_row : Type := MonitoringRow {
  mon_id : nat;
  mon_date : string;
  mon_start_time : nat;
  mon_end_time : string;
  mon_status : string
}.

Record detection_row : Type := DetectionRow {
  det_monitoring_id : option nat;
  det_force_id : string;
  det_timestamp : datetime;
  det_score : Q
}.

Record daily_row : Type := DailyRow {
  day_force_id : string;
  day_date : nat;
  day_score : Q
}.

Record database : Type := Database {
  cctv_daily_monitoring : list monitoring_row;
  cctv_detections : list detection_row;
  daily_depression_scores : list daily_row
}.

(** What the store does during one operation: it works, [get_connection]
    raises, or a statement (or the commit) raises after the connection was
    made.  A failed transaction is rolled back whole. *)
Inductive db_behaviour : Type :=
| DbOk
| DbConnectError (msg : string)
| DbQueryError (msg : string).

(** *** Workers *)

Inductive thread : Type :=
| MonitorThread (date : string)              (* _process_frames_continuously *)
| SurveyThread (force_id : string)           (* _process_survey_frames_continuously_enhanced *)
| StorageThread (session_id : nat) (force_id : string) (avg_score : Q).
                                             (* _store_survey_emotion_data_async *)

(** *** The world outside the service object *)

Record world : Type := World {
  open_captures : gset nat;   (* serials of the captures that hold a device *)
  next_capture : nat;
  db : database;
  spawned : list thread       (* threads started so far, oldest first *)
}.

Definition set_db (d : database) (w : world) : world :=
  World (open_captures w) (next_capture w) d (spawned w).

Definition spawn (t : thread) (w : world) : world :=
  World (open_captures w) (next_capture w) (db w) (spawned w ++ [t]).

(** [cv2.VideoCapture(index)] *)
Definition VideoCapture (probe : nat -> probe_result) (index : nat) (w : world)
  : capture * world :=
  let c := Capture index (next_capture w) in
  (c, World (if pr_opened (probe index)
             then {[ next_capture w ]} ∪ open_captures w
             else open_captures w)
            (S (next_capture w)) (db w) (spawned w)).

(** [cap.isOpened()] *)
Definition isOpened (c : capture) (w : world) : bool :=
  bool_decide (cap_serial c ∈ open_captures w).

(** [cap.release()] *)
Definition release (c : capture) (w : world) : world :=
  World (open_captures w ∖ {[ cap_serial c ]}) (next_capture w) (db w) (spawned w).

(** *** Buffered data *)

(** An entry of [detection_buffer[force_id]]. *)
Record detection : Type := Detection {
  d_score : Q;
  d_emotion : string;
  d_timestamp : Q;
  d_face_coords : Z * Z * Z * Z
}.

(** An entry of [survey_detections]; [None] is a key the dict lacks. *)
Record survey_entry : Type := SurveyEntry {
  e_timestamp : datetime;
  e_emotion : option string;
  e_score : option Q;
  e_force_id : string;
  e_method : option string
}.

(** *** The service object *)

Record service : Type := ServiceObj {
  monitoring_id : option nat;
  cap : option capture;
  is_monitoring : bool;
  monitor_thread : option thread;
  detection_buffer : pydict (list detection);
  last_average_time : pydict Q;
  survey_monitoring : bool;
  survey_mode : bool;
  survey_thread_active : bool;
  survey_thread : attr (option thread);
  survey_force_id : attr string;
  survey_detections : attr (list survey_entry);
  survey_start_time : attr datetime;
  emotion_detection_service : attr unit
}.

(** [CCTVMonitoringService.__init__] *)
Definition init : service := {|
  monitoring_id := None;
  cap := None;
  is_monitoring := false;
  monitor_thread := None;
  detection_buffer := PyDict None ∅;
  last_average_time := PyDict None ∅;
  survey_monitoring := false;
  survey_mode := false;
  survey_thread_active := false;
  survey_thread := Present None;
  survey_force_id := Absent;
  survey_detections := Absent;
  survey_start_time := Absent;
  emotion_detection_service := Absent
|}.

(** Assignments to single attributes. *)
Definition set_monitoring_id v (s : service) : service :=
  ServiceObj v (cap s) (is_monitoring s) (monitor_thread s) (detection_buffer s)
    (last_average_time s) (survey_monitoring s) (survey_mode s) (survey_thread_active s)
    (survey_thread s) (survey_force_id s) (survey_detections s) (survey_start_time s)
    (emotion_detection_service s).
Definition set_cap v (s : service) : service :=
  ServiceObj (monitoring_id s) v (is_monitoring s) (monitor_thread s) (detection_buffer s)
    (last_average_time s) (survey_monitoring s) (survey_mode s) (survey_thread_active s)
    (survey_thread s) (survey_force_id s) (survey_detections s) (survey_start_time s)
    (emotion_detection_service s).
Definition set_is_monitoring v (s : service) : service :=
  ServiceObj (monitoring_id s) (cap s) v (monitor_thread s) (detection_buffer s)
    (last_average_time s) (survey_monitoring s) (survey_mode s) (survey_thread_active s)
    (survey_thread s) (survey_force_id s) (survey_detections s) (survey_start_time s)
    (emotion_detection_service s).
Definition set_monitor_thread v (s : service) : service :=
  ServiceObj (monitoring_id s) (cap s) (is_monitoring s) v (detection_buffer s)
    (last_average_time s) (survey_monitoring s) (survey_mode s) (survey_thread_active s)
    (survey_thread s) (survey_force_id s) (survey_detections s) (survey_start_time s)
    (emotion_detection_service s).
Definition set_detection_buffer v (s : service) : service :=
  ServiceObj (monitoring_id s) (cap s) (is_monitoring s) (monitor_thread s) v
    (last_average_time s) (survey_monitoring s) (survey_mode s) (survey_thread_active s)
    (survey_thread s) (survey_force_id s) (survey_detections s) (survey_start_time s)
    (emotion_detection_service s).
Definition set_last_average_time v (s : service) : service :=
  ServiceObj (monitoring_id s) (cap s) (is_monitoring s) (monitor_thread s) (detection_buffer s)
    v (survey_monitoring s) (survey_mode s) (survey_thread_active s)
    (survey_thread s) (survey_force_id s) (survey_detections s) (survey_start_time s)
    (emotion_detection_service s).
Definition set_survey_monitoring v (s : service) : service :=
  ServiceObj (monitoring_id s) (cap s) (is_monitoring s) (monitor_thread s) (detection_buffer s)
    (last_average_time s) v (survey_mode s) (survey_thread_active s)
    (survey_thread s) (survey_force_id s) (survey_detections s) (survey_start_time s)
    (emotion_detection_service s).
Definition set_survey_mode v (s : service) : service :=
  ServiceObj (monitoring_id s) (cap s) (is_monitoring s) (monitor_thread s) (detection_buffer s)
    (last_average_time s) (survey_monitoring s) v (survey_thread_active s)
    (survey_thread s) (survey_force_id s) (survey_detections s) (survey_start_time s)
    (emotion_detection_service s).
Definition set_survey_thread_active v (s : service) : service :=
  ServiceObj (monitoring_id s) (cap s) (is_monitoring s) (monitor_thread s) (detection_buffer s)
    (last_average_time s) (survey_monitoring s) (survey_mode s) v
    (survey_thread s) (survey_force_id s) (survey_detections s) (survey_start_time s)
    (emotion_detection_service s).
Definition set_survey_thread v (s : service) : service :=
  ServiceObj (monitoring_id s) (cap s) (is_monitoring s) (monitor_thread s) (detection_buffer s)
    (last_average_time s) (survey_monitoring s) (survey_mode s) (survey_thread_active s)
    v (survey_force_id s) (survey_detections s) (survey_start_time s)
    (emotion_detection_service s).
Definition set_survey_force_id v (s : service) : service :=
  ServiceObj (monitoring_id s) (cap s) (is_monitoring s) (monitor_thread s) (detection_buffer s)
    (last_average_time s) (survey_monitoring s) (survey_mode s) (survey_thread_active s)
    (survey_thread s) v (survey_detections s) (survey_start_time s)
    (emotion_detection_service s).
Definition set_survey_detections v (s : service) : service :=
  ServiceObj (monitoring_id s) (cap s) (is_monitoring s) (monitor_thread s) (detection_buffer s)
    (last_average_time s) (survey_monitoring s) (survey_mode s) (survey_thread_active s)
    (survey_thread s) (survey_force_id s) v (survey_start_time s)
    (emotion_detection_service s).
Definition set_survey_start_time v (s : service) : service :=
  ServiceObj (monitoring_id s) (cap s) (is_monitoring s) (monitor_thread s) (detection_buffer s)
    (last_average_time s) (survey_monitoring s) (survey_mode s) (survey_thread_active s)
    (survey_thread s) (survey_force_id s) (survey_detections s) v
    (emotion_detection_service s).
Definition set_emotion_detection_service v (s : service) : service :=
  ServiceObj (monitoring_id s) (cap s) (is_monitoring s) (monitor_thread s) (detection_buffer s)
    (last_average_time s) (survey_monitoring s) (survey_mode s) (survey_thread_active s)
    (survey_thread s) (survey_force_id s) (survey_detections s) (survey_start_time s)
    v.

(** *** Camera acquisition *)

(** One candidate of [_find_available_camera]: open, test-read, and release
    the capture again unless it opened and returned a frame. *)
Definition try_camera (probe : nat -> probe_result) (index : nat) (w : world)
  : option capture * world :=
  let '(c, w1) := VideoCapture probe index w in
  if isOpened c w1 then
    if pr_ret (probe index) && pr_frame (probe index) then (Some c, w1)
    else (None, release c w1)
  else (None, release c w1).

(** [_find_available_camera]: index 1, then index 0, then [None]. *)
Definition _find_available_camera (probe : nat -> probe_result) (w : world)
  : option capture * world :=
  match try_camera probe 1 w with
  | (Some c, w1) => (Some c, w1)
  | (None, w1) =>
      match try_camera probe 0 w1 with
      | (Some c, w2) => (Some c, w2)
      | (None, w2) => (None, w2)
      end
  end.

(** *** General monitoring: start *)

(** The id [LAST_INSERT_ID()] reports for a row added to the table. *)
Definition fresh_monitoring_id (rows : list monitoring_row) : nat :=
  S (foldr Nat.max 0%nat (mon_id <$> rows)).

(** The outer [except] of [start_monitoring]: release what was acquired,
    clear the flags, raise again under the wrapped message. *)
Definition start_monitoring_failed (msg : string) (w : world) (s : service)
  : outcome bool * world * service :=
  let '(w1, s1) :=
    match cap s with
    | Some c => (release c w, set_cap None s)
    | None => (w, s)
    end in
  (Raise (PyException ("Failed to start monitoring: " +:+ msg)),
   w1, set_monitoring_id None (set_is_monitoring false s1)).

(** [start_monitoring(date)]; [now_time] is [datetime.now().time()]. *)
Definition start_monitoring (date : string) (now_time : nat)
    (probe : nat -> probe_result) (dbb : db_behaviour) (w : world) (s : service)
  : outcome bool * world * service :=
  if is_monitoring s then (Return false, w, s)
  else
    let '(w1, s1) :=
      match cap s with
      | Some c => (release c w, set_cap None s)
      | None => (w, s)
      end in
    let '(found, w2) := _find_available_camera probe w1 in
    let s2 := set_cap found s1 in
    match found with
    | None =>
        start_monitoring_failed
          "Could not find any available camera - please connect a camera" w2 s2
    | Some _ =>
        match dbb with
        | DbConnectError msg => start_monitoring_failed msg w2 s2
        | DbQueryError msg => start_monitoring_failed ("Database error: " +:+ msg) w2 s2
        | DbOk =>
            let rows := cctv_daily_monitoring (db w2) in
            let id := fresh_monitoring_id rows in
            let d := Database (rows ++ [MonitoringRow id date now_time "23:59:59" "partial"])
                       (cctv_detections (db w2)) (daily_depression_scores (db w2)) in
            let t := MonitorThread date in
            (Return true, spawn t (set_db d w2),
             set_monitor_thread (Some t) (set_is_monitoring true (set_monitoring_id (Some id) s2)))
        end
    end.

(** *** General monitoring: stop *)

(** [WHERE monitoring_id = %s]: never true on NULL. *)
Definition in_session (mid : option nat) (r : detection_row) : bool :=
  match mid, det_monitoring_id r with
  | Some m, Some m' => bool_decide (m = m')
  | _, _ => false
  end.

(** [SELECT DISTINCT force_id FROM cctv_detections WHERE monitoring_id = %s] *)
Definition session_force_ids (mid : option nat) (rows : list detection_row) : list string :=
  remove_dups (det_force_id <$> List.filter (in_session mid) rows).

(** [WHERE force_id = %s AND DATE(detection_timestamp) = %s] *)
Definition on_day (force_id : string) (day : nat) (r : detection_row) : bool :=
  bool_decide (det_force_id r = force_id) && bool_decide (dt_date (det_timestamp r) = day).

(** [AVG(...)]: NULL on no rows. *)
Definition sql_avg (xs : list Q) : option Q :=
  match xs with
  | [] => None
  | _ => Some (mean xs)
  end.

(** [SELECT AVG(depression_score) ... WHERE force_id = %s AND DATE(...) = %s] *)
Definition daily_average (force_id : string) (day : nat) (rows : list detection_row)
  : option Q :=
  sql_avg (det_score <$> List.filter (on_day force_id day) rows).

Definition daily_key (force_id : string) (day : nat) (r : daily_row) : bool :=
  bool_decide (day_force_id r = force_id) && bool_decide (day_date r = day).

(** The update-or-insert of one soldier's row in [daily_depression_scores]. *)
Definition store_daily (force_id : string) (day : nat) (avg : Q) (tbl : list daily_row)
  : list daily_row :=
  if existsb (daily_key force_id day) tbl
  then (fun r => if daily_key force_id day r then DailyRow (day_force_id r) (day_date r) avg else r) <$> tbl
  else tbl ++ [DailyRow force_id day avg].

(** The body of the [for force_id in force_ids] loop. *)
Definition store_daily_averages (force_ids : list string) (day : nat)
    (rows : list detection_row) (tbl : list daily_row) : list daily_row :=
  fold_left (fun tbl force_id =>
               match daily_average force_id day rows with
               | Some daily_avg => store_daily force_id day daily_avg tbl
               | None => tbl
               end) force_ids tbl.

(** [stop_monitoring()]; [today] is [datetime.now().date()].
    [conn] is first bound inside the [try], so the [finally] clause reads an
    unbound local when [get_connection] itself raised. *)
Definition stop_monitoring (today : nat) (dbb : db_behaviour) (w : world) (s : service)
  : outcome bool * world * service :=
  if negb (is_monitoring s) then (Return false, w, s)
  else
    let s1 := set_is_monitoring false s in
    let w1 :=
      match cap s1 with
      | Some c => if isOpened c w then release c w else w
      | None => w
      end in
    match dbb with
    | DbConnectError _ => (Raise (UnboundLocalError "conn"), w1, s1)
    | DbQueryError _ => (Return false, w1, s1)
    | DbOk =>
        let rows := cctv_detections (db w1) in
        let force_ids := session_force_ids (monitoring_id s1) rows in
        let tbl := store_daily_averages force_ids today rows (daily_depression_scores (db w1)) in
        let d := Database (cctv_daily_monitoring (db w1)) rows tbl in
        (Return true, set_db d w1,
         set_emotion_detection_service (Present tt)
           (set_last_average_time (PyDict (Some 0%Q) ∅)
              (set_detection_buffer (PyDict (Some []) ∅)
                 (set_monitoring_id None s1))))
    end.

(** *** The per-subject flush *)

(** [_calculate_and_store_average(force_id, current_time)]; [now] is the
    [datetime.now()] written with the row.  The most frequent emotion is
    computed for the log line only and is left out.  As in
    [stop_monitoring], [conn] is unbound in the [finally] clause when
    [get_connection] raised. *)
Definition _calculate_and_store_average (force_id : string) (current_time : Q)
    (now : datetime) (dbb : db_behaviour) (w : world) (s : service)
  : outcome unit * world * service :=
  match getitem (detection_buffer s) force_id with
  | (Raise e, _) => (Raise e, w, s)
  | (Return buffer, buf1) =>
      let s1 := set_detection_buffer buf1 s in
      match buffer with
      | [] => (Return tt, w, s1)
      | _ =>
          let scores := d_score <$> buffer in
          let avg_score := calculate_peak_weighted_average scores in
          match dbb with
          | DbConnectError _ => (Raise (UnboundLocalError "conn"), w, s1)
          | DbQueryError _ => (Return tt, w, s1)
          | DbOk =>
              let d := Database (cctv_daily_monitoring (db w))
                         (cctv_detections (db w)
                            ++ [DetectionRow (monitoring_id s1) force_id now avg_score])
                         (daily_depression_scores (db w)) in
              (Return tt, set_db d w,
               set_last_average_time (setitem (last_average_time s1) force_id current_time)
                 (set_detection_buffer (setitem (detection_buffer s1) force_id []) s1))
          end
      end
  end.

(** *** Frame processing *)

(** What the external detector answers on a frame:
    [(force_id, emotion, score, face_coords)] or [None]. *)
Definition hit : Type := string * string * Q * (Z * Z * Z * Z).

Record detector : Type := Detector {
  detect_face_and_emotion : option hit;
  detect_emotion_for_survey : string -> option hit
}.

Definition AVERAGE_INTERVAL : Q := 3.

(** [process_frame()]; [frame_ret] is the [ret] of [cap.read()],
    [current_time] is [time.time()].  The preview window is left out. *)
Definition process_frame (frame_ret : bool) (det : detector) (current_time : Q)
    (now : datetime) (dbb : db_behaviour) (w : world) (s : service)
  : outcome (option (string * string * Q)) * world * service :=
  match cap s, monitoring_id s with
  | Some _, Some (S _) =>
      if negb frame_ret then (Return None, w, s)
      else
        let result :=
          if survey_mode s then
            match survey_force_id s with
            | Present f => detect_emotion_for_survey det f
            | Absent => None
            end
          else detect_face_and_emotion det in
        match result with
        | None => (Return None, w, s)
        | Some (force_id, emotion, score, face_coords) =>
            let s1 :=
              if contains (detection_buffer s) force_id then s
              else set_last_average_time (setitem (last_average_time s) force_id current_time)
                     (set_detection_buffer (setitem (detection_buffer s) force_id []) s) in
            match getitem (detection_buffer s1) force_id with
            | (Raise e, _) => (Raise e, w, s1)
            | (Return buffer, buf) =>
                let entry := Detection score emotion current_time face_coords in
                let s2 := set_detection_buffer (setitem buf force_id (buffer ++ [entry])) s1 in
                match getitem (last_average_time s2) force_id with
                | (Raise e, _) => (Raise e, w, s2)
                | (Return last, lat) =>
                    let s3 := set_last_average_time lat s2 in
                    if Qle_bool AVERAGE_INTERVAL (current_time - last) then
                      match _calculate_and_store_average force_id current_time now dbb w s3 with
                      | (Raise e, w', s') => (Raise e, w', s')
                      | (Return _, w', s') => (Return (Some (force_id, emotion, score)), w', s')
                      end
                    else (Return (Some (force_id, emotion, score)), w, s3)
                end
            end
        end
  | _, _ => (Return None, w, s)
  end.

(** *** Survey monitoring: start *)

(** [start_survey_monitoring(force_id)]; [now] is [datetime.now()],
    [settings_ok] tells whether reading and applying the emotion service's
    camera settings went through without an exception. *)
Definition start_survey_monitoring (force_id : string) (now : datetime)
    (probe : nat -> probe_result) (settings_ok : bool) (w : world) (s : service)
  : bool * world * service :=
  let '(have_camera, w1, s1) :=
    match cap s with
    | None =>
        let '(found, w1) := _find_available_camera probe w in
        (bool_decide (is_Some found), w1, set_cap found s)
    | Some _ => (true, w, s)
    end in
  if negb have_camera then (false, w1, set_survey_monitoring false s1)
  else if negb settings_ok then (false, w1, set_survey_monitoring false s1)
  else
    let t := SurveyThread force_id in
    (true, spawn t w1,
     set_survey_thread (Present (Some t))
       (set_survey_mode true
          (set_survey_start_time (Present now)
             (set_survey_thread_active true
                (set_survey_monitoring true
                   (set_survey_detections (Present [])
                      (set_survey_force_id (Present force_id) s1))))))).

(** *** Survey monitoring: stop *)

(** The dict [stop_survey_monitoring] returns; [Absent] is a missing key. *)
Record result_dict : Type := ResultDict {
  r_force_id : string;
  r_session_id : attr (option nat);
  r_avg_depression_score : attr Q;
  r_dominant_emotion : attr string;
  r_detection_count : attr nat;
  r_detections : attr (list survey_entry);
  r_message : attr string;
  r_error : attr string
}.

(** ['score' in d and 'emotion' in d] *)
Definition is_actual (d : survey_entry) : bool :=
  bool_decide (is_Some (e_score d)) && bool_decide (is_Some (e_emotion d)).

(** The [finally] clause of [stop_survey_monitoring].  On a [survey_thread]
    that is [None] the [is_alive()] call raises, the inner [except] logs it
    and the rest of the clean-up is skipped. *)
Definition survey_cleanup (w : world) (s : service) : world * service :=
  let s1 := set_survey_thread_active false (set_survey_monitoring false s) in
  match survey_thread s1 with
  | Present None => (w, s1)
  | _ =>
      let '(w2, s2) :=
        match cap s1 with
        | Some c => (if isOpened c w then release c w else w, set_cap None s1)
        | None => (w, s1)
        end in
      (w2, set_survey_thread Absent
             (set_survey_detections Absent
                (set_survey_force_id Absent (set_survey_mode false s2))))
  end.

(** The [try] block of [stop_survey_monitoring]: the returned dict, with
    the exceptions it catches turned into the error dict. *)
Definition survey_summary (set_order : Emotion.set_iteration) (force_id : string)
    (session_id : option nat) (w : world) (s : service) : result_dict * world * service :=
  if negb (survey_monitoring s) then
    (ResultDict force_id Absent Absent Absent Absent Absent
       (Present "No monitoring session active") Absent, w, s)
  else
    let s1 := set_survey_thread_active false (set_survey_monitoring false s) in
    match survey_thread s1 with
    | Present None =>
        (ResultDict force_id Absent Absent Absent Absent Absent Absent
           (Present "'NoneType' object has no attribute 'is_alive'"), w, s1)
    | _ =>
        match survey_detections s1 with
        | Present ((_ :: _) as detections) =>
            let actual_detections := List.filter is_actual detections in
            let summary :=
              match actual_detections with
              | _ :: _ =>
                  let scores := omap e_score actual_detections in
                  let avg_score := calculate_peak_weighted_average scores in
                  let emotions := omap e_emotion actual_detections in
                  match Emotion.most_common set_order emotions with
                  | Some most_common_emotion => Return (avg_score, most_common_emotion)
                  | None => Raise (PyException "max() arg is an empty sequence")
                  end
              | [] => Return (0%Q, "No Detection")
              end in
            match summary with
            | Raise _ =>
                (ResultDict force_id Absent Absent Absent Absent Absent Absent
                   (Present "max() arg is an empty sequence"), w, s1)
            | Return (avg_score, most_common_emotion) =>
                let w1 :=
                  match session_id with
                  | Some (S n) => spawn (StorageThread (S n) force_id avg_score) w
                  | _ => w
                  end in
                (ResultDict force_id (Present session_id) (Present avg_score)
                   (Present most_common_emotion) (Present (length detections))
                   (Present detections) Absent Absent, w1, s1)
            end
        | _ =>
            (ResultDict force_id (Present session_id) (Present 0%Q)
               (Present "No Detection") (Present 0%nat) Absent
               (Present "No emotion data collected") Absent, w, s1)
        end
    end.

(** [stop_survey_monitoring(force_id, session_id)] *)
Definition stop_survey_monitoring (set_order : Emotion.set_iteration) (force_id : string)
    (session_id : option nat) (w : world) (s : service) : result_dict * world * service :=
  let '(results, w1, s1) := survey_summary set_order force_id session_id w s in
  let '(w2, s2) := survey_cleanup w1 s1 in
  (results, w2, s2).

(** The mean the specification asks of [stop_monitoring]: over the rows
    one subject got in one session. *)
Definition of_session (mid : option nat) (force_id : string) (r : detection_row) : bool :=
  in_session mid r && bool_decide (det_force_id r = force_id).

Definition session_average (mid : option nat) (force_id : string)
    (rows : list detection_row) : option Q :=
  sql_avg (det_score <$> List.filter (of_session mid force_id) rows).

(** The table holds a row for [(force_id, day)], and every such row
    carries [avg]. *)
Definition daily_is (force_id : string) (day : nat) (avg : Q) (tbl : list daily_row) : Prop :=
  (exists r, r ∈ tbl /\ daily_key force_id day r = true) /\
  (forall r, r ∈ tbl -> daily_key force_id day r = true -> day_score r = avg).

(** *** Session states *)

(** A session is running when its flag is set: [is_monitoring] for the
    general mode, [survey_monitoring] for the survey mode. *)
Definition general_running (s : service) : Prop := is_monitoring s = true.
Definition survey_running (s : service) : Prop := survey_monitoring s = true.
Definition idle (s : service) : Prop :=
  is_monitoring s = false /\ survey_monitoring s = false.

(** A probed device is accepted when it opened and the test read returned
    a frame. *)
Definition camera_ready (p : probe_result) : bool :=
  pr_opened p && pr_ret p && pr_frame p.

(** Every open capture was handed out by [VideoCapture]. *)
Definition world_ok (w : world) : Prop :=
  forall n : nat, n ∈ open_captures w -> (n < next_capture w)%nat.

End Service.

(** ** Concrete runs *)

Module Runs.

Import Service.

(** Both devices open and deliver frames; no device opens. *)
Definition working_cameras : nat -> probe_result := fun _ => Probe true true true.
Definition no_cameras : nat -> probe_result := fun _ => Probe false false false.

Definition empty_world : world := World ∅ 0 (Database [] [] []) [].

(** A general session started on a fresh service. *)
Definition general_started : outcome bool * world * service :=
  start_monitoring "2024-01-15" 900 working_cameras DbOk empty_world init.

(** A survey session started on a fresh service. *)
Definition survey_started : bool * world * service :=
  start_survey_monitoring "CRPF001" (DateTime 15 900) working_cameras true
    empty_world init.

(** A survey session that has retained two detections. *)
Definition sad_then_happy : list survey_entry :=
  [ SurveyEntry (DateTime 15 901) (Some "Sad") (Some (7 # 10)) "CRPF001"
      (Some "survey_enhanced");
    SurveyEntry (DateTime 15 902) (Some "Happy") (Some (2 # 10)) "CRPF001"
      (Some "survey_enhanced") ].

Definition survey_with_two : service :=
  set_survey_detections (Present sad_then_happy) survey_started.2.

(** The store after two sessions of one day, each with one flushed score of
    the same soldier, and the service while the second session runs. *)
Definition two_sessions : database :=
  Database
    [ MonitoringRow 1 "2024-01-15" 900 "23:59:59" "partial";
      MonitoringRow 2 "2024-01-15" 1400 "23:59:59" "partial" ]
    [ DetectionRow (Some 1) "CRPF001" (DateTime 15 910) (2 # 10);
      DetectionRow (Some 2) "CRPF001" (DateTime 15 1410) (8 # 10) ]
    [].

Definition second_session_world : world := World {[ 0%nat ]} 1 two_sessions [].

Definition second_session : service :=
  set_is_monitoring true
    (set_monitoring_id (Some 2%nat) (set_cap (Some (Capture 1 0)) init)).

(** A general session with two buffered detections of one soldier. *)
Definition buffering : service :=
  set_last_average_time (PyDict None {[ "CRPF001" := 100%Q ]})
    (set_detection_buffer
       (PyDict None
          {[ "CRPF001" := [ Detection (45 # 100) "Neutral" 101 (0, 0, 10, 10)%Z;
                            Detection (9 # 10) "Sad" 102 (0, 0, 10, 10)%Z ] ]})
       general_started.2).

(** A detector that sees the soldier on the frame. *)
Definition sad_face : detector :=
  Detector (Some ("CRPF001", "Sad", 8 # 10, (0, 0, 10, 10)%Z)) (fun _ => None).

End Runs.

(** ** Text sentiment *)

Module Sentiment.

Import Aggregation Service.

Local Open Scope Q_scope.

(** A Python [str], as its code points. *)
Definition text : Type := list N.

(** [c.isspace()]: the code points [str.strip()] removes. *)
Definition py_isspace (c : N) : bool :=
  ((9 <=? c)%N && (c <=? 13)%N) || ((28 <=? c)%N && (c <=? 32)%N)
  || (c =? 133)%N || (c =? 160)%N || (c =? 5760)%N
  || ((8192 <=? c)%N && (c <=? 8202)%N)
  || (c =? 8232)%N || (c =? 8233)%N || (c =? 8239)%N || (c =? 8287)%N
  || (c =? 12288)%N.

(** [t.lstrip()] and [t.strip()] *)
Fixpoint lstrip (t : text) : text :=
  match t with
  | [] => []
  | c :: rest => if py_isspace c then lstrip rest else c :: rest
  end.

Definition strip (t : text) : text := rev (lstrip (rev (lstrip t))).

(** [not t] on a string or a list *)
Definition is_empty {A} (l : list A) : bool :=
  match l with
  | [] => true
  | _ => false
  end.

(** [analyze_sentiment(text)]; [compound_of] is the compound score VADER's
    [polarity_scores] gives the text, [None] for [text] is Python's [None]. *)
Definition analyze_sentiment (compound_of : text -> Q) (t : option text) : Q * string :=
  match t with
  | None => (5 # 10, "NEUTRAL")
  | Some t =>
      if is_empty t || is_empty (strip t) then (5 # 10, "NEUTRAL")
      else
        let compound_score := compound_of t in
        let sentiment_label :=
          if Qle_bool (5 # 100) compound_score then "POSITIVE"
          else if Qle_bool compound_score (- (5 # 100)) then "NEGATIVE"
          else "NEUTRAL" in
        let depression_score := (1 - compound_score) / 2 in
        (depression_score, sentiment_label)
  end.

(** [calculate_depression_score(text)] *)
Definition calculate_depression_score (compound_of : text -> Q) (t : option text) : Q :=
  let '(score, _) := analyze_sentiment compound_of t in score.

(** [calculate_average_score(scores)] *)
Definition calculate_average_score (scores : list (option Q)) : Q :=
  if is_empty scores then 0
  else
    let valid_scores := valid_of scores in
    if is_empty valid_scores then 0
    else mean valid_scores.

End Sentiment.

(** ** More of the monitoring service *)

Module Control.

Import Aggregation Service.

(** [force_camera_cleanup()]: the joins only wait, the window calls only
    concern the preview. *)
Definition force_camera_cleanup (w : world) (s : service) : bool * world * service :=
  let s1 := set_is_monitoring false
              (set_survey_thread_active false (set_survey_monitoring false s)) in
  let '(w2, s2) :=
    match cap s1 with
    | Some c => (if isOpened c w then release c w else w, set_cap None s1)
    | None => (w, s1)
    end in
  (true, w2, set_survey_mode false s2).

(** [cleanup_camera()] *)
Definition cleanup_camera (w : world) (s : service) : world * service :=
  let s1 :=
    if survey_monitoring s
    then set_survey_thread_active false (set_survey_monitoring false s)
    else s in
  match cap s1 with
  | Some c => if isOpened c w then (release c w, set_cap None s1) else (w, s1)
  | None => (w, s1)
  end.

(** [configure_survey_mode(force_id)] *)
Definition configure_survey_mode (force_id : string) (s : service) : service :=
  set_survey_force_id (Present force_id) (set_survey_mode true s).

(** [configure_cctv_mode()] *)
Definition configure_cctv_mode (s : service) : service :=
  let s1 := set_survey_mode false s in
  match survey_force_id s1 with
  | Present _ => set_survey_force_id Absent s1
  | Absent => s1
  end.

(** A [datetime] as seconds on one axis, for comparisons and for adding a
    [timedelta]; the sum is exact, where Python rounds a [timedelta] to the
    microsecond. *)
Definition seconds_of (d : datetime) : Q :=
  inject_Z (Z.of_nat (dt_date d) * 86400 + Z.of_nat (dt_time d)).

(** [start_time <= detection_time <= end_time] *)
Definition in_timerange (start_time end_time : Q) (d : survey_entry) : bool :=
  Qle_bool start_time (seconds_of (e_timestamp d))
  && Qle_bool (seconds_of (e_timestamp d)) end_time.

(** [[d['score'] for d in relevant_detections]]: [KeyError] on the first
    entry that has no score. *)
Fixpoint scores_of (ds : list survey_entry) : outcome (list Q) :=
  match ds with
  | [] => Return []
  | d :: rest =>
      match e_score d with
      | None => Raise (KeyError "score")
      | Some score =>
          match scores_of rest with
          | Return scores => Return (score :: scores)
          | Raise e => Raise e
          end
      end
  end.

(** [get_emotion_data_for_timerange(start_seconds, end_seconds)] *)
Definition get_emotion_data_for_timerange (start_seconds end_seconds : Q) (s : service)
  : outcome Q :=
  match survey_detections s with
  | Present ((_ :: _) as detections) =>
      match survey_start_time s with
      | Absent => Return 0%Q
      | Present survey_start =>
          let start_time := (seconds_of survey_start + start_seconds)%Q in
          let end_time := (seconds_of survey_start + end_seconds)%Q in
          let relevant_detections := List.filter (in_timerange start_time end_time) detections in
          match relevant_detections with
          | [] => Return 0%Q
          | _ =>
              match scores_of relevant_detections with
              | Raise e => Raise e
              | Return scores => Return (calculate_peak_weighted_average scores)
              end
          end
      end
  | _ => Return 0%Q
  end.

(** What one turn of the worker loop meets: the frame, the detector's
    answer, the clocks and the store. *)
Record iteration : Type := Iteration {
  it_frame_ret : bool;
  it_detector : detector;
  it_time : Q;
  it_now : datetime;
  it_db : db_behaviour
}.

(** [_process_frames_continuously(date)], run for the turns in
    [iterations]: whatever [process_frame] raises is logged and the loop
    goes on; once the flag is found cleared the loop ends and clears it
    again.  When the turns run out with the flag still set, the state is
    the one the loop is in. *)
Fixpoint _process_frames_continuously (iterations : list iteration) (w : world) (s : service)
  : world * service :=
  if is_monitoring s then
    match iterations with
    | [] => (w, s)
    | i :: rest =>
        let '(_, w', s') :=
          process_frame (it_frame_ret i) (it_detector i) (it_time i) (it_now i) (it_db i) w s in
        _process_frames_continuously rest w' s'
    end
  else (w, set_is_monitoring false s).

(** The entries of [detection_buffer] for one soldier, none if the key is
    missing. *)
Definition buffered (s : service) (force_id : string) : list detection :=
  default [] (dict_items (detection_buffer s) !! force_id).

(** What the detector reports on a turn, as [process_frame] asks it. *)
Definition detected (s : service) (i : iteration) : option hit :=
  if it_frame_ret i then
    if survey_mode s then
      match survey_force_id s with
      | Present f => detect_emotion_for_survey (it_detector i) f
      | Absent => None
      end
    else detect_face_and_emotion (it_detector i)
  else None.

(** The buffer entries the turns add for one soldier, in order. *)
Definition sightings (s : service) (force_id : string) (iterations : list iteration)
  : list detection :=
  flat_map (fun i =>
              match detected s i with
              | Some (f, emotion, score, face_coords) =>
                  if bool_decide (f = force_id)
                  then [Detection score emotion (it_time i) face_coords]
                  else []
              | None => []
              end) iterations.

(** The state with which [start_monitoring] goes on once the guard is
    passed: a capture held from before is released and forgotten. *)
Definition released (w : world) (s : service) : world * service :=
  match cap s with
  | Some c => (release c w, set_cap None s)
  | None => (w, s)
  end.

(** Two service objects that differ at most in the entries of the two
    buffers. *)
Definition same_session (s s' : service) : Prop :=
  monitoring_id s' = monitoring_id s /\ cap s' = cap s /\
  is_monitoring s' = is_monitoring s /\ monitor_thread s' = monitor_thread s /\
  survey_monitoring s' = survey_monitoring s /\ survey_mode s' = survey_mode s /\
  survey_thread_active s' = survey_thread_active s /\ survey_thread s' = survey_thread s /\
  survey_force_id s' = survey_force_id s /\ survey_detections s' = survey_detections s /\
  survey_start_time s' = survey_start_time s /\
  emotion_detection_service s' = emotion_detection_service s /\
  dict_factory (detection_buffer s') = dict_factory (detection_buffer s) /\
  dict_factory (last_average_time s') = dict_factory (last_average_time s).

(** The guard of [process_frame]: a capture and a session id that is not 0. *)
Definition processing (s : service) : bool :=
  match cap s, monitoring_id s with
  | Some _, Some (S _) => true
  | _, _ => false
  end.

(** The last flush time recorded for one soldier. *)
Definition last_flush (s : service) (force_id : string) : option Q :=
  dict_items (last_average_time s) !! force_id.

(** Every soldier with a buffer has a last flush time. *)
Definition timed (s : service) : Prop :=
  forall k : string,
    is_Some (dict_items (detection_buffer s) !! k) ->
    is_Some (dict_items (last_average_time s) !! k).

(** The rows of [daily_depression_scores] that [stop_monitoring] may write:
    today's rows of the soldiers seen in the session. *)
Definition written_by_stop (today : nat) (force_ids : list string) (r : daily_row) : bool :=
  bool_decide (day_date r = today) && bool_decide (day_force_id r ∈ force_ids).

End Control.

(** ** The survey scores in the store *)

Module Storage.

Import Service.

(** The two tables [_store_survey_emotion_data] updates, with the columns
    it reads and writes; a score column holds [NULL] or an exact rational,
    the rounding of the column type is left out. *)
Record weekly_session_row : Type := WeeklySessionRow {
  ws_session_id : nat;
  ws_force_id : string;
  ws_nlp_avg_score : option Q;
  ws_image_avg_score : option Q;
  ws_combined_avg_score : option Q
}.

Record question_response_row : Type := QuestionResponseRow {
  qr_session_id : nat;
  qr_nlp_depression_score : option Q;
  qr_image_depression_score : option Q;
  qr_combined_depression_score : option Q
}.

Record survey_store : Type := SurveyStore {
  weekly_sessions : list weekly_session_row;
  question_responses : list question_response_row
}.

(** [CASE WHEN nlp_avg_score IS NOT NULL AND nlp_avg_score > 0
         THEN (nlp_avg_score * %s) + (%s * %s) ELSE %s END] *)
Definition weekly_combined (nlp_weight emotion_weight avg_score : Q) (nlp : option Q) : Q :=
  match nlp with
  | Some n =>
      if negb (Qle_bool n 0) then (n * nlp_weight + avg_score * emotion_weight)%Q
      else avg_score
  | None => avg_score
  end.

(** [CASE WHEN nlp_depression_score IS NOT NULL
         THEN (nlp_depression_score * %s) + (%s * %s) ELSE %s END] *)
Definition response_combined (nlp_weight emotion_weight avg_score : Q) (nlp : option Q) : Q :=
  match nlp with
  | Some n => (n * nlp_weight + avg_score * emotion_weight)%Q
  | None => avg_score
  end.

(** [UPDATE weekly_sessions ... WHERE session_id = %s AND force_id = %s] *)
Definition update_weekly (nlp_weight emotion_weight : Q) (session_id : nat)
    (force_id : string) (avg_score : Q) (r : weekly_session_row) : weekly_session_row :=
  if bool_decide (ws_session_id r = session_id) && bool_decide (ws_force_id r = force_id)
  then WeeklySessionRow (ws_session_id r) (ws_force_id r) (ws_nlp_avg_score r)
         (Some avg_score)
         (Some (weekly_combined nlp_weight emotion_weight avg_score (ws_nlp_avg_score r)))
  else r.

(** [UPDATE question_responses ... WHERE session_id = %s] *)
Definition update_response (nlp_weight emotion_weight : Q) (session_id : nat)
    (avg_score : Q) (r : question_response_row) : question_response_row :=
  if bool_decide (qr_session_id r = session_id)
  then QuestionResponseRow (qr_session_id r) (qr_nlp_depression_score r)
         (Some avg_score)
         (Some (response_combined nlp_weight emotion_weight avg_score
                  (qr_nlp_depression_score r)))
  else r.

(** The combined score lies between the text score and the image score;
    without a text score it is the image score. *)
Definition combined_between (nlp : option Q) (avg_score : Q) (combined : option Q) : Prop :=
  exists c : Q,
    combined = Some c /\
    match nlp with
    | Some n => (Qmin n avg_score <= c)%Q /\ (c <= Qmax n avg_score)%Q
    | None => c = avg_score
    end.

(** [_store_survey_emotion_data(session_id, force_id, avg_score)];
    [weights] is what [get_dynamic_settings()] returns or raises.  A store
    that raises is rolled back and the exception is raised again. *)
Definition _store_survey_emotion_data (weights : outcome (Q * Q)) (dbb : db_behaviour)
    (session_id : nat) (force_id : string) (avg_score : Q) (st : survey_store)
  : outcome unit * survey_store :=
  match dbb with
  | DbConnectError msg => (Raise (PyException msg), st)
  | DbQueryError msg => (Raise (PyException msg), st)
  | DbOk =>
      match weights with
      | Raise e => (Raise e, st)
      | Return (nlp_weight, emotion_weight) =>
          (Return tt,
           SurveyStore
             (update_weekly nlp_weight emotion_weight session_id force_id avg_score
                <$> weekly_sessions st)
             (update_response nlp_weight emotion_weight session_id avg_score
                <$> question_responses st))
      end
  end.

(** [_store_survey_emotion_data_async]: the body of the storage thread; it
    logs what the store raises and returns. *)
Definition _store_survey_emotion_data_async (weights : outcome (Q * Q)) (dbb : db_behaviour)
    (session_id : nat) (force_id : string) (avg_score : Q) (st : survey_store)
  : survey_store :=
  let '(_, st') := _store_survey_emotion_data weights dbb session_id force_id avg_score st in
  st'.

End Storage.

(** ** The camera settings *)

Module Settings.

Import Service.

Record camera_settings : Type := CameraSettings {
  width : Z;
  height : Z;
  detection_interval : Z
}.

Definition default_settings : camera_settings := CameraSettings 640 480 30.

Definition is_camera_setting (name : string) : bool :=
  bool_decide (name = "camera_width") || bool_decide (name = "camera_height")
  || bool_decide (name = "detection_interval").

(** The loop over the fetched rows: [setting_values[name] = int(value)],
    [None] once an [int(...)] raised. *)
Fixpoint read_settings (int_of : string -> option Z) (rows : list (string * string))
    (setting_values : gmap string Z) : option (gmap string Z) :=
  match rows with
  | [] => Some setting_values
  | (name, value) :: rest =>
      if is_camera_setting name then
        match int_of value with
        | Some n => read_settings int_of rest (<[name := n]> setting_values)
        | None => None
        end
      else read_settings int_of rest setting_values
  end.

(** [get_camera_settings()]; [system_settings] is the table as
    [(setting_name, setting_value)] rows, [int_of] is Python's [int]. *)
Definition get_camera_settings (int_of : string -> option Z) (dbb : db_behaviour)
    (system_settings : list (string * string)) : camera_settings :=
  match dbb with
  | DbOk =>
      let db_settings := List.filter (fun row => is_camera_setting row.1) system_settings in
      match read_settings int_of db_settings ∅ with
      | Some setting_values =>
          CameraSettings (default 640%Z (setting_values !! "camera_width"))
            (default 480%Z (setting_values !! "camera_height"))
            (default 30%Z (setting_values !! "detection_interval"))
      | None => default_settings
      end
  | _ => default_settings
  end.

End Settings.

(** ** More concrete runs *)

Module Scenarios.

Import Service Storage.

(** The survey rows of two sessions. *)
Definition two_surveys : survey_store :=
  SurveyStore
    [ WeeklySessionRow 7 "CRPF001" (Some (6 # 10)) None None;
      WeeklySessionRow 8 "CRPF002" None None None ]
    [ QuestionResponseRow 7 (Some (4 # 10)) None None;
      QuestionResponseRow 7 None None None;
      QuestionResponseRow 8 (Some (9 # 10)) None None ].

(** A settings table with a height that is no number, and an [int] that
    reads the one number of the table. *)
Definition misspelt_settings : list (string * string) :=
  [ ("camera_width", "1280"); ("camera_height", "72o"); ("theme", "dark") ].

Definition int_of_sample (value : string) : option Z :=
  if bool_decide (value = "1280") then Some 1280%Z else None.

End Scenarios.

(** * Properties *)

(** ** The aggregation engine *)

Section AggregationFacts.

Import Aggregation.
Local Open Scope Q_scope.

Lemma fold_left_Qplus_acc (l : list Q) (a : Q) :
  fold_left Qplus l a == a + fold_left Qplus l 0.
Proof.
  revert a. induction l as [|x l IH]; intros a; simpl.
  - lra.
  - rewrite (IH (a + x)), (IH (0 + x)). lra.
Qed.

Lemma sum_cons (x : Q) (l : list Q) : sum (x :: l) == x + sum l.
Proof. unfold sum. simpl. rewrite fold_left_Qplus_acc. lra. Qed.

Lemma len_cons {A} (x : A) (l : list A) : len (x :: l) == 1 + len l.
Proof.
  unfold len. cbn [length]. rewrite Nat2Z.inj_succ, <- Z.add_1_l, inject_Z_plus.
  reflexivity.
Qed.

Lemma len_nonneg {A} (l : list A) : 0 <= len l.
Proof.
  unfold len. change 0 with (inject_Z 0). rewrite <- Zle_Qle. lia.
Qed.

Lemma len_pos {A} (x : A) (l : list A) : 0 < len (x :: l).
Proof. rewrite len_cons. pose proof (len_nonneg l). lra. Qed.

Lemma total_sum (l : list Q) : Reference.total l == sum l.
Proof.
  induction l as [|x l IH]; [reflexivity|].
  rewrite sum_cons. cbn [Reference.total fold_right].
  change (fold_right Qplus 0 l) with (Reference.total l). rewrite IH. reflexivity.
Qed.

Lemma arith_mean_sum (l : list Q) : Reference.arith_mean l == sum l / len l.
Proof. unfold Reference.arith_mean. rewrite total_sum. reflexivity. Qed.

Lemma valid_of_present (l : list (option Q)) : valid_of l = Reference.present l.
Proof.
  unfold Reference.present.
  induction l as [|[s|] l IH]; cbn [valid_of flat_map]; [reflexivity | | exact IH].
  rewrite IH. reflexivity.
Qed.

Lemma high_risk_of_filter (l : list Q) : high_risk_of l = Reference.high_risk l.
Proof.
  unfold Reference.high_risk.
  induction l as [|x l IH]; [reflexivity|].
  cbn [high_risk_of List.filter]. rewrite IH. unfold HIGH_RISK_THRESHOLD.
  destruct (Qlt_le_dec x (65 # 100)) as [Hlt|Hle].
  - destruct (Qle_bool _ _) eqn:E; [|reflexivity].
    apply Qle_bool_iff in E. lra.
  - replace (Qle_bool (65 # 100) x) with true; [reflexivity|].
    symmetry. apply Qle_bool_iff. exact Hle.
Qed.

Lemma nlp_refines_reference (scores : list (option Q)) :
  calculate_peak_weighted_nlp_average scores == Reference.peak_weighted_nlp_average scores.
Proof.
  unfold Reference.peak_weighted_nlp_average.
  rewrite <- valid_of_present.
  destruct scores as [|o l]; [reflexivity|].
  unfold calculate_peak_weighted_nlp_average.
  destruct (valid_of (o :: l)) as [|x [|y vs]]; [reflexivity | reflexivity |].
  cbn [length]. rewrite high_risk_of_filter. unfold mean.
  destruct (Reference.high_risk (x :: y :: vs)) as [|z zs]; cbn [length Nat.eqb];
    rewrite !arith_mean_sum.
  - reflexivity.
  - ring.
Qed.


(** C3. For every list of text-derived depression scores with possibly
    missing entries, [calculate_peak_weighted_nlp_average] returns the value
    of the reference definition: the missing entries are discarded first;
    0 when nothing remains, the single value when one remains, otherwise
    0.8 * mean(high_risk) + 0.2 * mean(present) when some present value is
    at least 0.65, and mean(present) when none is.  In particular
    [0.1, 0.1, 0.9] yields 0.8 * 0.9 + 0.2 * (1.1 / 3), which is 0.7933 to
    four decimals. *)
Theorem peak_weighted_nlp_average_matches_reference :
  (forall scores : list (option Q),
     calculate_peak_weighted_nlp_average scores
     == Reference.peak_weighted_nlp_average scores) /\
  calculate_peak_weighted_nlp_average [None; None] == 0 /\
  (forall x : Q, calculate_peak_weighted_nlp_average [None; Some x; None] == x) /\
  calculate_peak_weighted_nlp_average [Some (1 # 10); Some (1 # 10); Some (9 # 10)]
  == (8 # 10) * (9 # 10) + (2 # 10) * ((11 # 10) / 3) /\
  Qabs (calculate_peak_weighted_nlp_average [Some (1 # 10); Some (1 # 10); Some (9 # 10)]
        - (7933 # 10000)) < 1 # 10000.
Proof.
  split; [exact nlp_refines_reference|].
  split; [reflexivity|]. split; [intros x; reflexivity|].
  split; vm_compute; reflexivity.
Qed.

(** *** Bounds *)






(** C9. The visual peak-weighted aggregation is not associative: there are
    non-empty score lists A and B for which aggregating A ++ B differs from
    aggregating the two sub-window results. *)
Theorem peak_weighted_average_not_associative :
  exists A B : list Q,
    A <> [] /\ B <> [] /\
    ~ calculate_peak_weighted_average (A ++ B)
      == calculate_peak_weighted_average
           [calculate_peak_weighted_average A; calculate_peak_weighted_average B].
Proof.
  exists [45 # 100; 45 # 100; 45 # 100], [9 # 10].
  split; [discriminate|]. split; [discriminate|].
  vm_compute. discriminate.
Qed.

End AggregationFacts.

(** ** The visual average in double precision *)

Section Binary64Facts.

Import Floats Binary64.
Local Open Scope float_scope.

Lemma SF64mul_comm (x y : spec_float) : SF64mul x y = SF64mul y x.
Proof.
  unfold SF64mul, SFmul.
  destruct x as [sx|sx| |sx mx ex], y as [sy|sy| |sy my ey];
    rewrite ?(xorb_comm sx sy), ?(Pos.mul_comm mx my), ?(Z.add_comm ex ey); reflexivity.
Qed.

Lemma float_mul_comm (x y : float) : x * y = y * x.
Proof. apply Prim2SF_inj. rewrite !mul_spec. apply SF64mul_comm. Qed.

Lemma significant_of_filter (l : list float) : significant_of l = Reference.significant l.
Proof.
  unfold Reference.significant.
  induction l as [|x l IH]; [reflexivity|].
  cbn [significant_of List.filter]. rewrite IH. reflexivity.
Qed.

Lemma visual_refines_reference (py_sum : list float -> float) (scores : list float) :
  calculate_peak_weighted_average py_sum scores
  = Reference.peak_weighted_average py_sum scores.
Proof.
  destruct scores as [|x [|y l]]; [reflexivity | reflexivity |].
  unfold calculate_peak_weighted_average, Reference.peak_weighted_average, Reference.mean.
  cbn [length]. rewrite significant_of_filter.
  destruct (Reference.significant (x :: y :: l)) as [|z zs]; cbn [length Nat.eqb].
  - reflexivity.
  - rewrite (float_mul_comm 0.7), (float_mul_comm 0.3). reflexivity.
Qed.

(** C2. For every list of visual emotion scores,
    [calculate_peak_weighted_average], computed in doubles as Python
    computes it, returns the value of the reference definition of the
    specification: 0.0 on the empty list, the single value on a one-element
    list, otherwise 0.7 * mean(significant) + 0.3 * mean(all) when some
    score deviates from 0.45 by at least 0.12, and mean(all) when none does;
    this holds whichever way the interpreter's [sum] adds.  In particular
    [0.45, 0.45, 0.45] yields 0.45 and [0.45, 0.45, 0.9] yields 0.81, with
    the plain and with the compensated [sum]. *)
Theorem peak_weighted_average_matches_reference :
  (forall (py_sum : list float -> float) (scores : list float),
     calculate_peak_weighted_average py_sum scores
     = Reference.peak_weighted_average py_sum scores) /\
  (forall py_sum : list float -> float, calculate_peak_weighted_average py_sum [] = 0) /\
  (forall (py_sum : list float -> float) (x : float),
     calculate_peak_weighted_average py_sum [x] = x) /\
  calculate_peak_weighted_average sum_left [0.45; 0.45; 0.45] = 0.45 /\
  calculate_peak_weighted_average sum_left [0.45; 0.45; 0.9] = 0.81 /\
  calculate_peak_weighted_average sum_compensated [0.45; 0.45; 0.45] = 0.45 /\
  calculate_peak_weighted_average sum_compensated [0.45; 0.45; 0.9] = 0.81.
Proof.
  split; [exact visual_refines_reference|].
  split; [reflexivity|]. split; [reflexivity|].
  repeat split; vm_compute; reflexivity.
Qed.

(** The decimal reading of the threshold and the doubles part at the
    boundary: 0.57 is 0.12 above 0.45 as a decimal, yet as doubles the
    difference is below the threshold, and the score is not significant. *)
Lemma boundary_score_not_significant :
  is_significant 0.57 = false /\
  calculate_peak_weighted_average sum_left [0.57; 0.45] = 0.51.
Proof. split; vm_compute; reflexivity. Qed.

(** *** Bounds *)






(** The result can also exceed the greatest score: three scores of 0.4,
    none of them significant, have the mean 0.4000000000000001. *)
Lemma peak_weighted_average_above_max :
  list_max [0.4; 0.4; 0.4] = 0.4 /\
  calculate_peak_weighted_average sum_left [0.4; 0.4; 0.4] = 0.4000000000000001 /\
  calculate_peak_weighted_average sum_compensated [0.4; 0.4; 0.4] = 0.4000000000000001 /\
  (list_max [0.4; 0.4; 0.4] <? calculate_peak_weighted_average sum_left [0.4; 0.4; 0.4])
  = true.
Proof. repeat split; vm_compute; reflexivity. Qed.

(** *** Windows of one kind *)

Lemma significant_of_all (l : list float) :
  Forall (fun s => is_significant s = true) l -> significant_of l = l.
Proof.
  induction 1 as [|x l Hx _ IH]; [reflexivity|].
  cbn [significant_of]. rewrite Hx, IH. reflexivity.
Qed.

Lemma significant_of_none (l : list float) :
  Forall (fun s => is_significant s = false) l -> significant_of l = [].
Proof.
  induction 1 as [|x l Hx _ IH]; [reflexivity|].
  cbn [significant_of]. rewrite Hx, IH. reflexivity.
Qed.

(** X3. For a list of at least two scores that are all of one kind, and
    the mean m = sum(scores) / len(scores) as the code computes it in
    doubles: when no score is significant (abs(score - 0.45) >= 0.12 fails
    for each, in doubles) [calculate_peak_weighted_average] returns m, and
    when every score is significant it returns m * 0.7 + m * 0.3, computed
    in doubles. *)
Theorem uniform_window_average (py_sum : list float -> float) (scores : list float)
    (significant : bool) :
  (2 <= length scores)%nat ->
  Forall (fun s => is_significant s = significant) scores ->
  calculate_peak_weighted_average py_sum scores
  = if significant
    then (py_sum scores / len scores) * 0.7 + (py_sum scores / len scores) * 0.3
    else py_sum scores / len scores.
Proof.
  intros Hlen Hkind.
  destruct scores as [|x [|y l]]; [cbn in Hlen; lia | cbn in Hlen; lia |].
  unfold calculate_peak_weighted_average. destruct significant.
  - rewrite (significant_of_all _ Hkind). reflexivity.
  - rewrite (significant_of_none _ Hkind). reflexivity.
Qed.

Lemma uniform_window_average_witness :
  (2 <= length [0.45; 0.5]%float)%nat /\
  Forall (fun s => is_significant s = false) [0.45; 0.5] /\
  calculate_peak_weighted_average sum_left [0.45; 0.5]
  = sum_left [0.45; 0.5] / len [0.45; 0.5].
Proof.
  assert (Hkind : Forall (fun s => is_significant s = false) [0.45; 0.5])
    by (repeat constructor).
  split; [cbn; lia|]. split; [exact Hkind|].
  apply (uniform_window_average sum_left [0.45; 0.5] false); [cbn; lia | exact Hkind].
Defined.

End Binary64Facts.

(** ** The most frequent label *)

Section EmotionFacts.

Import Emotion.

Context {A : Type} (key : A -> nat).

(** The running maximum of [py_max]: it is [x] or a member of [rest], no
    key exceeds its key, and everything met before it has a smaller key. *)
Lemma fold_max_split (rest : list A) (x : A) :
  exists pre suf : list A,
    x :: rest = pre ++ fold_left (keep_greater key) rest x :: suf /\
    Forall (fun y => (key y < key (fold_left (keep_greater key) rest x))%nat) pre /\
    Forall (fun y => (key y <= key (fold_left (keep_greater key) rest x))%nat) suf.
Proof.
  revert x. induction rest as [|y rest IH]; intros x.
  - exists [], []. repeat split; constructor.
  - change (fold_left (keep_greater key) (y :: rest) x)
      with (fold_left (keep_greater key) rest (keep_greater key x y)).
    destruct (IH (keep_greater key x y)) as (pre & suf & Heq & Hpre & Hsuf).
    remember (fold_left (keep_greater key) rest (keep_greater key x y)) as r eqn:Er. clear Er.
    assert (Hk : (key (keep_greater key x y) <= key r)%nat).
    { destruct pre as [|p pre]; simpl in Heq; injection Heq as Hp _.
      - rewrite Hp. lia.
      - subst p. inversion Hpre; subst. lia. }
    unfold keep_greater in Heq, Hk.
    destruct (Nat.ltb_spec (key x) (key y)) as [Hlt|Hge].
    + exists (x :: pre), suf. split; [simpl; rewrite Heq; reflexivity|].
      split; [|exact Hsuf]. constructor; [lia | exact Hpre].
    + destruct pre as [|p pre]; simpl in Heq; injection Heq as Hp Hrest.
      * subst r rest. exists [], (y :: suf). split; [reflexivity|].
        split; [constructor|]. constructor; [lia | exact Hsuf].
      * subst p. exists (x :: y :: pre), suf.
        split; [simpl; rewrite Hrest; reflexivity|].
        split; [|exact Hsuf]. inversion Hpre; subst.
        constructor; [assumption|]. constructor; [lia | assumption].
Qed.

Lemma py_max_first_greatest (items : list A) :
  items <> [] ->
  exists r pre suf,
    py_max key items = Some r /\ items = pre ++ r :: suf /\
    Forall (fun y => (key y < key r)%nat) pre /\
    Forall (fun y => (key y <= key r)%nat) suf.
Proof.
  intros Hne. destruct items as [|i rest]; [congruence|].
  destruct (fold_max_split rest i) as (pre & suf & Heq & Hpre & Hsuf).
  exists (fold_left (keep_greater key) rest i), pre, suf. auto.
Qed.

End EmotionFacts.

Section ModeFacts.

Import Emotion.

Lemma count_absent (emotions : list string) (e : string) :
  e ∉ emotions -> count emotions e = 0%nat.
Proof.
  unfold count. induction emotions as [|x l IH]; intros Hnot; [reflexivity|].
  cbn [List.filter]. rewrite not_elem_of_cons in Hnot. destruct Hnot as [Hne Hl].
  rewrite bool_decide_eq_false_2 by congruence. apply IH, Hl.
Qed.

Lemma most_common_is_mode (set_order : set_iteration) (emotions : list string) :
  valid_set_iteration set_order ->
  emotions <> [] ->
  exists (e : string) (pre suf : list string),
    most_common set_order emotions = Some e /\
    set_order emotions = pre ++ e :: suf /\
    e ∈ emotions /\
    (forall e' : string, (count emotions e' <= count emotions e)%nat) /\
    Forall (fun e' => (count emotions e' < count emotions e)%nat) pre.
Proof.
  intros Hvalid Hne. destruct (Hvalid emotions) as [_ Hmem].
  assert (Hne' : set_order emotions <> []).
  { destruct emotions as [|x l]; [congruence|].
    intros Hnil. assert (Hx : x ∈ set_order (x :: l)) by (apply Hmem; left).
    rewrite Hnil in Hx. inversion Hx. }
  destruct (py_max_first_greatest (count emotions) _ Hne')
    as (e & pre & suf & Hmax & Hsplit & Hpre & Hsuf).
  exists e, pre, suf. split; [exact Hmax|]. split; [exact Hsplit|].
  assert (He : e ∈ emotions).
  { apply Hmem. rewrite Hsplit. apply elem_of_app. right. left. }
  split; [exact He|]. split; [|exact Hpre].
  intros e'. destruct (decide (e' ∈ emotions)) as [Hin|Hout].
  - apply Hmem in Hin. rewrite Hsplit in Hin.
    apply elem_of_app in Hin. destruct Hin as [Hin|Hin].
    + rewrite Forall_forall in Hpre. specialize (Hpre _ Hin). lia.
    + apply elem_of_cons in Hin. destruct Hin as [->|Hin]; [lia|].
      rewrite Forall_forall in Hsuf. apply Hsuf, Hin.
  - rewrite (count_absent _ _ Hout). lia.
Qed.

Lemma latest_first_valid : valid_set_iteration latest_first.
Proof.
  intros l. unfold latest_first. split.
  - rewrite reverse_Permutation. apply NoDup_remove_dups.
  - intros e. rewrite elem_of_reverse. apply elem_of_remove_dups.
Qed.

End ModeFacts.

(** ** Starting a session *)

Section ServiceFacts.

Import Service Runs.

(** Re-assigning an attribute its own value changes nothing. *)
Lemma set_detection_buffer_same (s : service) :
  set_detection_buffer (detection_buffer s) s = s.
Proof. destruct s; reflexivity. Qed.

Lemma getitem_present {V} (d : pydict V) (k : string) (v : V) :
  dict_items d !! k = Some v -> getitem d k = (Return v, d).
Proof. intros H. unfold getitem. rewrite H. reflexivity. Qed.

(** *** Camera probing *)

Lemma try_camera_not_ready (probe : nat -> probe_result) (index : nat) (w : world) :
  world_ok w ->
  camera_ready (probe index) = false ->
  try_camera probe index w
  = (None, World (open_captures w) (S (next_capture w)) (db w) (spawned w)).
Proof.
  intros Hok Hready.
  assert (Hfresh : next_capture w ∉ open_captures w).
  { intros Hin. apply Hok in Hin. lia. }
  unfold try_camera, VideoCapture, isOpened, release, camera_ready in *.
  cbn [cap_serial open_captures next_capture db spawned].
  destruct (pr_opened (probe index)).
  - rewrite bool_decide_eq_true_2
      by (apply elem_of_union_l, elem_of_singleton; reflexivity).
    cbn [andb] in Hready. rewrite Hready.
    f_equal. f_equal.
    rewrite difference_union_distr_l_L, difference_diag_L, (left_id_L ∅ (∪)).
    apply difference_disjoint_L, disjoint_singleton_r. exact Hfresh.
  - rewrite bool_decide_eq_false_2 by exact Hfresh.
    f_equal. f_equal.
    apply difference_disjoint_L, disjoint_singleton_r. exact Hfresh.
Qed.

Lemma world_ok_next (w : world) :
  world_ok w ->
  world_ok (World (open_captures w) (S (next_capture w)) (db w) (spawned w)).
Proof. intros Hok n Hn. cbn in *. apply Hok in Hn. lia. Qed.

Lemma find_camera_none (probe : nat -> probe_result) (w : world) :
  world_ok w ->
  camera_ready (probe 1%nat) = false ->
  camera_ready (probe 0%nat) = false ->
  _find_available_camera probe w
  = (None, World (open_captures w) (S (S (next_capture w))) (db w) (spawned w)).
Proof.
  intros Hok H1 H0. unfold _find_available_camera.
  rewrite (try_camera_not_ready probe 1 w Hok H1).
  rewrite (try_camera_not_ready probe 0 _ (world_ok_next w Hok) H0).
  reflexivity.
Qed.

Lemma world_ok_release (c : capture) (w : world) : world_ok w -> world_ok (release c w).
Proof.
  intros Hok n Hn. unfold release in Hn. cbn in *.
  apply Hok. apply elem_of_difference in Hn. tauto.
Qed.

(** C5. When no general session is running and neither index 1 nor index 0
    gives a capture that opens and returns a frame on the test read,
    [start_monitoring] raises its "could not find any available camera"
    exception and leaves the service idle with nothing held: the camera
    handle is [None], no session row is inserted and [monitoring_id] is
    [None], the monitoring flag is cleared, no worker is started, and no
    capture opened by the attempt stays open. *)
Theorem start_monitoring_without_camera
    (date : string) (now_time : nat) (probe : nat -> probe_result)
    (dbb : db_behaviour) (w : world) (s : service) :
  world_ok w ->
  is_monitoring s = false ->
  camera_ready (probe 1%nat) = false ->
  camera_ready (probe 0%nat) = false ->
  exists (w' : world) (s' : service),
    start_monitoring date now_time probe dbb w s
    = (Raise (PyException
         "Failed to start monitoring: Could not find any available camera - please connect a camera"),
       w', s') /\
    cap s' = None /\ monitoring_id s' = None /\ is_monitoring s' = false /\
    monitor_thread s' = monitor_thread s /\
    survey_monitoring s' = survey_monitoring s /\
    (idle s -> idle s') /\
    db w' = db w /\ spawned w' = spawned w /\
    open_captures w' ⊆ open_captures w.
Proof.
  intros Hok Hidle H1 H0. unfold start_monitoring. rewrite Hidle.
  destruct (cap s) as [c|] eqn:Hcap.
  - rewrite (find_camera_none probe _ (world_ok_release c w Hok) H1 H0).
    unfold start_monitoring_failed, idle. cbn.
    eexists _, _. split; [reflexivity|]. cbn.
    repeat split; try tauto. apply subseteq_difference_l. reflexivity.
  - rewrite (find_camera_none probe _ Hok H1 H0).
    unfold start_monitoring_failed, idle. cbn.
    eexists _, _. split; [reflexivity|]. cbn. repeat split; try tauto. reflexivity.
Qed.

Lemma start_monitoring_without_camera_witness :
  world_ok empty_world /\ is_monitoring init = false /\
  exists (w' : world) (s' : service),
    start_monitoring "2024-01-15" 900 no_cameras DbOk empty_world init
    = (Raise (PyException
         "Failed to start monitoring: Could not find any available camera - please connect a camera"),
       w', s') /\
    cap s' = None /\ monitoring_id s' = None /\ is_monitoring s' = false /\
    monitor_thread s' = monitor_thread init /\
    survey_monitoring s' = survey_monitoring init /\
    (idle init -> idle s') /\
    db w' = db empty_world /\ spawned w' = spawned empty_world /\
    open_captures w' ⊆ open_captures empty_world.
Proof.
  assert (Hok : world_ok empty_world).
  { intros n Hn. exfalso. revert Hn. apply not_elem_of_empty. }
  split; [exact Hok|]. split; [reflexivity|].
  apply (start_monitoring_without_camera "2024-01-15" 900 no_cameras DbOk empty_world init);
    [exact Hok | reflexivity | reflexivity | reflexivity].
Defined.

(** *** The guard of [start_monitoring] *)

(** C1, as amended.  [start_monitoring] invoked while a general session is
    running returns [False] and leaves the service object, the cameras and
    the store exactly as they were. *)
Theorem start_monitoring_rejected_while_running
    (date : string) (now_time : nat) (probe : nat -> probe_result)
    (dbb : db_behaviour) (w : world) (s : service) :
  general_running s ->
  start_monitoring date now_time probe dbb w s = (Return false, w, s).
Proof. unfold general_running, start_monitoring. intros ->. reflexivity. Qed.

Lemma start_monitoring_rejected_while_running_witness :
  general_running general_started.2 /\
  start_monitoring "2024-01-16" 901 no_cameras (DbConnectError "down")
    general_started.1.2 general_started.2
  = (Return false, general_started.1.2, general_started.2).
Proof.
  split; [reflexivity|].
  apply (start_monitoring_rejected_while_running "2024-01-16" 901 no_cameras
           (DbConnectError "down") general_started.1.2 general_started.2).
  reflexivity.
Defined.

(** A start that succeeded leaves a running general session. *)
Lemma start_monitoring_success_runs
    (date : string) (t : nat) (probe : nat -> probe_result)
    (dbb : db_behaviour) (w w1 : world) (s s1 : service) :
  start_monitoring date t probe dbb w s = (Return true, w1, s1) ->
  general_running s1.
Proof.
  intros Hstart. unfold general_running. unfold start_monitoring in Hstart.
  destruct (is_monitoring s); [discriminate|].
  destruct (match cap s with
            | Some c => (release c w, set_cap None s)
            | None => (w, s)
            end) as [w0 s0].
  destruct (_find_available_camera probe w0) as [[c1|] w2].
  - destruct dbb; unfold start_monitoring_failed in Hstart; cbn in Hstart;
      try discriminate Hstart.
    injection Hstart as _ <-. reflexivity.
  - unfold start_monitoring_failed in Hstart; cbn in Hstart. discriminate Hstart.
Qed.

(** C1, as stated, fails: [start_survey_monitoring] has no guard.  Called
    while a general session runs it returns [True], reuses the camera,
    changes the service object and starts a second worker; both sessions
    are then running. *)
Lemma survey_start_accepted_while_general_runs :
  let w1 := general_started.1.2 in
  let s1 := general_started.2 in
  let second := start_survey_monitoring "CRPF001" (DateTime 15 905) working_cameras true w1 s1 in
  general_started.1.1 = Return true /\
  general_running s1 /\
  second.1.1 = true /\
  second.2 <> s1 /\
  general_running second.2 /\ survey_running second.2 /\
  spawned second.1.2 = [MonitorThread "2024-01-15"; SurveyThread "CRPF001"].
Proof.
  cbv zeta. repeat split; try reflexivity.
  intros Heq. apply (f_equal survey_monitoring) in Heq. discriminate Heq.
Qed.

(** Nor does [start_monitoring] look at the survey flag: called while a
    survey session runs it releases the capture the survey uses, opens a
    new one and starts a general session next to the survey. *)
Lemma general_start_accepted_while_survey_runs :
  let w1 := survey_started.1.2 in
  let s1 := survey_started.2 in
  let second := start_monitoring "2024-01-15" 905 working_cameras DbOk w1 s1 in
  survey_running s1 /\
  second.1.1 = Return true /\
  cap s1 = Some (Capture 1 0) /\ cap second.2 = Some (Capture 1 1) /\
  isOpened (Capture 1 0) second.1.2 = false /\
  general_running second.2 /\ survey_running second.2.
Proof. cbv zeta. repeat split. Qed.

(** A successful survey start leaves an active session with an empty list
    of detections and a worker that is not [None]. *)
Lemma start_survey_success_state
    (force_id : string) (now : datetime) (probe : nat -> probe_result)
    (settings_ok : bool) (w w1 : world) (s s1 : service) :
  start_survey_monitoring force_id now probe settings_ok w s = (true, w1, s1) ->
  survey_running s1 /\
  survey_thread s1 = Present (Some (SurveyThread force_id)) /\
  survey_detections s1 = Present [].
Proof.
  unfold start_survey_monitoring, survey_running. intros Hstart.
  destruct (match cap s with
            | Some _ => (true, w, s)
            | None =>
                let '(found, w1) := _find_available_camera probe w in
                (bool_decide (is_Some found), w1, set_cap found s)
            end) as [[have w0] s0].
  destruct have; cbn [negb] in Hstart; [|discriminate Hstart].
  destruct settings_ok; cbn [negb] in Hstart; [|discriminate Hstart].
  injection Hstart as _ <-. repeat split.
Qed.

End ServiceFacts.

(** ** Stopping a survey session *)

Section SurveyFacts.

Import Aggregation Emotion Service Runs.

Lemma stop_survey_result (set_order : set_iteration) (force_id : string)
    (session_id : option nat) (w : world) (s : service) :
  (stop_survey_monitoring set_order force_id session_id w s).1.1
  = (survey_summary set_order force_id session_id w s).1.1.
Proof.
  unfold stop_survey_monitoring.
  destruct (survey_summary set_order force_id session_id w s) as [[r w1] s1].
  destruct (survey_cleanup w1 s1) as [w2 s2]. reflexivity.
Qed.

(** C8. [stop_survey_monitoring] on an active survey session that recorded
    no detection returns, without an error entry, the dict with
    [detection_count = 0], [avg_depression_score = 0] and
    [dominant_emotion = "No Detection"]. *)
Theorem stop_survey_without_detections (set_order : set_iteration) (force_id : string)
    (session_id : option nat) (w : world) (s : service) :
  survey_running s ->
  survey_thread s <> Present None ->
  survey_detections s = Present [] ->
  (stop_survey_monitoring set_order force_id session_id w s).1.1
  = ResultDict force_id (Present session_id) (Present 0%Q) (Present "No Detection")
      (Present 0%nat) Absent (Present "No emotion data collected") Absent.
Proof.
  intros Hrun Hthread Hdets. rewrite stop_survey_result.
  unfold survey_summary, survey_running in *. rewrite Hrun.
  cbn [negb survey_thread survey_detections set_survey_thread_active set_survey_monitoring].
  rewrite Hdets.
  destruct (survey_thread s) as [|[t|]]; [reflexivity | reflexivity | congruence].
Qed.

Lemma stop_survey_without_detections_witness :
  survey_running survey_started.2 /\
  survey_thread survey_started.2 <> Present None /\
  survey_detections survey_started.2 = Present [] /\
  (stop_survey_monitoring remove_dups "CRPF001" (Some 7%nat)
     survey_started.1.2 survey_started.2).1.1
  = ResultDict "CRPF001" (Present (Some 7%nat)) (Present 0%Q) (Present "No Detection")
      (Present 0%nat) Absent (Present "No emotion data collected") Absent.
Proof.
  split; [reflexivity|]. split; [discriminate|]. split; [reflexivity|].
  apply (stop_survey_without_detections remove_dups "CRPF001" (Some 7%nat)
           survey_started.1.2 survey_started.2);
    [reflexivity | discriminate | reflexivity].
Defined.

Lemma omap_emotion_actual (ds : list survey_entry) :
  length (omap e_emotion (List.filter is_actual ds)) = length (List.filter is_actual ds).
Proof.
  induction ds as [|d ds IH]; [reflexivity|].
  cbn [List.filter]. destruct (is_actual d) eqn:Hd; [|exact IH].
  unfold is_actual in Hd. apply andb_prop in Hd. destruct Hd as [_ Hd].
  apply bool_decide_eq_true_1 in Hd. destruct Hd as [e He].
  cbn [omap list_omap]. rewrite He. cbn [length]. f_equal. exact IH.
Qed.

(** C7, as amended.  For a survey session that retained at least one
    detection carrying a score and a label, the [dominant_emotion] returned
    by [stop_survey_monitoring] is a most frequent label of those
    detections; among equally frequent labels it is the one the iteration
    of [set(emotions)] meets first, whatever that order is. *)
Theorem dominant_emotion_most_frequent (set_order : set_iteration) (force_id : string)
    (session_id : option nat) (w : world) (s : service) (detections : list survey_entry) :
  valid_set_iteration set_order ->
  survey_running s ->
  survey_thread s <> Present None ->
  survey_detections s = Present detections ->
  List.filter is_actual detections <> [] ->
  let emotions := omap e_emotion (List.filter is_actual detections) in
  exists (e : string) (pre suf : list string),
    r_dominant_emotion (stop_survey_monitoring set_order force_id session_id w s).1.1
    = Present e /\
    e ∈ emotions /\
    (forall e' : string, (count emotions e' <= count emotions e)%nat) /\
    set_order emotions = pre ++ e :: suf /\
    Forall (fun e' => (count emotions e' < count emotions e)%nat) pre.
Proof.
  intros Hvalid Hrun Hthread Hdets Hactual emotions.
  assert (Hemotions : emotions <> []).
  { intros Hnil. apply Hactual. apply length_zero_iff_nil.
    rewrite <- omap_emotion_actual. fold emotions. rewrite Hnil. reflexivity. }
  destruct (most_common_is_mode set_order emotions Hvalid Hemotions)
    as (e & pre & suf & Hmost & Hsplit & Hin & Hmax & Hpre).
  exists e, pre, suf. split; [|auto].
  rewrite stop_survey_result.
  unfold survey_summary, survey_running in *. rewrite Hrun.
  cbn [negb survey_thread survey_detections set_survey_thread_active set_survey_monitoring].
  rewrite Hdets.
  destruct detections as [|d ds]; [cbn in Hactual; congruence|].
  fold emotions.
  destruct (List.filter is_actual (d :: ds)) as [|a acts] eqn:Hfilter; [congruence|].
  rewrite Hmost.
  destruct (survey_thread s) as [|[t|]]; [reflexivity | reflexivity | congruence].
Qed.

Lemma dominant_emotion_most_frequent_witness :
  valid_set_iteration latest_first /\
  survey_running survey_with_two /\
  List.filter is_actual sad_then_happy <> [] /\
  exists (e : string) (pre suf : list string),
    r_dominant_emotion
      (stop_survey_monitoring latest_first "CRPF001" None empty_world survey_with_two).1.1
    = Present e /\
    e ∈ omap e_emotion (List.filter is_actual sad_then_happy) /\
    (forall e' : string,
       (count (omap e_emotion (List.filter is_actual sad_then_happy)) e'
        <= count (omap e_emotion (List.filter is_actual sad_then_happy)) e)%nat) /\
    latest_first (omap e_emotion (List.filter is_actual sad_then_happy)) = pre ++ e :: suf /\
    Forall (fun e' =>
              (count (omap e_emotion (List.filter is_actual sad_then_happy)) e'
               < count (omap e_emotion (List.filter is_actual sad_then_happy)) e)%nat) pre.
Proof.
  split; [exact latest_first_valid|]. split; [reflexivity|]. split; [discriminate|].
  apply (dominant_emotion_most_frequent latest_first "CRPF001" None empty_world
           survey_with_two sad_then_happy);
    [exact latest_first_valid | reflexivity | discriminate | reflexivity | discriminate].
Defined.

(** C7, as stated, fails: with two labels seen once each, an iteration of
    the set that meets "Happy" before "Sad" makes "Happy" the dominant
    emotion, although "Sad" was seen first. *)
Lemma dominant_emotion_not_first_seen :
  valid_set_iteration latest_first /\
  survey_running survey_with_two /\
  survey_detections survey_with_two = Present sad_then_happy /\
  omap e_emotion (List.filter is_actual sad_then_happy) = ["Sad"; "Happy"] /\
  count ["Sad"; "Happy"] "Sad" = count ["Sad"; "Happy"] "Happy" /\
  first_seen_mode ["Sad"; "Happy"] = Some "Sad" /\
  r_dominant_emotion
    (stop_survey_monitoring latest_first "CRPF001" None empty_world survey_with_two).1.1
  = Present "Happy".
Proof.
  split; [exact latest_first_valid|]. repeat split.
Qed.

End SurveyFacts.

(** ** The per-subject flush *)

Section FlushFacts.

Import Aggregation Service Runs.

(** C10.  With two detections buffered and a store whose connection cannot
    be made, [_calculate_and_store_average] does not return: the [finally]
    clause reads the unbound [conn], and [UnboundLocalError] reaches
    [process_frame] and leaves it.  The buffer and the flush time are left
    as they were. *)
Theorem flush_raises_when_connection_fails :
  _calculate_and_store_average "CRPF001" 104 (DateTime 15 905)
    (DbConnectError "Can't connect to MySQL server") general_started.1.2 buffering
  = (Raise (UnboundLocalError "conn"), general_started.1.2, buffering) /\
  (process_frame true sad_face 104 (DateTime 15 905)
     (DbConnectError "Can't connect to MySQL server") general_started.1.2 buffering).1.1
  = Raise (UnboundLocalError "conn").
Proof. split; vm_compute; reflexivity. Qed.

(** Whatever goes wrong with the store, the flush leaves the service object
    and the store as they were. *)
Lemma flush_failure_keeps_state (force_id : string) (current_time : Q) (now : datetime)
    (dbb : db_behaviour) (w : world) (s : service) (buffer : list detection) :
  dict_items (detection_buffer s) !! force_id = Some buffer ->
  dbb <> DbOk ->
  (_calculate_and_store_average force_id current_time now dbb w s).1.2 = w /\
  (_calculate_and_store_average force_id current_time now dbb w s).2 = s.
Proof.
  intros Hbuf Hdbb. unfold _calculate_and_store_average.
  rewrite (getitem_present _ _ _ Hbuf), set_detection_buffer_same.
  destruct buffer; [split; reflexivity|].
  destruct dbb; [congruence | split; reflexivity | split; reflexivity].
Qed.

(** A statement or commit that raises is logged and swallowed. *)
Lemma flush_query_failure_returns (force_id : string) (current_time : Q) (now : datetime)
    (msg : string) (w : world) (s : service) (buffer : list detection) :
  dict_items (detection_buffer s) !! force_id = Some buffer ->
  _calculate_and_store_average force_id current_time now (DbQueryError msg) w s
  = (Return tt, w, s).
Proof.
  intros Hbuf. unfold _calculate_and_store_average.
  rewrite (getitem_present _ _ _ Hbuf), set_detection_buffer_same.
  destruct buffer; reflexivity.
Qed.

(** A connection that cannot be made escapes as [UnboundLocalError]. *)
Lemma flush_connect_failure_raises (force_id : string) (current_time : Q) (now : datetime)
    (msg : string) (w : world) (s : service) (d : detection) (buffer : list detection) :
  dict_items (detection_buffer s) !! force_id = Some (d :: buffer) ->
  _calculate_and_store_average force_id current_time now (DbConnectError msg) w s
  = (Raise (UnboundLocalError "conn"), w, s).
Proof.
  intros Hbuf. unfold _calculate_and_store_average.
  rewrite (getitem_present _ _ _ Hbuf), set_detection_buffer_same. reflexivity.
Qed.

(** A successful flush writes one row with the peak-weighted average of the
    buffered scores, empties the buffer and advances the flush time. *)
Lemma flush_success (force_id : string) (current_time : Q) (now : datetime)
    (w : world) (s : service) (d : detection) (buffer : list detection) :
  dict_items (detection_buffer s) !! force_id = Some (d :: buffer) ->
  exists (w' : world) (s' : service),
    _calculate_and_store_average force_id current_time now DbOk w s = (Return tt, w', s') /\
    cctv_detections (db w')
    = cctv_detections (db w)
      ++ [DetectionRow (monitoring_id s) force_id now
            (calculate_peak_weighted_average (d_score <$> d :: buffer))] /\
    dict_items (detection_buffer s') !! force_id = Some [] /\
    dict_items (last_average_time s') !! force_id = Some current_time.
Proof.
  intros Hbuf. unfold _calculate_and_store_average.
  rewrite (getitem_present _ _ _ Hbuf), set_detection_buffer_same.
  eexists _, _. split; [reflexivity|]. cbn. split; [reflexivity|].
  split; apply lookup_insert_eq.
Qed.

(** The events of a failed flush are stored by the next one that works. *)
Lemma flush_retry_stores_retained (force_id : string) (t1 t2 : Q) (now1 now2 : datetime)
    (dbb : db_behaviour) (w : world) (s : service) (d : detection) (buffer : list detection) :
  dict_items (detection_buffer s) !! force_id = Some (d :: buffer) ->
  dbb <> DbOk ->
  let failed := _calculate_and_store_average force_id t1 now1 dbb w s in
  exists (w' : world) (s' : service),
    _calculate_and_store_average force_id t2 now2 DbOk failed.1.2 failed.2
    = (Return tt, w', s') /\
    cctv_detections (db w')
    = cctv_detections (db w)
      ++ [DetectionRow (monitoring_id s) force_id now2
            (calculate_peak_weighted_average (d_score <$> d :: buffer))].
Proof.
  intros Hbuf Hdbb failed.
  destruct (flush_failure_keeps_state force_id t1 now1 dbb w s _ Hbuf Hdbb) as [Hw Hs].
  subst failed. rewrite Hw, Hs.
  destruct (flush_success force_id t2 now2 w s d buffer Hbuf) as (w' & s' & H1 & H2 & _).
  exists w', s'. split; assumption.
Qed.

End FlushFacts.

(** ** Stopping a general session *)

Section DailyFacts.

Import Aggregation Service Runs.

Lemma daily_key_rewrite (f f' : string) (day : nat) (avg : Q) (r : daily_row) :
  daily_key f day (if daily_key f' day r then DailyRow (day_force_id r) (day_date r) avg else r)
  = daily_key f day r.
Proof. destruct (daily_key f' day r); reflexivity. Qed.

Lemma store_daily_sets (f : string) (day : nat) (avg : Q) (tbl : list daily_row) :
  daily_is f day avg (store_daily f day avg tbl).
Proof.
  unfold store_daily, daily_is.
  destruct (existsb (daily_key f day) tbl) eqn:Hex.
  - split.
    + apply existsb_exists in Hex. destruct Hex as (r & Hin & Hkey).
      exists (DailyRow (day_force_id r) (day_date r) avg). split.
      * apply list_elem_of_fmap. exists r. rewrite Hkey.
        split; [reflexivity | apply list_elem_of_In; exact Hin].
      * exact Hkey.
    + intros r Hin Hkey. apply list_elem_of_fmap in Hin.
      destruct Hin as (r0 & -> & _).
      rewrite daily_key_rewrite in Hkey. rewrite Hkey. reflexivity.
  - split.
    + exists (DailyRow f day avg). split; [apply elem_of_app; right; left|].
      unfold daily_key. cbn. rewrite !bool_decide_eq_true_2 by reflexivity. reflexivity.
    + intros r Hin Hkey. apply elem_of_app in Hin. destruct Hin as [Hin|Hin].
      * exfalso. assert (Htrue : existsb (daily_key f day) tbl = true).
        { apply existsb_exists. exists r. split; [apply list_elem_of_In; exact Hin | exact Hkey]. }
        congruence.
      * apply list_elem_of_singleton in Hin. subst r. reflexivity.
Qed.

Lemma daily_key_other (f f' : string) (day : nat) (r : daily_row) :
  f <> f' -> daily_key f day r = true -> daily_key f' day r = false.
Proof.
  unfold daily_key. intros Hne Hkey. apply andb_prop in Hkey. destruct Hkey as [Hf _].
  apply bool_decide_eq_true_1 in Hf.
  rewrite (bool_decide_eq_false_2 (day_force_id r = f')) by congruence. reflexivity.
Qed.

Lemma store_daily_keeps (f f' : string) (day : nat) (avg avg' : Q) (tbl : list daily_row) :
  f <> f' ->
  daily_is f day avg tbl ->
  daily_is f day avg (store_daily f' day avg' tbl).
Proof.
  intros Hne [[r0 [Hin0 Hkey0]] Hall]. unfold store_daily, daily_is.
  destruct (existsb (daily_key f' day) tbl).
  - split.
    + exists r0. split; [|exact Hkey0].
      apply list_elem_of_fmap. exists r0.
      rewrite (daily_key_other f f' day r0 Hne Hkey0). auto.
    + intros r Hin Hkey. apply list_elem_of_fmap in Hin. destruct Hin as (r1 & -> & Hin1).
      rewrite daily_key_rewrite in Hkey.
      rewrite (daily_key_other f f' day r1 Hne Hkey). apply Hall; assumption.
  - split.
    + exists r0. split; [apply elem_of_app; left; exact Hin0 | exact Hkey0].
    + intros r Hin Hkey. apply elem_of_app in Hin. destruct Hin as [Hin|Hin].
      * apply Hall; assumption.
      * apply list_elem_of_singleton in Hin. subst r. exfalso.
        unfold daily_key in Hkey. cbn in Hkey. apply andb_prop in Hkey.
        destruct Hkey as [Hf _]. apply bool_decide_eq_true_1 in Hf. congruence.
Qed.

Lemma store_daily_averages_keeps (f : string) (day : nat) (avg : Q)
    (rows : list detection_row) (force_ids : list string) (tbl : list daily_row) :
  daily_average f day rows = Some avg ->
  daily_is f day avg tbl ->
  daily_is f day avg (store_daily_averages force_ids day rows tbl).
Proof.
  intros Havg. unfold store_daily_averages.
  revert tbl. induction force_ids as [|f' l IH]; intros tbl Hinv; [exact Hinv|].
  cbn [fold_left]. apply IH.
  destruct (decide (f = f')) as [<-|Hne].
  - rewrite Havg. apply store_daily_sets.
  - destruct (daily_average f' day rows); [|exact Hinv].
    apply store_daily_keeps; assumption.
Qed.

Lemma store_daily_averages_sets (f : string) (day : nat) (avg : Q)
    (rows : list detection_row) (force_ids : list string) (tbl : list daily_row) :
  daily_average f day rows = Some avg ->
  f ∈ force_ids ->
  daily_is f day avg (store_daily_averages force_ids day rows tbl).
Proof.
  intros Havg Hin. revert tbl.
  induction force_ids as [|f' l IH]; intros tbl; [inversion Hin|].
  destruct (decide (f = f')) as [<-|Hne].
  - change (store_daily_averages (f :: l) day rows tbl)
      with (store_daily_averages l day rows
              match daily_average f day rows with
              | Some daily_avg => store_daily f day daily_avg tbl
              | None => tbl
              end).
    rewrite Havg. apply store_daily_averages_keeps; [exact Havg | apply store_daily_sets].
  - apply elem_of_cons in Hin. destruct Hin as [Heq|Hin]; [congruence|].
    apply (IH Hin).
Qed.

(** C4, as amended.  When [stop_monitoring] ends a running general session
    and the store works, then for every soldier with a row of this session
    and at least one row dated today, [daily_depression_scores] holds a row
    for that soldier and today, and every such row carries the mean of all
    of the soldier's rows dated today, whichever session wrote them. *)
Theorem stop_monitoring_persists_daily_mean
    (today : nat) (w : world) (s : service) (force_id : string) :
  general_running s ->
  force_id ∈ session_force_ids (monitoring_id s) (cctv_detections (db w)) ->
  let todays := det_score <$> List.filter (on_day force_id today) (cctv_detections (db w)) in
  todays <> [] ->
  exists (w' : world) (s' : service),
    stop_monitoring today DbOk w s = (Return true, w', s') /\
    (exists r, r ∈ daily_depression_scores (db w') /\ daily_key force_id today r = true) /\
    (forall r, r ∈ daily_depression_scores (db w') -> daily_key force_id today r = true ->
               day_score r = mean todays).
Proof.
  intros Hrun Hin todays Hne. unfold general_running in Hrun.
  unfold stop_monitoring. rewrite Hrun. cbn [negb].
  eexists _, _. split; [reflexivity|].
  cbn [db set_db daily_depression_scores monitoring_id set_is_monitoring cap].
  assert (Hdb : forall w1 : world,
             w1 = match cap s with
                  | Some c => if isOpened c w then release c w else w
                  | None => w
                  end -> db w1 = db w).
  { intros w1 ->. destruct (cap s) as [c|]; [|reflexivity].
    destruct (isOpened c w); reflexivity. }
  rewrite (Hdb _ eq_refl).
  apply store_daily_averages_sets; [|exact Hin].
  unfold daily_average, sql_avg. fold todays.
  destruct todays; [congruence | reflexivity].
Qed.

Lemma stop_monitoring_persists_daily_mean_witness :
  general_running second_session /\
  "CRPF001" ∈ session_force_ids (monitoring_id second_session)
                (cctv_detections (db second_session_world)) /\
  det_score <$> List.filter (on_day "CRPF001" 15) (cctv_detections (db second_session_world))
  <> [] /\
  exists (w' : world) (s' : service),
    stop_monitoring 15 DbOk second_session_world second_session = (Return true, w', s') /\
    (exists r, r ∈ daily_depression_scores (db w') /\ daily_key "CRPF001" 15 r = true) /\
    (forall r, r ∈ daily_depression_scores (db w') -> daily_key "CRPF001" 15 r = true ->
               day_score r
               = mean (det_score <$> List.filter (on_day "CRPF001" 15)
                                       (cctv_detections (db second_session_world)))).
Proof.
  assert (Hin : "CRPF001" ∈ session_force_ids (monitoring_id second_session)
                              (cctv_detections (db second_session_world))).
  { apply (bool_decide_unpack _). vm_compute. exact I. }
  split; [reflexivity|]. split; [exact Hin|]. split; [discriminate|].
  apply (stop_monitoring_persists_daily_mean 15 second_session_world second_session "CRPF001");
    [reflexivity | exact Hin | discriminate].
Defined.

(** C4, as stated, fails: with one flushed score 0.2 in a first session and
    one flushed score 0.8 in the second session of the same day, stopping
    the second session persists 0.5 for the soldier, while the mean of the
    scores of the second session is 0.8. *)
Lemma stop_monitoring_mixes_sessions_of_a_day :
  let stopped := stop_monitoring 15 DbOk second_session_world second_session in
  general_running second_session /\
  stopped.1.1 = Return true /\
  daily_depression_scores (db stopped.1.2) = [DailyRow "CRPF001" 15 (100 # 200)] /\
  session_average (monitoring_id second_session) "CRPF001"
    (cctv_detections (db second_session_world)) = Some (8 # 10) /\
  ~ (100 # 200 == 8 # 10)%Q.
Proof.
  cbv zeta. split; [reflexivity|]. split; [reflexivity|].
  split; [vm_compute; reflexivity|]. split; [vm_compute; reflexivity|].
  vm_compute. discriminate.
Qed.

End DailyFacts.

(** ** The text average against the plain average *)

Section MoreAggregationFacts.

Import Aggregation Sentiment.
Local Open Scope Q_scope.

(** The scores below the threshold weigh less than the threshold each. *)
Lemma high_risk_split (l : list Q) :
  exists low_sum low_len : Q,
    sum l == sum (high_risk_of l) + low_sum /\
    len l == len (high_risk_of l) + low_len /\
    0 <= low_len /\
    low_sum <= HIGH_RISK_THRESHOLD * low_len /\
    HIGH_RISK_THRESHOLD * len (high_risk_of l) <= sum (high_risk_of l).
Proof.
  induction l as [|x l (ls & ll & Hs & Hl & Hpos & Hlow & Hhigh)].
  - exists 0, 0. change (high_risk_of []) with (@nil Q).
    change (sum []) with 0. change (len (@nil Q)) with 0. repeat split; lra.
  - cbn [high_risk_of]. destruct (Qle_bool HIGH_RISK_THRESHOLD x) eqn:Hx.
    + apply Qle_bool_iff in Hx. exists ls, ll.
      rewrite !sum_cons, !len_cons. repeat split; lra.
    + assert (Hlt : x < HIGH_RISK_THRESHOLD).
      { apply Qnot_le_lt. intros Hle. apply Qle_bool_iff in Hle. congruence. }
      exists (x + ls), (1 + ll). rewrite sum_cons, len_cons. repeat split; lra.
Qed.

Lemma high_risk_mean_not_below (x : Q) (l : list Q) :
  high_risk_of (x :: l) <> [] ->
  mean (x :: l) <= mean (high_risk_of (x :: l)).
Proof.
  intros Hne. unfold mean.
  destruct (high_risk_split (x :: l)) as (ls & ll & Hs & Hl & Hpos & Hlow & Hhigh).
  destruct (high_risk_of (x :: l)) as [|z zs]; [congruence|].
  pose proof (len_pos x l) as Hn. pose proof (len_pos z zs) as Hk.
  apply Qle_shift_div_r; [exact Hn|].
  unfold Qdiv. rewrite <- Qmult_assoc, (Qmult_comm (/ len (z :: zs))), Qmult_assoc.
  apply Qle_shift_div_l; [exact Hk|].
  rewrite Hs, Hl.
  set (T := HIGH_RISK_THRESHOLD) in *. set (sh := sum (z :: zs)) in *.
  set (k := len (z :: zs)) in *.
  assert (H1 : ls * k <= T * ll * k) by (apply Qmult_le_compat_r; lra).
  assert (H2 : T * k * ll <= sh * ll) by (apply Qmult_le_compat_r; lra).
  lra.
Qed.

(** X2. For every list of scores, [calculate_peak_weighted_nlp_average] is at
    least [calculate_average_score] of the same list: the weight on the
    high-risk answers can only raise the result. *)
Theorem nlp_average_not_below_plain_average (scores : list (option Q)) :
  calculate_average_score scores <= calculate_peak_weighted_nlp_average scores.
Proof.
  unfold calculate_average_score, calculate_peak_weighted_nlp_average.
  destruct scores as [|o rest]; [cbn; lra|]. cbn [is_empty].
  destruct (valid_of (o :: rest)) as [|x [|y l]]; cbn [is_empty].
  - lra.
  - unfold mean. rewrite sum_cons. change (sum []) with 0.
    change (len [x]) with 1. field_simplify. lra.
  - destruct (high_risk_of (x :: y :: l)) as [|z zs] eqn:Hh; [lra|].
    assert (Hm : mean (x :: y :: l) <= mean (high_risk_of (x :: y :: l))).
    { apply high_risk_mean_not_below. rewrite Hh. discriminate. }
    rewrite Hh in Hm. lra.
Qed.

End MoreAggregationFacts.

(** ** The text scores *)

Section SentimentFacts.

Import Aggregation Sentiment.
Local Open Scope Q_scope.

Lemma lstrip_blank (t : text) : forallb py_isspace t = true -> lstrip t = [].
Proof.
  induction t as [|c t IH]; [reflexivity|].
  cbn [forallb lstrip]. intros H. apply andb_prop in H. destruct H as [Hc Ht].
  rewrite Hc. apply IH, Ht.
Qed.

Lemma lstrip_head (t : text) :
  lstrip t = [] \/ exists c rest, lstrip t = c :: rest /\ py_isspace c = false.
Proof.
  induction t as [|c t IH]; [left; reflexivity|].
  cbn [lstrip]. destruct (py_isspace c) eqn:Hc; [exact IH|].
  right. exists c, t. split; [reflexivity | exact Hc].
Qed.

Lemma lstrip_nil_blank (t : text) : lstrip t = [] -> forallb py_isspace t = true.
Proof.
  induction t as [|c t IH]; [reflexivity|].
  cbn [lstrip forallb]. destruct (py_isspace c); [exact IH | discriminate].
Qed.

Lemma strip_nil_iff (t : text) : strip t = [] <-> forallb py_isspace t = true.
Proof.
  unfold strip. split.
  - intros H. apply lstrip_nil_blank.
    destruct (lstrip_head t) as [Hnil|(c & rest & Heq & Hc)]; [exact Hnil|].
    exfalso. rewrite Heq in H.
    assert (Hrev : lstrip (rev (c :: rest)) = []).
    { destruct (lstrip (rev (c :: rest))); [reflexivity|].
      apply (f_equal (@length N)) in H. rewrite length_rev in H. discriminate H. }
    apply lstrip_nil_blank in Hrev. rewrite forallb_forall in Hrev.
    specialize (Hrev c). rewrite Hrev in Hc; [discriminate|].
    apply in_rev. rewrite rev_involutive. left. reflexivity.
  - intros H. rewrite (lstrip_blank t H). reflexivity.
Qed.

Lemma blank_test (t : text) :
  is_empty t || is_empty (strip t) = forallb py_isspace t.
Proof.
  destruct (forallb py_isspace t) eqn:Hb.
  - apply strip_nil_iff in Hb. rewrite Hb. apply orb_true_r.
  - destruct t as [|c t]; [discriminate|]. cbn [is_empty orb].
    destruct (strip (c :: t)) eqn:Hs; [|reflexivity].
    apply strip_nil_iff in Hs. congruence.
Qed.

(** X4. For a string, [calculate_depression_score] returns 0.5 when every
    character of it is whitespace (the empty string included) and
    [(1 - compound) / 2] of VADER's compound score otherwise. *)
Theorem depression_score_of_text (compound_of : text -> Q) (t : text) :
  calculate_depression_score compound_of (Some t)
  = if forallb py_isspace t then 5 # 10 else (1 - compound_of t) / 2.
Proof.
  unfold calculate_depression_score, analyze_sentiment. rewrite blank_test.
  destruct (forallb py_isspace t); reflexivity.
Qed.

(** X5. The label [analyze_sentiment] returns is fixed by the score it returns:
    POSITIVE exactly when the score is at most 0.475, NEGATIVE exactly when
    it is at least 0.525, NEUTRAL exactly when it is strictly between. *)
Theorem sentiment_label_matches_score (compound_of : text -> Q) (t : option text) :
  let score := (analyze_sentiment compound_of t).1 in
  let label := (analyze_sentiment compound_of t).2 in
  (label = "POSITIVE" <-> score <= 475 # 1000) /\
  (label = "NEGATIVE" <-> 525 # 1000 <= score) /\
  (label = "NEUTRAL" <-> 475 # 1000 < score /\ score < 525 # 1000).
Proof.
  cbv zeta. unfold analyze_sentiment.
  destruct t as [t|]; [destruct (is_empty t || is_empty (strip t))|]; cbn [fst snd].
  2: { assert (Hd : (1 - compound_of t) / 2 == (1 # 2) - (1 # 2) * compound_of t) by field.
       revert Hd. generalize ((1 - compound_of t) / 2). intros d Hd.
       destruct (Qle_bool (5 # 100) (compound_of t)) eqn:Hp.
       - apply Qle_bool_iff in Hp.
         repeat split; intros; try reflexivity; try congruence; try lra; try (split; lra); try (exfalso; lra).
       - assert (Hp' : compound_of t < 5 # 100).
         { apply Qnot_le_lt. intros Hle. apply Qle_bool_iff in Hle. congruence. }
         destruct (Qle_bool (compound_of t) (- (5 # 100))) eqn:Hn.
         + apply Qle_bool_iff in Hn.
           repeat split; intros; try reflexivity; try congruence; try lra; try (split; lra); try (exfalso; lra).
         + assert (Hn' : - (5 # 100) < compound_of t).
           { apply Qnot_le_lt. intros Hle. apply Qle_bool_iff in Hle. congruence. }
           repeat split; intros; try reflexivity; try congruence; try lra; try (split; lra); try (exfalso; lra). }
  all: repeat split; intros; try reflexivity; try congruence; try lra; try (split; lra); try (exfalso; lra).
Qed.

(** X6. If VADER's compound score always lies in [-1, 1], the score of
    [calculate_depression_score] lies in [0, 1] for every input, [None] and
    blank text included. *)
Theorem depression_score_in_unit_interval (compound_of : text -> Q) (t : option text) :
  (forall t' : text, -1 <= compound_of t' /\ compound_of t' <= 1) ->
  0 <= calculate_depression_score compound_of t /\
  calculate_depression_score compound_of t <= 1.
Proof.
  intros Hrange. unfold calculate_depression_score, analyze_sentiment.
  destruct t as [t|]; [destruct (is_empty t || is_empty (strip t))|]; try lra.
  specialize (Hrange t).
  assert (Hd : (1 - compound_of t) / 2 == (1 # 2) - (1 # 2) * compound_of t) by field.
  lra.
Qed.

Lemma depression_score_in_unit_interval_witness :
  (forall t' : text, -1 <= (fun _ : text => -1 # 2) t' /\ (fun _ : text => -1 # 2) t' <= 1) /\
  0 <= calculate_depression_score (fun _ => -1 # 2) (Some [104; 105]%N) /\
  calculate_depression_score (fun _ => -1 # 2) (Some [104; 105]%N) <= 1.
Proof.
  assert (Hrange : forall t' : text,
             -1 <= (fun _ : text => -1 # 2) t' /\ (fun _ : text => -1 # 2) t' <= 1).
  { intros _. split; discriminate. }
  split; [exact Hrange|].
  apply (depression_score_in_unit_interval (fun _ => -1 # 2) (Some [104; 105]%N) Hrange).
Defined.

End SentimentFacts.

(** ** Finding a camera and starting a session *)

Section CameraFacts.

Import Aggregation Service Control Runs.

Lemma try_camera_ready (probe : nat -> probe_result) (index : nat) (w : world) :
  camera_ready (probe index) = true ->
  try_camera probe index w
  = (Some (Capture index (next_capture w)),
     World ({[ next_capture w ]} ∪ open_captures w) (S (next_capture w)) (db w) (spawned w)).
Proof.
  intros Hready. unfold camera_ready in Hready.
  apply andb_prop in Hready. destruct Hready as [Hready Hframe].
  apply andb_prop in Hready. destruct Hready as [Hopen Hret].
  unfold try_camera, VideoCapture, isOpened.
  cbn [cap_serial open_captures]. rewrite Hopen, Hret, Hframe.
  rewrite bool_decide_eq_true_2
    by (apply elem_of_union_l, elem_of_singleton; reflexivity).
  reflexivity.
Qed.

Lemma world_ok_opened (w : world) :
  world_ok w ->
  world_ok (World ({[ next_capture w ]} ∪ open_captures w) (S (next_capture w))
              (db w) (spawned w)).
Proof.
  intros Hok n Hn. cbn in *. apply elem_of_union in Hn. destruct Hn as [Hn|Hn].
  - apply elem_of_singleton in Hn. lia.
  - apply Hok in Hn. lia.
Qed.

Lemma fresh_capture (w : world) : world_ok w -> next_capture w ∉ open_captures w.
Proof. intros Hok Hin. apply Hok in Hin. lia. Qed.

(** What [_find_available_camera] returns and leaves open. *)
Lemma find_camera_cases (probe : nat -> probe_result) (w : world) :
  world_ok w ->
  (camera_ready (probe 1%nat) = true /\
   _find_available_camera probe w
   = (Some (Capture 1 (next_capture w)),
      World ({[ next_capture w ]} ∪ open_captures w) (S (next_capture w)) (db w) (spawned w)))
  \/
  (camera_ready (probe 1%nat) = false /\ camera_ready (probe 0%nat) = true /\
   _find_available_camera probe w
   = (Some (Capture 0 (S (next_capture w))),
      World ({[ S (next_capture w) ]} ∪ open_captures w) (S (S (next_capture w)))
        (db w) (spawned w)))
  \/
  (camera_ready (probe 1%nat) = false /\ camera_ready (probe 0%nat) = false /\
   _find_available_camera probe w
   = (None, World (open_captures w) (S (S (next_capture w))) (db w) (spawned w))).
Proof.
  intros Hok. unfold _find_available_camera.
  destruct (camera_ready (probe 1%nat)) eqn:H1.
  - left. split; [reflexivity|]. rewrite (try_camera_ready probe 1 w H1). reflexivity.
  - right. rewrite (try_camera_not_ready probe 1 w Hok H1).
    destruct (camera_ready (probe 0%nat)) eqn:H0.
    + left. split; [reflexivity|]. split; [reflexivity|].
      rewrite (try_camera_ready probe 0 _ H0). reflexivity.
    + right. split; [reflexivity|]. split; [reflexivity|].
      rewrite (try_camera_not_ready probe 0 _ (world_ok_next w Hok) H0). reflexivity.
Qed.

(** X7. [_find_available_camera] tries device 1 before device 0: it returns an
    open capture of device 1 if that is ready, otherwise of device 0 if that
    is ready, otherwise [None].  A returned capture is new and is the only
    one it leaves open; with [None] it leaves none open; the database and the
    threads are untouched. *)
Theorem find_available_camera_result (probe : nat -> probe_result) (w : world) :
  world_ok w ->
  let found := (_find_available_camera probe w).1 in
  let w' := (_find_available_camera probe w).2 in
  world_ok w' /\ db w' = db w /\ spawned w' = spawned w /\
  match found with
  | Some c =>
      cap_device c = (if camera_ready (probe 1%nat) then 1%nat else 0%nat) /\
      camera_ready (probe (cap_device c)) = true /\
      (cap_serial c ∉ open_captures w) /\
      open_captures w' = {[ cap_serial c ]} ∪ open_captures w
  | None =>
      camera_ready (probe 1%nat) = false /\ camera_ready (probe 0%nat) = false /\
      open_captures w' = open_captures w
  end.
Proof.
  intros Hok. cbv zeta.
  destruct (find_camera_cases probe w Hok)
    as [[H1 ->]|[(H1 & H0 & ->)|(H1 & H0 & ->)]]; cbn [fst snd].
  - split; [apply world_ok_opened, Hok|]. rewrite H1. cbn.
    repeat split; try assumption. apply fresh_capture, Hok.
  - split; [exact (world_ok_opened _ (world_ok_next w Hok))|]. rewrite H1. cbn.
    repeat split; try assumption.
    intros Hin. apply Hok in Hin. lia.
  - split; [intros n Hn; cbn in *; apply Hok in Hn; lia|]. cbn. repeat split; assumption.
Qed.


Lemma find_available_camera_result_witness :
  world_ok empty_world /\
  let found := (_find_available_camera working_cameras empty_world).1 in
  let w' := (_find_available_camera working_cameras empty_world).2 in
  world_ok w' /\ db w' = db empty_world /\ spawned w' = spawned empty_world /\
  match found with
  | Some c =>
      cap_device c = (if camera_ready (working_cameras 1%nat) then 1%nat else 0%nat) /\
      camera_ready (working_cameras (cap_device c)) = true /\
      (cap_serial c ∉ open_captures empty_world) /\
      open_captures w' = {[ cap_serial c ]} ∪ open_captures empty_world
  | None =>
      camera_ready (working_cameras 1%nat) = false /\
      camera_ready (working_cameras 0%nat) = false /\
      open_captures w' = open_captures empty_world
  end.
Proof.
  assert (Hok : world_ok empty_world).
  { intros n Hn. exfalso. revert Hn. apply not_elem_of_empty. }
  split; [exact Hok|].
  apply (find_available_camera_result working_cameras empty_world Hok).
Defined.

Lemma fresh_monitoring_id_above (rows : list monitoring_row) (r : monitoring_row) :
  r ∈ rows -> (mon_id r < fresh_monitoring_id rows)%nat.
Proof.
  unfold fresh_monitoring_id. induction rows as [|r0 rows IH]; intros Hin.
  - inversion Hin.
  - cbn [fmap list_fmap foldr]. apply elem_of_cons in Hin. destruct Hin as [->|Hin].
    + lia.
    + specialize (IH Hin). lia.
Qed.

Lemma released_ok (w : world) (s : service) :
  world_ok w ->
  world_ok (released w s).1 /\ db (released w s).1 = db w /\
  spawned (released w s).1 = spawned w /\
  open_captures (released w s).1 ⊆ open_captures w /\
  cap (released w s).2 = None /\
  is_monitoring (released w s).2 = is_monitoring s /\
  detection_buffer (released w s).2 = detection_buffer s /\
  last_average_time (released w s).2 = last_average_time s /\
  survey_monitoring (released w s).2 = survey_monitoring s.
Proof.
  intros Hok. unfold released. destruct (cap s) as [c|] eqn:Hcap; cbn.
  - split; [exact (world_ok_release c w Hok)|]. repeat split.
    apply subseteq_difference_l. reflexivity.
  - repeat split; try assumption. reflexivity.
Qed.

Lemma start_monitoring_passed_guard (date : string) (now_time : nat)
    (probe : nat -> probe_result) (dbb : db_behaviour) (w : world) (s : service) :
  is_monitoring s = false ->
  start_monitoring date now_time probe dbb w s
  = let w1 := (released w s).1 in
    let s1 := (released w s).2 in
    let found := (_find_available_camera probe w1).1 in
    let w2 := (_find_available_camera probe w1).2 in
    let s2 := set_cap found s1 in
    match found with
    | None =>
        start_monitoring_failed
          "Could not find any available camera - please connect a camera" w2 s2
    | Some _ =>
        match dbb with
        | DbConnectError msg => start_monitoring_failed msg w2 s2
        | DbQueryError msg => start_monitoring_failed ("Database error: " +:+ msg) w2 s2
        | DbOk =>
            let rows := cctv_daily_monitoring (db w2) in
            let id := fresh_monitoring_id rows in
            let d := Database (rows ++ [MonitoringRow id date now_time "23:59:59" "partial"])
                       (cctv_detections (db w2)) (daily_depression_scores (db w2)) in
            let t := MonitorThread date in
            (Return true, spawn t (set_db d w2),
             set_monitor_thread (Some t)
               (set_is_monitoring true (set_monitoring_id (Some id) s2)))
        end
    end.
Proof.
  intros Hidle. unfold start_monitoring, released. rewrite Hidle.
  destruct (cap s) as [c|]; cbn [fst snd];
    destruct (_find_available_camera probe _) as [found w2]; reflexivity.
Qed.

(** A start that passes the guard, finds a camera and reaches the store. *)
Lemma start_monitoring_started (date : string) (now_time : nat)
    (probe : nat -> probe_result) (w : world) (s : service) :
  world_ok w ->
  is_monitoring s = false ->
  camera_ready (probe 1%nat) = true \/ camera_ready (probe 0%nat) = true ->
  exists (c : capture) (w' : world) (s' : service),
    start_monitoring date now_time probe DbOk w s = (Return true, w', s') /\
    world_ok w' /\
    cap s' = Some c /\ isOpened c w' = true /\
    cap_device c = (if camera_ready (probe 1%nat) then 1%nat else 0%nat) /\
    is_monitoring s' = true /\
    monitoring_id s' = Some (fresh_monitoring_id (cctv_daily_monitoring (db w))) /\
    cctv_daily_monitoring (db w')
    = cctv_daily_monitoring (db w)
      ++ [MonitoringRow (fresh_monitoring_id (cctv_daily_monitoring (db w))) date now_time
            "23:59:59" "partial"] /\
    cctv_detections (db w') = cctv_detections (db w) /\
    daily_depression_scores (db w') = daily_depression_scores (db w) /\
    spawned w' = spawned w ++ [MonitorThread date] /\
    detection_buffer s' = detection_buffer s /\
    last_average_time s' = last_average_time s.
Proof.
  intros Hok Hidle Hready.
  rewrite (start_monitoring_passed_guard _ _ _ _ _ _ Hidle). cbv zeta.
  destruct (released_ok w s Hok) as (Hok1 & Hdb1 & Hsp1 & _ & _ & _ & Hbuf & Htime & _).
  destruct (find_camera_cases probe _ Hok1)
    as [[H1 ->]|[(H1 & H0 & ->)|(H1 & H0 & Hnone)]]; cbn [fst snd].
  - eexists _, _, _. split; [reflexivity|]. rewrite H1. cbn. rewrite Hdb1, Hsp1.
    split; [exact (world_ok_opened _ Hok1)|].
    repeat split; try assumption.
    apply bool_decide_eq_true_2, elem_of_union_l, elem_of_singleton. reflexivity.
  - eexists _, _, _. split; [reflexivity|]. rewrite H1. cbn. rewrite Hdb1, Hsp1.
    split; [exact (world_ok_opened _ (world_ok_next _ Hok1))|].
    repeat split; try assumption.
    apply bool_decide_eq_true_2, elem_of_union_l, elem_of_singleton. reflexivity.
  - destruct Hready; congruence.
Qed.

(** X8. With no session running, a camera ready and the store working,
    [start_monitoring] returns [True], holds an open capture of the preferred
    device, sets [is_monitoring], takes a monitoring id that no existing row
    has, appends exactly one 'partial' row ending 23:59:59 to
    [cctv_daily_monitoring] and starts exactly one worker thread. *)
Theorem start_monitoring_success (date : string) (now_time : nat)
    (probe : nat -> probe_result) (w : world) (s : service) :
  world_ok w ->
  is_monitoring s = false ->
  camera_ready (probe 1%nat) = true \/ camera_ready (probe 0%nat) = true ->
  exists (c : capture) (id : nat) (w' : world) (s' : service),
    start_monitoring date now_time probe DbOk w s = (Return true, w', s') /\
    cap s' = Some c /\ isOpened c w' = true /\
    cap_device c = (if camera_ready (probe 1%nat) then 1%nat else 0%nat) /\
    is_monitoring s' = true /\ monitoring_id s' = Some id /\
    (forall r, r ∈ cctv_daily_monitoring (db w) -> mon_id r <> id) /\
    cctv_daily_monitoring (db w')
    = cctv_daily_monitoring (db w) ++ [MonitoringRow id date now_time "23:59:59" "partial"] /\
    spawned w' = spawned w ++ [MonitorThread date].
Proof.
  intros Hok Hidle Hready.
  destruct (start_monitoring_started date now_time probe w s Hok Hidle Hready)
    as (c & w' & s' & Hrun & _ & Hcap & Hopen & Hdev & Hmon & Hid & Hrows & _ & _ & Hsp & _).
  exists c, (fresh_monitoring_id (cctv_daily_monitoring (db w))), w', s'.
  repeat split; try assumption.
  intros r Hin Heq. apply fresh_monitoring_id_above in Hin. lia.
Qed.

Lemma start_monitoring_success_witness :
  world_ok empty_world /\ is_monitoring init = false /\
  (camera_ready (working_cameras 1%nat) = true \/ camera_ready (working_cameras 0%nat) = true) /\
  exists (c : capture) (id : nat) (w' : world) (s' : service),
    start_monitoring "2024-01-15" 900 working_cameras DbOk empty_world init
    = (Return true, w', s') /\
    cap s' = Some c /\ isOpened c w' = true /\
    cap_device c = (if camera_ready (working_cameras 1%nat) then 1%nat else 0%nat) /\
    is_monitoring s' = true /\ monitoring_id s' = Some id /\
    (forall r, r ∈ cctv_daily_monitoring (db empty_world) -> mon_id r <> id) /\
    cctv_daily_monitoring (db w')
    = cctv_daily_monitoring (db empty_world)
      ++ [MonitoringRow id "2024-01-15" 900 "23:59:59" "partial"] /\
    spawned w' = spawned empty_world ++ [MonitorThread "2024-01-15"].
Proof.
  assert (Hok : world_ok empty_world).
  { intros n Hn. exfalso. revert Hn. apply not_elem_of_empty. }
  split; [exact Hok|]. split; [reflexivity|]. split; [left; reflexivity|].
  apply (start_monitoring_success "2024-01-15" 900 working_cameras empty_world init);
    [exact Hok | reflexivity | left; reflexivity].
Defined.

(** X9. If the store fails while no session runs, [start_monitoring] raises and
    leaves the service without capture, session flag or monitoring id; no
    capture it opened stays open, nothing is written and no thread is
    started. *)
Theorem start_monitoring_store_failure_releases_camera (date : string) (now_time : nat)
    (probe : nat -> probe_result) (dbb : db_behaviour) (w : world) (s : service) :
  world_ok w ->
  is_monitoring s = false ->
  dbb <> DbOk ->
  exists (msg : string) (w' : world) (s' : service),
    start_monitoring date now_time probe dbb w s = (Raise (PyException msg), w', s') /\
    cap s' = None /\ is_monitoring s' = false /\ monitoring_id s' = None /\
    open_captures w' ⊆ open_captures w /\
    db w' = db w /\ spawned w' = spawned w.
Proof.
  intros Hok Hidle Hdbb.
  rewrite (start_monitoring_passed_guard _ _ _ _ _ _ Hidle). cbv zeta.
  destruct (released_ok w s Hok) as (Hok1 & Hdb1 & Hsp1 & Hsub & Hcap1 & _).
  destruct (find_camera_cases probe _ Hok1)
    as [[H1 ->]|[(H1 & H0 & ->)|(H1 & H0 & ->)]]; cbn [fst snd].
  1, 2: destruct dbb as [|msg|msg]; [congruence| |];
    unfold start_monitoring_failed; cbn;
    (eexists _, _, _; split; [reflexivity|]); cbn; rewrite Hdb1, Hsp1;
    repeat split;
    rewrite difference_union_distr_l_L, difference_diag_L, (left_id_L ∅ (∪));
    apply subseteq_difference_l; exact Hsub.
  unfold start_monitoring_failed; cbn.
  eexists _, _, _. split; [reflexivity|]. cbn. rewrite Hdb1, Hsp1.
  repeat split. exact Hsub.
Qed.

Lemma start_monitoring_store_failure_releases_camera_witness :
  world_ok empty_world /\ is_monitoring init = false /\
  DbQueryError "Deadlock found" <> DbOk /\
  exists (msg : string) (w' : world) (s' : service),
    start_monitoring "2024-01-15" 900 working_cameras (DbQueryError "Deadlock found")
      empty_world init
    = (Raise (PyException msg), w', s') /\
    cap s' = None /\ is_monitoring s' = false /\ monitoring_id s' = None /\
    open_captures w' ⊆ open_captures empty_world /\
    db w' = db empty_world /\ spawned w' = spawned empty_world.
Proof.
  assert (Hok : world_ok empty_world).
  { intros n Hn. exfalso. revert Hn. apply not_elem_of_empty. }
  split; [exact Hok|]. split; [reflexivity|]. split; [discriminate|].
  apply (start_monitoring_store_failure_releases_camera "2024-01-15" 900 working_cameras
           (DbQueryError "Deadlock found") empty_world init);
    [exact Hok | reflexivity | discriminate].
Defined.

End CameraFacts.

(** ** Stopping a session *)

Section StopFacts.

Import Aggregation Service Control Runs.

Lemma stop_monitoring_running (today : nat) (dbb : db_behaviour) (w : world) (s : service) :
  is_monitoring s = true ->
  stop_monitoring today dbb w s
  = let s1 := set_is_monitoring false s in
    let w1 := match cap s with
              | Some c => if isOpened c w then release c w else w
              | None => w
              end in
    match dbb with
    | DbConnectError _ => (Raise (UnboundLocalError "conn"), w1, s1)
    | DbQueryError _ => (Return false, w1, s1)
    | DbOk =>
        let rows := cctv_detections (db w) in
        let force_ids := session_force_ids (monitoring_id s) rows in
        let tbl := store_daily_averages force_ids today rows (daily_depression_scores (db w)) in
        (Return true, set_db (Database (cctv_daily_monitoring (db w)) rows tbl) w1,
         set_emotion_detection_service (Present tt)
           (set_last_average_time (PyDict (Some 0%Q) ∅)
              (set_detection_buffer (PyDict (Some []) ∅)
                 (set_monitoring_id None s1))))
    end.
Proof.
  intros Hrun. unfold stop_monitoring. rewrite Hrun. cbn [negb].
  cbn [cap set_is_monitoring monitoring_id].
  assert (Hdb : db match cap s with
                   | Some c => if isOpened c w then release c w else w
                   | None => w
                   end = db w).
  { destruct (cap s) as [c|]; [destruct (isOpened c w)|]; reflexivity. }
  destruct dbb; try reflexivity. cbv zeta. rewrite Hdb. reflexivity.
Qed.

Lemma world_ok_closed (w : world) (s : service) :
  world_ok w ->
  world_ok match cap s with
           | Some c => if isOpened c w then release c w else w
           | None => w
           end.
Proof.
  intros Hok. destruct (cap s) as [c|]; [|exact Hok].
  destruct (isOpened c w); [apply world_ok_release|]; exact Hok.
Qed.

(** X10. A running session can be stopped and monitoring started again: with the
    store working and a camera ready, [stop_monitoring] returns [True] and
    the following [start_monitoring] returns [True] with an open capture, a
    monitoring id no earlier row has, an empty buffer for every soldier and
    one new worker thread. *)
Theorem restart_after_stop (today : nat) (date : string) (now_time : nat)
    (probe : nat -> probe_result) (w : world) (s : service) :
  world_ok w ->
  is_monitoring s = true ->
  camera_ready (probe 1%nat) = true \/ camera_ready (probe 0%nat) = true ->
  exists (w1 : world) (s1 : service) (c : capture) (id : nat) (w2 : world) (s2 : service),
    stop_monitoring today DbOk w s = (Return true, w1, s1) /\
    start_monitoring date now_time probe DbOk w1 s1 = (Return true, w2, s2) /\
    cap s2 = Some c /\ isOpened c w2 = true /\
    is_monitoring s2 = true /\ monitoring_id s2 = Some id /\
    (forall r, r ∈ cctv_daily_monitoring (db w) -> mon_id r <> id) /\
    (forall k : string, buffered s2 k = []) /\
    spawned w2 = spawned w ++ [MonitorThread date].
Proof.
  intros Hok Hrun Hready.
  rewrite (stop_monitoring_running today DbOk w s Hrun). cbv zeta.
  eexists _, _. 
  edestruct (start_monitoring_started date now_time probe) as
    (c & w2 & s2 & Hstart & _ & Hcap & Hopen & _ & Hmon & Hid & Hrows & _ & _ & Hsp & Hbuf & _);
    [| |exact Hready|].
  3: { exists c, (fresh_monitoring_id (cctv_daily_monitoring (db w))), w2, s2.
       split; [reflexivity|]. split; [exact Hstart|].
       split; [exact Hcap|]. split; [exact Hopen|]. split; [exact Hmon|].
       split; [exact Hid|].
       split; [intros r Hin Heq; apply fresh_monitoring_id_above in Hin; cbn in Heq; lia|].
       split; [|rewrite Hsp; cbn; destruct (cap s) as [c0|]; [destruct (isOpened c0 w)|];
                 reflexivity].
       intros k. unfold buffered. rewrite Hbuf. reflexivity. }
  - intros n Hn. cbn in Hn |- *.
    pose proof (world_ok_closed w s Hok) as Hc.
    destruct (cap s) as [c0|]; [destruct (isOpened c0 w)|]; apply Hc in Hn; exact Hn.
  - reflexivity.
Qed.

Lemma second_session_world_ok : world_ok second_session_world.
Proof.
  intros n Hn. unfold second_session_world in *. cbn [open_captures next_capture] in *.
  apply elem_of_singleton in Hn. lia.
Qed.

Lemma restart_after_stop_witness :
  world_ok second_session_world /\ is_monitoring second_session = true /\
  (camera_ready (working_cameras 1%nat) = true \/ camera_ready (working_cameras 0%nat) = true) /\
  exists (w1 : world) (s1 : service) (c : capture) (id : nat) (w2 : world) (s2 : service),
    stop_monitoring 15 DbOk second_session_world second_session = (Return true, w1, s1) /\
    start_monitoring "2024-01-16" 900 working_cameras DbOk w1 s1 = (Return true, w2, s2) /\
    cap s2 = Some c /\ isOpened c w2 = true /\
    is_monitoring s2 = true /\ monitoring_id s2 = Some id /\
    (forall r, r ∈ cctv_daily_monitoring (db second_session_world) -> mon_id r <> id) /\
    (forall k : string, buffered s2 k = []) /\
    spawned w2 = spawned second_session_world ++ [MonitorThread "2024-01-16"].
Proof.
  split; [exact second_session_world_ok|]. split; [reflexivity|].
  split; [left; reflexivity|].
  apply (restart_after_stop 15 "2024-01-16" 900 working_cameras second_session_world
           second_session); [exact second_session_world_ok | reflexivity | left; reflexivity].
Defined.

(** X11. If the store fails during [stop_monitoring], the call does not return
    [True] and writes nothing, yet the session flag is already cleared: any
    later [stop_monitoring] returns [False] and does nothing, so a retry never
    writes the daily averages.  Monitoring id and detection buffer are left
    as they were. *)
Theorem failed_stop_is_final (today today' : nat) (dbb dbb' : db_behaviour)
    (w : world) (s : service) :
  is_monitoring s = true ->
  dbb <> DbOk ->
  let failed := stop_monitoring today dbb w s in
  failed.1.1 <> Return true /\
  db failed.1.2 = db w /\
  monitoring_id failed.2 = monitoring_id s /\
  detection_buffer failed.2 = detection_buffer s /\
  stop_monitoring today' dbb' failed.1.2 failed.2 = (Return false, failed.1.2, failed.2).
Proof.
  intros Hrun Hdbb. cbv zeta.
  rewrite (stop_monitoring_running today dbb w s Hrun). cbv zeta.
  assert (Hdb : db match cap s with
                   | Some c => if isOpened c w then release c w else w
                   | None => w
                   end = db w).
  { destruct (cap s) as [c|]; [destruct (isOpened c w)|]; reflexivity. }
  destruct dbb as [|msg|msg]; [congruence| |]; cbn [fst snd];
    (split; [discriminate|]); (split; [exact Hdb|]); repeat split.
Qed.


Lemma failed_stop_is_final_witness :
  is_monitoring second_session = true /\ DbQueryError "Lock wait timeout" <> DbOk /\
  let failed := stop_monitoring 15 (DbQueryError "Lock wait timeout") second_session_world
                  second_session in
  failed.1.1 <> Return true /\
  db failed.1.2 = db second_session_world /\
  monitoring_id failed.2 = monitoring_id second_session /\
  detection_buffer failed.2 = detection_buffer second_session /\
  stop_monitoring 15 DbOk failed.1.2 failed.2 = (Return false, failed.1.2, failed.2).
Proof.
  split; [reflexivity|]. split; [discriminate|].
  apply (failed_stop_is_final 15 15 (DbQueryError "Lock wait timeout") DbOk
           second_session_world second_session); [reflexivity | discriminate].
Defined.

Lemma written_by_stop_score (today : nat) (force_ids : list string) (r : daily_row) (avg : Q) :
  written_by_stop today force_ids (DailyRow (day_force_id r) (day_date r) avg)
  = written_by_stop today force_ids r.
Proof. reflexivity. Qed.

Lemma daily_key_written (today : nat) (force_ids : list string) (f : string) (r : daily_row) :
  f ∈ force_ids -> daily_key f today r = true -> written_by_stop today force_ids r = true.
Proof.
  unfold daily_key, written_by_stop. intros Hin Hkey.
  apply andb_prop in Hkey. destruct Hkey as [Hf Hd].
  apply bool_decide_eq_true_1 in Hf. apply bool_decide_eq_true_1 in Hd.
  rewrite Hd, Hf. rewrite !bool_decide_eq_true_2 by (reflexivity || assumption).
  reflexivity.
Qed.

Lemma store_daily_keeps_others (today : nat) (force_ids : list string) (f : string)
    (avg : Q) (tbl : list daily_row) :
  f ∈ force_ids ->
  List.filter (fun r => negb (written_by_stop today force_ids r)) (store_daily f today avg tbl)
  = List.filter (fun r => negb (written_by_stop today force_ids r)) tbl.
Proof.
  intros Hin. unfold store_daily.
  destruct (existsb (daily_key f today) tbl).
  - induction tbl as [|r tbl IH]; [reflexivity|].
    cbn [fmap list_fmap List.filter]. change (list_fmap daily_row daily_row ?g tbl) with (g <$> tbl).
    rewrite IH. destruct (daily_key f today r) eqn:Hkey; [|reflexivity].
    rewrite written_by_stop_score, (daily_key_written today force_ids f r Hin Hkey).
    reflexivity.
  - rewrite List.filter_app. cbn [List.filter].
    assert (Hw : written_by_stop today force_ids (DailyRow f today avg) = true).
    { unfold written_by_stop. cbn.
      rewrite !bool_decide_eq_true_2 by (reflexivity || assumption). reflexivity. }
    rewrite Hw. cbn [negb]. apply app_nil_r.
Qed.

Lemma store_daily_averages_keeps_others (today : nat) (force_ids l : list string)
    (rows : list detection_row) (tbl : list daily_row) :
  (forall f, f ∈ l -> f ∈ force_ids) ->
  List.filter (fun r => negb (written_by_stop today force_ids r))
    (store_daily_averages l today rows tbl)
  = List.filter (fun r => negb (written_by_stop today force_ids r)) tbl.
Proof.
  unfold store_daily_averages. revert tbl.
  induction l as [|f l IH]; intros tbl Hsub; [reflexivity|].
  cbn [fold_left]. rewrite IH by (intros f' Hf'; apply Hsub; right; exact Hf').
  destruct (daily_average f today rows); [|reflexivity].
  apply store_daily_keeps_others. apply Hsub. left.
Qed.

(** X12. Whatever the store does, [stop_monitoring] changes in
    [daily_depression_scores] only today's rows of the soldiers detected in
    the session; every other row, and the tables [cctv_detections] and
    [cctv_daily_monitoring] (so the session's 'partial' row too), stay as
    they were. *)
Theorem stop_monitoring_keeps_other_daily_rows (today : nat) (dbb : db_behaviour)
    (w : world) (s : service) :
  let force_ids := session_force_ids (monitoring_id s) (cctv_detections (db w)) in
  let stopped := stop_monitoring today dbb w s in
  List.filter (fun r => negb (written_by_stop today force_ids r))
    (daily_depression_scores (db stopped.1.2))
  = List.filter (fun r => negb (written_by_stop today force_ids r))
      (daily_depression_scores (db w)) /\
  cctv_detections (db stopped.1.2) = cctv_detections (db w) /\
  cctv_daily_monitoring (db stopped.1.2) = cctv_daily_monitoring (db w).
Proof.
  cbv zeta. destruct (is_monitoring s) eqn:Hrun.
  - rewrite (stop_monitoring_running today dbb w s Hrun). cbv zeta.
    assert (Hdb : db match cap s with
                     | Some c => if isOpened c w then release c w else w
                     | None => w
                     end = db w).
    { destruct (cap s) as [c|]; [destruct (isOpened c w)|]; reflexivity. }
    destruct dbb; cbn [fst snd]; rewrite ?Hdb; try (repeat split; reflexivity).
    cbn. split; [|split; reflexivity].
    apply store_daily_averages_keeps_others. auto.
  - unfold stop_monitoring. rewrite Hrun. cbn. repeat split.
Qed.

End StopFacts.

(** ** Frames and the worker loop *)

Section FrameFacts.

Import Aggregation Service Control Runs.

Lemma same_session_refl (s : service) : same_session s s.
Proof. unfold same_session. repeat split. Qed.

Lemma same_session_trans (s1 s2 s3 : service) :
  same_session s1 s2 -> same_session s2 s3 -> same_session s1 s3.
Proof. unfold same_session. intros H12 H23. intuition congruence. Qed.

Lemma interval_not_elapsed (t : Q) : Qle_bool AVERAGE_INTERVAL (t - t) = false.
Proof.
  destruct (Qle_bool AVERAGE_INTERVAL (t - t)) eqn:H; [|reflexivity].
  apply Qle_bool_iff in H. unfold AVERAGE_INTERVAL in H. lra.
Qed.

(** The whole of the flush, by what the store does. *)
Lemma flush_result (force_id : string) (current_time : Q) (now : datetime)
    (dbb : db_behaviour) (w : world) (s : service) (d : detection) (buffer : list detection) :
  dict_items (detection_buffer s) !! force_id = Some (d :: buffer) ->
  _calculate_and_store_average force_id current_time now dbb w s
  = match dbb with
    | DbOk =>
        (Return tt,
         set_db (Database (cctv_daily_monitoring (db w))
                   (cctv_detections (db w)
                      ++ [DetectionRow (monitoring_id s) force_id now
                            (calculate_peak_weighted_average (d_score <$> d :: buffer))])
                   (daily_depression_scores (db w))) w,
         set_last_average_time (setitem (last_average_time s) force_id current_time)
           (set_detection_buffer (setitem (detection_buffer s) force_id []) s))
    | DbConnectError _ => (Raise (UnboundLocalError "conn"), w, s)
    | DbQueryError _ => (Return tt, w, s)
    end.
Proof.
  intros Hbuf. unfold _calculate_and_store_average.
  rewrite (getitem_present _ _ _ Hbuf), set_detection_buffer_same.
  destruct dbb; reflexivity.
Qed.

(** [process_frame] up to the detector's answer. *)
Lemma process_frame_idle (frame_ret : bool) (det : detector) (current_time : Q)
    (now : datetime) (dbb : db_behaviour) (w : world) (s : service) :
  processing s = false \/ detected s (Iteration frame_ret det current_time now dbb) = None ->
  process_frame frame_ret det current_time now dbb w s = (Return None, w, s).
Proof.
  unfold processing, detected, process_frame. cbn [it_frame_ret it_detector].
  intros [Hidle|Hnone].
  - destruct (cap s) as [c|]; [|reflexivity].
    destruct (monitoring_id s) as [[|m]|]; (reflexivity || discriminate).
  - destruct (cap s) as [c|]; [|reflexivity].
    destruct (monitoring_id s) as [[|m]|]; try reflexivity.
    destruct frame_ret; [|reflexivity]. cbn [negb]. rewrite Hnone. reflexivity.
Qed.

Lemma process_frame_hit (frame_ret : bool) (det : detector) (current_time : Q)
    (now : datetime) (dbb : db_behaviour) (w : world) (s : service)
    (force_id emotion : string) (score : Q) (face_coords : Z * Z * Z * Z) :
  processing s = true ->
  detected s (Iteration frame_ret det current_time now dbb)
  = Some (force_id, emotion, score, face_coords) ->
  process_frame frame_ret det current_time now dbb w s
  = let s1 :=
      if contains (detection_buffer s) force_id then s
      else set_last_average_time (setitem (last_average_time s) force_id current_time)
             (set_detection_buffer (setitem (detection_buffer s) force_id []) s) in
    match getitem (detection_buffer s1) force_id with
    | (Raise e, _) => (Raise e, w, s1)
    | (Return buffer, buf) =>
        let entry := Detection score emotion current_time face_coords in
        let s2 := set_detection_buffer (setitem buf force_id (buffer ++ [entry])) s1 in
        match getitem (last_average_time s2) force_id with
        | (Raise e, _) => (Raise e, w, s2)
        | (Return last, lat) =>
            let s3 := set_last_average_time lat s2 in
            if Qle_bool AVERAGE_INTERVAL (current_time - last) then
              match _calculate_and_store_average force_id current_time now dbb w s3 with
              | (Raise e, w', s') => (Raise e, w', s')
              | (Return _, w', s') => (Return (Some (force_id, emotion, score)), w', s')
              end
            else (Return (Some (force_id, emotion, score)), w, s3)
        end
    end.
Proof.
  unfold processing, detected, process_frame. cbn [it_frame_ret it_detector].
  intros Hproc Hhit.
  destruct (cap s) as [c|]; [|discriminate].
  destruct (monitoring_id s) as [[|m]|]; try discriminate.
  destruct frame_ret; [|discriminate]. cbn [negb]. rewrite Hhit. reflexivity.
Qed.


Lemma contains_known {V} (d : pydict V) (k : string) (v : V) :
  dict_items d !! k = Some v -> contains d k = true.
Proof. intros H. unfold contains. rewrite H. apply bool_decide_eq_true_2. eauto. Qed.

Lemma contains_unknown {V} (d : pydict V) (k : string) :
  dict_items d !! k = None -> contains d k = false.
Proof.
  intros H. unfold contains. rewrite H. apply bool_decide_eq_false_2.
  intros [v Hv]. discriminate Hv.
Qed.

Lemma getitem_default {V} (d : pydict V) (k : string) (v0 : V) :
  dict_items d !! k = None -> dict_factory d = Some v0 ->
  getitem d k = (Return v0, PyDict (Some v0) (<[k := v0]> (dict_items d))).
Proof. intros H Hf. unfold getitem. rewrite H, Hf. reflexivity. Qed.

Lemma getitem_missing {V} (d : pydict V) (k : string) :
  dict_items d !! k = None -> dict_factory d = None ->
  getitem d k = (Raise (KeyError k), d).
Proof. intros H Hf. unfold getitem. rewrite H, Hf. reflexivity. Qed.

(** The first sighting of a soldier. *)
Lemma process_frame_new (frame_ret : bool) (det : detector) (current_time : Q)
    (now : datetime) (dbb : db_behaviour) (w : world) (s : service)
    (force_id emotion : string) (score : Q) (face_coords : Z * Z * Z * Z) :
  processing s = true ->
  detected s (Iteration frame_ret det current_time now dbb)
  = Some (force_id, emotion, score, face_coords) ->
  dict_items (detection_buffer s) !! force_id = None ->
  exists s' : service,
    process_frame frame_ret det current_time now dbb w s
    = (Return (Some (force_id, emotion, score)), w, s') /\
    same_session s s' /\
    dict_items (detection_buffer s')
    = <[force_id := [Detection score emotion current_time face_coords]]>
        (dict_items (detection_buffer s)) /\
    dict_items (last_average_time s')
    = <[force_id := current_time]> (dict_items (last_average_time s)).
Proof.
  intros Hproc Hhit Hnew.
  rewrite (process_frame_hit _ _ _ _ _ _ _ _ _ _ _ Hproc Hhit).
  rewrite (contains_unknown _ _ Hnew). cbv zeta.
  cbn [detection_buffer set_last_average_time set_detection_buffer].
  rewrite (getitem_present (setitem (detection_buffer s) force_id []) force_id [])
    by apply lookup_insert_eq.
  cbn [last_average_time set_last_average_time set_detection_buffer].
  rewrite (getitem_present (setitem (last_average_time s) force_id current_time)
             force_id current_time) by apply lookup_insert_eq.
  rewrite interval_not_elapsed.
  eexists. split; [reflexivity|]. split; [unfold same_session; repeat split|].
  cbn. split; [apply insert_insert_eq | reflexivity].
Qed.

Lemma getitem_effect {V} (d : pydict V) (k : string) :
  dict_factory (getitem d k).2 = dict_factory d /\
  (forall k', k' <> k -> dict_items (getitem d k).2 !! k' = dict_items d !! k') /\
  match (getitem d k).1 with
  | Return v =>
      dict_items (getitem d k).2 !! k = Some v /\
      (is_Some (dict_items d !! k) \/ is_Some (dict_factory d))
  | Raise e =>
      e = KeyError k /\ (getitem d k).2 = d /\
      dict_items d !! k = None /\ dict_factory d = None
  end.
Proof.
  unfold getitem. destruct (dict_items d !! k) as [v|] eqn:Hk; cbn [fst snd].
  - repeat split; eauto.
  - destruct (dict_factory d) as [v0|] eqn:Hf; cbn [fst snd dict_factory dict_items].
    + split; [reflexivity|]. split; [intros k' Hne; apply lookup_insert_ne; congruence|].
      split; [apply lookup_insert_eq | right; eauto].
    + repeat split; assumption.
Qed.

(** A further sighting: the entry is appended, and the flush runs when the
    interval has elapsed. *)
Lemma process_frame_known (frame_ret : bool) (det : detector) (current_time : Q)
    (now : datetime) (dbb : db_behaviour) (w : world) (s : service)
    (force_id emotion : string) (score : Q) (face_coords : Z * Z * Z * Z)
    (old : list detection) :
  processing s = true ->
  detected s (Iteration frame_ret det current_time now dbb)
  = Some (force_id, emotion, score, face_coords) ->
  dict_items (detection_buffer s) !! force_id = Some old ->
  let entry := Detection score emotion current_time face_coords in
  let s2 := set_detection_buffer (setitem (detection_buffer s) force_id (old ++ [entry])) s in
  process_frame frame_ret det current_time now dbb w s
  = match getitem (last_average_time s) force_id with
    | (Raise e, _) => (Raise e, w, s2)
    | (Return last, lat) =>
        let s3 := set_last_average_time lat s2 in
        if Qle_bool AVERAGE_INTERVAL (current_time - last) then
          match dbb with
          | DbOk =>
              (Return (Some (force_id, emotion, score)),
               set_db (Database (cctv_daily_monitoring (db w))
                         (cctv_detections (db w)
                            ++ [DetectionRow (monitoring_id s) force_id now
                                  (calculate_peak_weighted_average
                                     (d_score <$> old ++ [entry]))])
                         (daily_depression_scores (db w))) w,
               set_last_average_time (setitem lat force_id current_time)
                 (set_detection_buffer (setitem (detection_buffer s3) force_id []) s3))
          | DbConnectError _ => (Raise (UnboundLocalError "conn"), w, s3)
          | DbQueryError _ => (Return (Some (force_id, emotion, score)), w, s3)
          end
        else (Return (Some (force_id, emotion, score)), w, s3)
    end.
Proof.
  intros Hproc Hhit Hold entry s2.
  rewrite (process_frame_hit _ _ _ _ _ _ _ _ _ _ _ Hproc Hhit).
  rewrite (contains_known _ _ _ Hold). cbv zeta.
  rewrite (getitem_present _ _ _ Hold).
  cbn [last_average_time set_detection_buffer]. fold entry. fold s2.
  destruct (getitem (last_average_time s) force_id) as [[last|e] lat]; [|reflexivity].
  destruct (Qle_bool AVERAGE_INTERVAL (current_time - last)); [|reflexivity].
  assert (Hcons : exists d l, old ++ [entry] = d :: l).
  { destruct old as [|d l]; [exists entry, [] | exists d, (l ++ [entry])]; reflexivity. }
  destruct Hcons as (d & l & Hcons).
  rewrite (flush_result force_id current_time now dbb w (set_last_average_time lat s2) d l).
  - rewrite <- Hcons. destruct dbb; reflexivity.
  - subst s2. cbn. rewrite lookup_insert_eq. f_equal. exact Hcons.
Qed.


(** Everything a frame with a detection does. *)
Lemma process_frame_effect (frame_ret : bool) (det : detector) (current_time : Q)
    (now : datetime) (dbb : db_behaviour) (w : world) (s : service)
    (force_id emotion : string) (score : Q) (face_coords : Z * Z * Z * Z) :
  processing s = true ->
  detected s (Iteration frame_ret det current_time now dbb)
  = Some (force_id, emotion, score, face_coords) ->
  let r := process_frame frame_ret det current_time now dbb w s in
  let entry := Detection score emotion current_time face_coords in
  same_session s r.2 /\
  (forall k, k <> force_id ->
     dict_items (detection_buffer r.2) !! k = dict_items (detection_buffer s) !! k /\
     last_flush r.2 k = last_flush s k) /\
  (open_captures r.1.2 = open_captures w /\ next_capture r.1.2 = next_capture w /\
   spawned r.1.2 = spawned w /\
   cctv_daily_monitoring (db r.1.2) = cctv_daily_monitoring (db w) /\
   daily_depression_scores (db r.1.2) = daily_depression_scores (db w)) /\
  ((cctv_detections (db r.1.2) = cctv_detections (db w) /\
    dict_items (detection_buffer r.2) !! force_id = Some (buffered s force_id ++ [entry]))
   \/
   (dbb = DbOk /\
    cctv_detections (db r.1.2)
    = cctv_detections (db w)
      ++ [DetectionRow (monitoring_id s) force_id now
            (calculate_peak_weighted_average (d_score <$> buffered s force_id ++ [entry]))] /\
    dict_items (detection_buffer r.2) !! force_id = Some [] /\
    last_flush r.2 force_id = Some current_time)) /\
  (timed s ->
   is_Some (last_flush r.2 force_id) /\ forall key, r.1.1 <> Raise (KeyError key)).
Proof.
  intros Hproc Hhit r entry. subst r. unfold buffered, last_flush.
  destruct (dict_items (detection_buffer s) !! force_id) as [old|] eqn:Hold.
  - rewrite (process_frame_known _ _ _ _ _ _ _ _ _ _ _ old Hproc Hhit Hold). cbv zeta.
    fold entry. cbn [default].
    destruct (getitem_effect (last_average_time s) force_id) as (Hfac & Hothers & Hat).
    destruct (getitem (last_average_time s) force_id) as [[last|e] lat];
      cbn [fst snd] in Hfac, Hothers, Hat.
    + destruct Hat as [Hat _].
      destruct (Qle_bool AVERAGE_INTERVAL (current_time - last));
        [destruct dbb|]; cbn.
      * split; [unfold same_session; cbn; repeat split; exact Hfac|].
        split; [intros k Hk; rewrite !lookup_insert_ne by congruence; auto|].
        split; [repeat split|].
        split; [right; rewrite !lookup_insert_eq; repeat split|].
        intros _. rewrite lookup_insert_eq. split; [eauto | discriminate].
      * split; [unfold same_session; cbn; repeat split; exact Hfac|].
        split; [intros k Hk; rewrite !lookup_insert_ne by congruence; auto|].
        split; [repeat split|].
        split; [left; rewrite !lookup_insert_eq; repeat split|].
        intros _. rewrite Hat. split; [eauto | discriminate].
      * split; [unfold same_session; cbn; repeat split; exact Hfac|].
        split; [intros k Hk; rewrite !lookup_insert_ne by congruence; auto|].
        split; [repeat split|].
        split; [left; rewrite !lookup_insert_eq; repeat split|].
        intros _. rewrite Hat. split; [eauto | discriminate].
      * split; [unfold same_session; cbn; repeat split; exact Hfac|].
        split; [intros k Hk; rewrite !lookup_insert_ne by congruence; auto|].
        split; [repeat split|].
        split; [left; rewrite !lookup_insert_eq; repeat split|].
        intros _. rewrite Hat. split; [eauto | discriminate].
    + destruct Hat as (-> & -> & Hnone & _). cbn.
      split; [unfold same_session; cbn; repeat split|].
      split; [intros k Hk; rewrite !lookup_insert_ne by congruence; auto|].
      split; [repeat split|].
      split; [left; rewrite !lookup_insert_eq; repeat split|].
      intros Htimed. exfalso.
      destruct (Htimed force_id) as [v Hv]; [rewrite Hold; eauto|]. congruence.
  - destruct (process_frame_new _ _ _ now dbb w _ _ _ _ _ Hproc Hhit Hold)
      as (s' & -> & Hsame & Hbuf & Htime).
    cbn [fst snd default]. rewrite Hbuf, Htime.
    split; [exact Hsame|].
    split; [intros k Hk; rewrite !lookup_insert_ne by congruence; auto|].
    split; [repeat split|].
    split; [left; rewrite !lookup_insert_eq; repeat split|].
    intros _. rewrite lookup_insert_eq. split; [eauto | discriminate].
Qed.


(** X13. In a session with a capture and a monitoring id, the first detection of
    a soldier (no buffer entry yet) is returned by [process_frame], becomes
    the only entry of the soldier's buffer and sets the soldier's last flush
    time to the current time; the world is not touched. *)
Theorem first_sighting_opens_window (frame_ret : bool) (det : detector) (current_time : Q)
    (now : datetime) (dbb : db_behaviour) (w : world) (s : service)
    (force_id emotion : string) (score : Q) (face_coords : Z * Z * Z * Z) :
  processing s = true ->
  detected s (Iteration frame_ret det current_time now dbb)
  = Some (force_id, emotion, score, face_coords) ->
  dict_items (detection_buffer s) !! force_id = None ->
  exists s' : service,
    process_frame frame_ret det current_time now dbb w s
    = (Return (Some (force_id, emotion, score)), w, s') /\
    buffered s' force_id = [Detection score emotion current_time face_coords] /\
    last_flush s' force_id = Some current_time.
Proof.
  intros Hproc Hhit Hnew.
  destruct (process_frame_new _ _ _ now dbb w _ _ _ _ _ Hproc Hhit Hnew)
    as (s' & Heq & _ & Hbuf & Htime).
  exists s'. split; [exact Heq|]. unfold buffered, last_flush.
  rewrite Hbuf, Htime, !lookup_insert_eq. split; reflexivity.
Qed.

Lemma first_sighting_opens_window_witness :
  processing general_started.2 = true /\
  detected general_started.2 (Iteration true sad_face 50 (DateTime 15 905) DbOk)
  = Some ("CRPF001", "Sad", 8 # 10, (0, 0, 10, 10)%Z) /\
  dict_items (detection_buffer general_started.2) !! "CRPF001" = None /\
  exists s' : service,
    process_frame true sad_face 50 (DateTime 15 905) DbOk general_started.1.2
      general_started.2
    = (Return (Some ("CRPF001", "Sad", 8 # 10)), general_started.1.2, s') /\
    buffered s' "CRPF001" = [Detection (8 # 10) "Sad" 50 (0, 0, 10, 10)%Z] /\
    last_flush s' "CRPF001" = Some 50%Q.
Proof.
  split; [reflexivity|]. split; [reflexivity|]. split; [reflexivity|].
  apply (first_sighting_opens_window true sad_face 50 (DateTime 15 905) DbOk
           general_started.1.2 general_started.2 "CRPF001" "Sad" (8 # 10) (0, 0, 10, 10)%Z);
    reflexivity.
Defined.

(** X14. A detection of a soldier whose last flush is less than
    [AVERAGE_INTERVAL] seconds ago is appended at the end of the soldier's
    buffer; the last flush time and the world are unchanged, whatever the
    store would do. *)
Theorem sighting_within_window_is_buffered (frame_ret : bool) (det : detector)
    (current_time : Q) (now : datetime) (dbb : db_behaviour) (w : world) (s : service)
    (force_id emotion : string) (score : Q) (face_coords : Z * Z * Z * Z)
    (old : list detection) (last : Q) :
  processing s = true ->
  detected s (Iteration frame_ret det current_time now dbb)
  = Some (force_id, emotion, score, face_coords) ->
  dict_items (detection_buffer s) !! force_id = Some old ->
  last_flush s force_id = Some last ->
  (current_time - last < AVERAGE_INTERVAL)%Q ->
  exists s' : service,
    process_frame frame_ret det current_time now dbb w s
    = (Return (Some (force_id, emotion, score)), w, s') /\
    buffered s' force_id = old ++ [Detection score emotion current_time face_coords] /\
    last_flush s' force_id = Some last.
Proof.
  intros Hproc Hhit Hold Hlast Hearly.
  rewrite (process_frame_known _ _ _ _ _ _ _ _ _ _ _ old Hproc Hhit Hold). cbv zeta.
  unfold last_flush in Hlast. rewrite (getitem_present _ _ _ Hlast).
  assert (Hno : Qle_bool AVERAGE_INTERVAL (current_time - last) = false).
  { destruct (Qle_bool AVERAGE_INTERVAL (current_time - last)) eqn:H; [|reflexivity].
    apply Qle_bool_iff in H. exfalso. apply (Qlt_not_le _ _ Hearly H). }
  rewrite Hno. eexists. split; [reflexivity|].
  unfold buffered, last_flush. cbn. rewrite lookup_insert_eq. split; [reflexivity | exact Hlast].
Qed.

Lemma sighting_within_window_is_buffered_witness :
  processing buffering = true /\
  detected buffering (Iteration true sad_face 102 (DateTime 15 905) DbOk)
  = Some ("CRPF001", "Sad", 8 # 10, (0, 0, 10, 10)%Z) /\
  last_flush buffering "CRPF001" = Some 100%Q /\
  (102 - 100 < AVERAGE_INTERVAL)%Q /\
  exists s' : service,
    process_frame true sad_face 102 (DateTime 15 905) DbOk general_started.1.2 buffering
    = (Return (Some ("CRPF001", "Sad", 8 # 10)), general_started.1.2, s') /\
    buffered s' "CRPF001"
    = [Detection (45 # 100) "Neutral" 101 (0, 0, 10, 10)%Z;
       Detection (9 # 10) "Sad" 102 (0, 0, 10, 10)%Z]
      ++ [Detection (8 # 10) "Sad" 102 (0, 0, 10, 10)%Z] /\
    last_flush s' "CRPF001" = Some 100%Q.
Proof.
  split; [reflexivity|]. split; [reflexivity|]. split; [reflexivity|].
  split; [reflexivity|].
  apply (sighting_within_window_is_buffered true sad_face 102 (DateTime 15 905) DbOk
           general_started.1.2 buffering "CRPF001" "Sad" (8 # 10) (0, 0, 10, 10)%Z
           [Detection (45 # 100) "Neutral" 101 (0, 0, 10, 10)%Z;
            Detection (9 # 10) "Sad" 102 (0, 0, 10, 10)%Z] 100);
    reflexivity.
Defined.

(** X15. A detection that arrives [AVERAGE_INTERVAL] seconds or more after the
    soldier's last flush, with the store working, appends one row to
    [cctv_detections] whose score is [calculate_peak_weighted_average] of the
    buffered scores with the new one last, empties the soldier's buffer and
    sets the last flush time to the current time. *)
Theorem sighting_after_interval_flushes_window (frame_ret : bool) (det : detector)
    (current_time : Q) (now : datetime) (w : world) (s : service)
    (force_id emotion : string) (score : Q) (face_coords : Z * Z * Z * Z)
    (old : list detection) (last : Q) :
  processing s = true ->
  detected s (Iteration frame_ret det current_time now DbOk)
  = Some (force_id, emotion, score, face_coords) ->
  dict_items (detection_buffer s) !! force_id = Some old ->
  last_flush s force_id = Some last ->
  (AVERAGE_INTERVAL <= current_time - last)%Q ->
  exists (w' : world) (s' : service),
    process_frame frame_ret det current_time now DbOk w s
    = (Return (Some (force_id, emotion, score)), w', s') /\
    cctv_detections (db w')
    = cctv_detections (db w)
      ++ [DetectionRow (monitoring_id s) force_id now
            (calculate_peak_weighted_average
               (d_score <$> old ++ [Detection score emotion current_time face_coords]))] /\
    buffered s' force_id = [] /\
    last_flush s' force_id = Some current_time.
Proof.
  intros Hproc Hhit Hold Hlast Hdue.
  rewrite (process_frame_known _ _ _ _ _ _ _ _ _ _ _ old Hproc Hhit Hold). cbv zeta.
  unfold last_flush in Hlast. rewrite (getitem_present _ _ _ Hlast).
  apply Qle_bool_iff in Hdue. rewrite Hdue.
  eexists _, _. split; [reflexivity|]. unfold buffered, last_flush. cbn.
  rewrite !lookup_insert_eq. repeat split.
Qed.

Lemma sighting_after_interval_flushes_window_witness :
  processing buffering = true /\
  detected buffering (Iteration true sad_face 104 (DateTime 15 905) DbOk)
  = Some ("CRPF001", "Sad", 8 # 10, (0, 0, 10, 10)%Z) /\
  last_flush buffering "CRPF001" = Some 100%Q /\
  (AVERAGE_INTERVAL <= 104 - 100)%Q /\
  exists (w' : world) (s' : service),
    process_frame true sad_face 104 (DateTime 15 905) DbOk general_started.1.2 buffering
    = (Return (Some ("CRPF001", "Sad", 8 # 10)), w', s') /\
    cctv_detections (db w')
    = cctv_detections (db general_started.1.2)
      ++ [DetectionRow (monitoring_id buffering) "CRPF001" (DateTime 15 905)
            (calculate_peak_weighted_average
               (d_score <$> [Detection (45 # 100) "Neutral" 101 (0, 0, 10, 10)%Z;
                             Detection (9 # 10) "Sad" 102 (0, 0, 10, 10)%Z]
                            ++ [Detection (8 # 10) "Sad" 104 (0, 0, 10, 10)%Z]))] /\
    buffered s' "CRPF001" = [] /\
    last_flush s' "CRPF001" = Some 104%Q.
Proof.
  split; [reflexivity|]. split; [reflexivity|]. split; [reflexivity|].
  split; [discriminate|].
  apply (sighting_after_interval_flushes_window true sad_face 104 (DateTime 15 905)
           general_started.1.2 buffering "CRPF001" "Sad" (8 # 10) (0, 0, 10, 10)%Z
           [Detection (45 # 100) "Neutral" 101 (0, 0, 10, 10)%Z;
            Detection (9 # 10) "Sad" 102 (0, 0, 10, 10)%Z] 100);
    try reflexivity. discriminate.
Defined.

(** X16. [process_frame] leaves the buffer and the last flush time of every
    soldier other than the one detected in the frame exactly as they were,
    whatever the frame, the detector and the store do. *)
Theorem process_frame_keeps_other_subjects (frame_ret : bool) (det : detector)
    (current_time : Q) (now : datetime) (dbb : db_behaviour) (w : world) (s : service)
    (k : string) :
  (forall emotion score face_coords,
     detected s (Iteration frame_ret det current_time now dbb)
     <> Some (k, emotion, score, face_coords)) ->
  dict_items (detection_buffer (process_frame frame_ret det current_time now dbb w s).2) !! k
  = dict_items (detection_buffer s) !! k /\
  last_flush (process_frame frame_ret det current_time now dbb w s).2 k = last_flush s k.
Proof.
  intros Hother.
  destruct (processing s) eqn:Hproc.
  2: { rewrite process_frame_idle by (left; exact Hproc). split; reflexivity. }
  destruct (detected s (Iteration frame_ret det current_time now dbb))
    as [[[[f e] sc] fc]|] eqn:Hhit.
  2: { rewrite process_frame_idle by (right; exact Hhit). split; reflexivity. }
  destruct (process_frame_effect _ _ _ now dbb w _ _ _ _ _ Hproc Hhit) as (_ & Hk & _).
  apply Hk. intros ->. apply (Hother e sc fc). reflexivity.
Qed.

Lemma process_frame_keeps_other_subjects_witness :
  (forall emotion score face_coords,
     detected buffering (Iteration true sad_face 104 (DateTime 15 905) DbOk)
     <> Some ("CRPF002", emotion, score, face_coords)) /\
  dict_items (detection_buffer
                (process_frame true sad_face 104 (DateTime 15 905) DbOk
                   general_started.1.2 buffering).2) !! "CRPF002"
  = dict_items (detection_buffer buffering) !! "CRPF002" /\
  last_flush (process_frame true sad_face 104 (DateTime 15 905) DbOk
                general_started.1.2 buffering).2 "CRPF002"
  = last_flush buffering "CRPF002".
Proof.
  assert (Hother : forall emotion score face_coords,
             detected buffering (Iteration true sad_face 104 (DateTime 15 905) DbOk)
             <> Some ("CRPF002", emotion, score, face_coords)).
  { intros emotion score face_coords H. discriminate H. }
  split; [exact Hother|].
  apply (process_frame_keeps_other_subjects true sad_face 104 (DateTime 15 905) DbOk
           general_started.1.2 buffering "CRPF002" Hother).
Defined.


(** X17. [process_frame] keeps the invariant that every soldier with a buffer
    entry has a last flush time, and from a state with this invariant it
    never raises [KeyError]. *)
Theorem process_frame_keeps_buffers_timed (frame_ret : bool) (det : detector)
    (current_time : Q) (now : datetime) (dbb : db_behaviour) (w : world) (s : service) :
  timed s ->
  timed (process_frame frame_ret det current_time now dbb w s).2 /\
  forall key : string,
    (process_frame frame_ret det current_time now dbb w s).1.1 <> Raise (KeyError key).
Proof.
  intros Htimed.
  destruct (processing s) eqn:Hproc.
  2: { rewrite process_frame_idle by (left; exact Hproc).
       split; [exact Htimed | discriminate]. }
  destruct (detected s (Iteration frame_ret det current_time now dbb))
    as [[[[f e] sc] fc]|] eqn:Hhit.
  2: { rewrite process_frame_idle by (right; exact Hhit).
       split; [exact Htimed | discriminate]. }
  destruct (process_frame_effect _ _ _ now dbb w _ _ _ _ _ Hproc Hhit)
    as (_ & Hk & _ & _ & Hf).
  destruct (Hf Htimed) as [Hsome Hnokey]. split; [|exact Hnokey].
  intros k Hbuf. destruct (decide (k = f)) as [->|Hne]; [exact Hsome|].
  destruct (Hk k Hne) as [Hb Ht]. unfold last_flush in Ht. rewrite Ht.
  apply Htimed. rewrite <- Hb. exact Hbuf.
Qed.

Lemma process_frame_keeps_buffers_timed_witness :
  timed buffering /\
  timed (process_frame true sad_face 104 (DateTime 15 905) (DbQueryError "gone away")
           general_started.1.2 buffering).2 /\
  forall key : string,
    (process_frame true sad_face 104 (DateTime 15 905) (DbQueryError "gone away")
       general_started.1.2 buffering).1.1 <> Raise (KeyError key).
Proof.
  assert (Htimed : timed buffering).
  { intros k. unfold buffering. cbn.
    intros [v Hv]. apply lookup_singleton_Some in Hv. destruct Hv as [<- _].
    rewrite lookup_singleton_eq. eauto. }
  split; [exact Htimed|].
  apply (process_frame_keeps_buffers_timed true sad_face 104 (DateTime 15 905)
           (DbQueryError "gone away") general_started.1.2 buffering Htimed).
Defined.

Lemma same_session_detected (s s' : service) (i : iteration) :
  same_session s s' -> detected s' i = detected s i.
Proof.
  unfold same_session, detected. intros H.
  destruct H as (_ & _ & _ & _ & _ & -> & _ & _ & -> & _). reflexivity.
Qed.

Lemma same_session_sightings (s s' : service) (k : string) (l : list iteration) :
  same_session s s' -> sightings s' k l = sightings s k l.
Proof.
  intros H. unfold sightings. induction l as [|i l IH]; [reflexivity|].
  cbn [flat_map]. rewrite IH, (same_session_detected s s' i H). reflexivity.
Qed.

Lemma same_session_processing (s s' : service) :
  same_session s s' -> processing s' = processing s.
Proof.
  unfold same_session, processing. intros H.
  destruct H as (-> & -> & _). reflexivity.
Qed.

(** One turn of the loop while the store is down. *)
Lemma turn_store_down (i : iteration) (w : world) (s : service) :
  processing s = true ->
  it_db i <> DbOk ->
  let r := process_frame (it_frame_ret i) (it_detector i) (it_time i) (it_now i) (it_db i) w s in
  same_session s r.2 /\ db r.1.2 = db w /\
  forall k, buffered r.2 k = buffered s k ++ sightings s k [i].
Proof.
  intros Hproc Hdown r. subst r. destruct i as [fr det t now dbb]. cbn [it_frame_ret
    it_detector it_time it_now it_db] in *.
  unfold sightings. cbn [flat_map].
  destruct (detected s (Iteration fr det t now dbb)) as [[[[f e] sc] fc]|] eqn:Hhit.
  2: { rewrite process_frame_idle by (right; exact Hhit). cbn [fst snd].
       split; [apply same_session_refl|]. split; [reflexivity|].
       intros k. rewrite !app_nil_r. reflexivity. }
  destruct (process_frame_effect _ _ _ now dbb w _ _ _ _ _ Hproc Hhit)
    as (Hsame & Hk & (_ & _ & _ & Hmon & Hday) & Hat & _).
  destruct Hat as [[Hdet Hbuf]|[Hok _]]; [|congruence].
  split; [exact Hsame|]. split.
  - destruct (db (process_frame fr det t now dbb w s).1.2), (db w). cbn in *. congruence.
  - intros k. rewrite app_nil_r. destruct (decide (f = k)) as [<-|Hne].
    + rewrite bool_decide_eq_true_2 by reflexivity.
      unfold buffered at 1. rewrite Hbuf. reflexivity.
    + rewrite bool_decide_eq_false_2 by exact Hne. rewrite app_nil_r.
      destruct (Hk k) as [Hb _]; [congruence|]. unfold buffered. rewrite Hb. reflexivity.
Qed.

(** X18. While the store is down the worker loop writes nothing and loses
    nothing: after any number of turns of [_process_frames_continuously] the
    database is unchanged and each soldier's buffer is the earlier buffer
    followed by every detection of that soldier, in order. *)
Theorem worker_retains_detections_while_store_is_down (iterations : list iteration)
    (w : world) (s : service) :
  processing s = true ->
  is_monitoring s = true ->
  Forall (fun i => it_db i <> DbOk) iterations ->
  db (_process_frames_continuously iterations w s).1 = db w /\
  forall k : string,
    buffered (_process_frames_continuously iterations w s).2 k
    = buffered s k ++ sightings s k iterations.
Proof.
  intros Hproc Hrun Hdown. revert w s Hproc Hrun.
  induction Hdown as [|i l Hi _ IH]; intros w s Hproc Hrun.
  - cbn [_process_frames_continuously]. rewrite Hrun. cbn [fst snd].
    split; [reflexivity|]. intros k. unfold sightings. cbn. rewrite app_nil_r. reflexivity.
  - cbn [_process_frames_continuously]. rewrite Hrun.
    destruct (turn_store_down i w s Hproc Hi) as (Hsame & Hdb & Hbuf).
    destruct (process_frame (it_frame_ret i) (it_detector i) (it_time i) (it_now i)
                (it_db i) w s) as [[o w1] s1]. cbn [fst snd] in *.
    assert (Hproc1 : processing s1 = true)
      by (rewrite (same_session_processing s s1 Hsame); exact Hproc).
    assert (Hrun1 : is_monitoring s1 = true).
    { destruct Hsame as (_ & _ & -> & _). exact Hrun. }
    destruct (IH w1 s1 Hproc1 Hrun1) as [Hdb' Hbuf'].
    split; [rewrite Hdb'; exact Hdb|].
    intros k. rewrite Hbuf', Hbuf, (same_session_sightings s s1 k l Hsame).
    rewrite <- app_assoc. unfold sightings. cbn [flat_map]. rewrite app_nil_r. reflexivity.
Qed.

Lemma worker_retains_detections_while_store_is_down_witness :
  processing buffering = true /\ is_monitoring buffering = true /\
  Forall (fun i => it_db i <> DbOk)
    [Iteration true sad_face 104 (DateTime 15 905) (DbConnectError "down");
     Iteration true sad_face 105 (DateTime 15 906) (DbQueryError "gone away")] /\
  db (_process_frames_continuously
        [Iteration true sad_face 104 (DateTime 15 905) (DbConnectError "down");
         Iteration true sad_face 105 (DateTime 15 906) (DbQueryError "gone away")]
        general_started.1.2 buffering).1
  = db general_started.1.2 /\
  forall k : string,
    buffered (_process_frames_continuously
                [Iteration true sad_face 104 (DateTime 15 905) (DbConnectError "down");
                 Iteration true sad_face 105 (DateTime 15 906) (DbQueryError "gone away")]
                general_started.1.2 buffering).2 k
    = buffered buffering k
      ++ sightings buffering k
           [Iteration true sad_face 104 (DateTime 15 905) (DbConnectError "down");
            Iteration true sad_face 105 (DateTime 15 906) (DbQueryError "gone away")].
Proof.
  assert (Hdown : Forall (fun i => it_db i <> DbOk)
            [Iteration true sad_face 104 (DateTime 15 905) (DbConnectError "down");
             Iteration true sad_face 105 (DateTime 15 906) (DbQueryError "gone away")]).
  { repeat constructor; discriminate. }
  split; [reflexivity|]. split; [reflexivity|]. split; [exact Hdown|].
  apply (worker_retains_detections_while_store_is_down
           [Iteration true sad_face 104 (DateTime 15 905) (DbConnectError "down");
            Iteration true sad_face 105 (DateTime 15 906) (DbQueryError "gone away")]
           general_started.1.2 buffering); [reflexivity | reflexivity | exact Hdown].
Defined.

End FrameFacts.

(** ** Survey sessions *)

Section SurveyStopFacts.

Import Aggregation Emotion Service Control Runs.

(** What the [try] block of [stop_survey_monitoring] leaves of the service
    and of the world. *)
Lemma survey_summary_effect (set_order : set_iteration) (force_id : string)
    (session_id : option nat) (w : world) (s : service) :
  let r := survey_summary set_order force_id session_id w s in
  cap r.2 = cap s /\ survey_thread r.2 = survey_thread s /\
  is_monitoring r.2 = is_monitoring s /\ monitoring_id r.2 = monitoring_id s /\
  detection_buffer r.2 = detection_buffer s /\
  open_captures r.1.2 = open_captures w /\ next_capture r.1.2 = next_capture w /\
  db r.1.2 = db w /\
  spawned r.1.2
  = spawned w
    ++ match session_id, r_avg_depression_score r.1.1, r_detections r.1.1 with
       | Some (S n), Present avg_score, Present _ => [StorageThread (S n) force_id avg_score]
       | _, _, _ => []
       end.
Proof.
  cbv zeta. unfold survey_summary.
  destruct (survey_monitoring s); cbn [negb];
    [cbn [survey_thread survey_detections set_survey_thread_active set_survey_monitoring];
     destruct (survey_thread s) as [|[t|]] eqn:Hthread;
     [destruct (survey_detections s) as [|[|d ds]];
      [| |destruct (List.filter is_actual (d :: ds)) as [|a acts];
          [|destruct (most_common set_order (omap e_emotion (a :: acts)))]]
     |destruct (survey_detections s) as [|[|d ds]];
      [| |destruct (List.filter is_actual (d :: ds)) as [|a acts];
          [|destruct (most_common set_order (omap e_emotion (a :: acts)))]]
     |]
    |];
    destruct session_id as [[|n]|]; cbn; rewrite ?app_nil_r; repeat split;
    try exact Hthread.
Qed.


Lemma stop_survey_parts (set_order : set_iteration) (force_id : string)
    (session_id : option nat) (w : world) (s : service) :
  stop_survey_monitoring set_order force_id session_id w s
  = ((survey_summary set_order force_id session_id w s).1.1,
     (survey_cleanup (survey_summary set_order force_id session_id w s).1.2
        (survey_summary set_order force_id session_id w s).2).1,
     (survey_cleanup (survey_summary set_order force_id session_id w s).1.2
        (survey_summary set_order force_id session_id w s).2).2).
Proof.
  unfold stop_survey_monitoring.
  destruct (survey_summary set_order force_id session_id w s) as [[r w1] s1].
  cbn [fst snd]. destruct (survey_cleanup w1 s1) as [w2 s2]. reflexivity.
Qed.

Lemma survey_cleanup_effect (w : world) (s : service) :
  survey_monitoring (survey_cleanup w s).2 = false /\
  survey_thread_active (survey_cleanup w s).2 = false /\
  is_monitoring (survey_cleanup w s).2 = is_monitoring s /\
  monitoring_id (survey_cleanup w s).2 = monitoring_id s /\
  detection_buffer (survey_cleanup w s).2 = detection_buffer s /\
  db (survey_cleanup w s).1 = db w /\ spawned (survey_cleanup w s).1 = spawned w /\
  next_capture (survey_cleanup w s).1 = next_capture w /\
  (survey_thread s <> Present None ->
   cap (survey_cleanup w s).2 = None /\ survey_mode (survey_cleanup w s).2 = false /\
   survey_force_id (survey_cleanup w s).2 = Absent /\
   survey_detections (survey_cleanup w s).2 = Absent /\
   survey_thread (survey_cleanup w s).2 = Absent /\
   open_captures (survey_cleanup w s).1
   = match cap s with
     | Some c => open_captures w ∖ {[ cap_serial c ]}
     | None => open_captures w
     end).
Proof.
  unfold survey_cleanup.
  cbn [survey_thread cap set_survey_thread_active set_survey_monitoring].
  destruct (survey_thread s) as [|[t|]]; [| |cbn; repeat split; congruence];
    (destruct (cap s) as [c|] eqn:Hcap; [unfold isOpened; case_bool_decide as Hopen|];
     cbn; repeat split; try reflexivity; try exact Hcap;
     symmetry; apply difference_disjoint_L, disjoint_singleton_r; exact Hopen).
Qed.

(** X19. Unless the attribute [survey_thread] holds [None],
    [stop_survey_monitoring] ends with no capture held and the capture held
    before closed, the survey flags cleared and the survey attributes
    deleted; the general session flag and the monitoring id are not changed. *)
Theorem stop_survey_always_releases_camera (set_order : set_iteration) (force_id : string)
    (session_id : option nat) (w : world) (s : service) :
  survey_thread s <> Present None ->
  let stopped := stop_survey_monitoring set_order force_id session_id w s in
  cap stopped.2 = None /\
  (forall c, cap s = Some c -> isOpened c stopped.1.2 = false) /\
  survey_monitoring stopped.2 = false /\ survey_thread_active stopped.2 = false /\
  survey_mode stopped.2 = false /\ survey_force_id stopped.2 = Absent /\
  survey_detections stopped.2 = Absent /\ survey_thread stopped.2 = Absent /\
  is_monitoring stopped.2 = is_monitoring s /\ monitoring_id stopped.2 = monitoring_id s.
Proof.
  intros Hthread. cbv zeta. rewrite stop_survey_parts. cbn [fst snd].
  destruct (survey_summary_effect set_order force_id session_id w s)
    as (Hcap & Hth & Hmon & Hid & _ & Hopen & _).
  destruct (survey_cleanup_effect (survey_summary set_order force_id session_id w s).1.2
              (survey_summary set_order force_id session_id w s).2)
    as (Hsm & Hsa & Hmon' & Hid' & _ & _ & _ & _ & Hrest).
  rewrite Hth in Hrest. destruct (Hrest Hthread) as (Hc & Hmode & Hf & Hd & Ht & Hset).
  rewrite Hcap, Hopen in Hset.
  repeat split; try assumption; try congruence.
  intros c Hheld. rewrite Hheld in Hset. unfold isOpened.
  apply bool_decide_eq_false_2. rewrite Hset. intros Hin.
  apply elem_of_difference in Hin. destruct Hin as [_ Hin]. apply Hin, elem_of_singleton.
  reflexivity.
Qed.

Lemma stop_survey_always_releases_camera_witness :
  survey_thread survey_started.2 <> Present None /\
  let stopped := stop_survey_monitoring latest_first "CRPF001" None survey_started.1.2
                   survey_started.2 in
  cap stopped.2 = None /\
  (forall c, cap survey_started.2 = Some c -> isOpened c stopped.1.2 = false) /\
  survey_monitoring stopped.2 = false /\ survey_thread_active stopped.2 = false /\
  survey_mode stopped.2 = false /\ survey_force_id stopped.2 = Absent /\
  survey_detections stopped.2 = Absent /\ survey_thread stopped.2 = Absent /\
  is_monitoring stopped.2 = is_monitoring survey_started.2 /\
  monitoring_id stopped.2 = monitoring_id survey_started.2.
Proof.
  split; [discriminate|].
  apply (stop_survey_always_releases_camera latest_first "CRPF001" None survey_started.1.2
           survey_started.2).
  discriminate.
Defined.

(** X20. [stop_survey_monitoring] starts a storage thread exactly when it was
    given a session id other than 0 and its result carries an average score
    and detections, and the thread is handed the session id, the force id and
    the very average the result reports; otherwise it starts no thread. *)
Theorem survey_result_is_what_is_stored (set_order : set_iteration) (force_id : string)
    (session_id : option nat) (w : world) (s : service) :
  let stopped := stop_survey_monitoring set_order force_id session_id w s in
  spawned stopped.1.2
  = spawned w
    ++ match session_id, r_avg_depression_score stopped.1.1, r_detections stopped.1.1 with
       | Some (S n), Present avg_score, Present _ => [StorageThread (S n) force_id avg_score]
       | _, _, _ => []
       end.
Proof.
  cbv zeta. rewrite stop_survey_parts. cbn [fst snd].
  destruct (survey_summary_effect set_order force_id session_id w s)
    as (_ & _ & _ & _ & _ & _ & _ & _ & Hsp).
  destruct (survey_cleanup_effect (survey_summary set_order force_id session_id w s).1.2
              (survey_summary set_order force_id session_id w s).2)
    as (_ & _ & _ & _ & _ & _ & Hsp' & _).
  rewrite Hsp'. exact Hsp.
Qed.

(** X21. A [stop_survey_monitoring] that follows another one, whatever its
    arguments, returns the result with the message 'No monitoring session
    active' and no scores, and starts no thread. *)
Theorem second_survey_stop_finds_no_session (set_order set_order' : set_iteration)
    (force_id force_id' : string) (session_id session_id' : option nat)
    (w : world) (s : service) :
  let stopped := stop_survey_monitoring set_order force_id session_id w s in
  (stop_survey_monitoring set_order' force_id' session_id' stopped.1.2 stopped.2).1.1
  = ResultDict force_id' Absent Absent Absent Absent Absent
      (Present "No monitoring session active") Absent /\
  spawned (stop_survey_monitoring set_order' force_id' session_id' stopped.1.2 stopped.2).1.2
  = spawned stopped.1.2.
Proof.
  cbv zeta.
  assert (Hoff : survey_monitoring
                   (stop_survey_monitoring set_order force_id session_id w s).2 = false).
  { rewrite stop_survey_parts. cbn [fst snd]. apply survey_cleanup_effect. }
  revert Hoff.
  generalize (stop_survey_monitoring set_order force_id session_id w s).
  intros [[r w1] s1]. cbn [fst snd]. intros Hoff.
  rewrite stop_survey_parts. cbn [fst snd].
  split.
  - unfold survey_summary. rewrite Hoff. reflexivity.
  - destruct (survey_cleanup_effect
                (survey_summary set_order' force_id' session_id' w1 s1).1.2
                (survey_summary set_order' force_id' session_id' w1 s1).2)
      as (_ & _ & _ & _ & _ & _ & Hsp & _).
    rewrite Hsp. unfold survey_summary. rewrite Hoff. reflexivity.
Qed.

Lemma start_survey_without_handle (force_id : string) (now : datetime)
    (probe : nat -> probe_result) (settings_ok : bool) (w : world) (s : service) :
  cap s = None ->
  start_survey_monitoring force_id now probe settings_ok w s
  = let found := (_find_available_camera probe w).1 in
    let w1 := (_find_available_camera probe w).2 in
    let s1 := set_cap found s in
    if negb (bool_decide (is_Some found)) then (false, w1, set_survey_monitoring false s1)
    else if negb settings_ok then (false, w1, set_survey_monitoring false s1)
    else
      (true, spawn (SurveyThread force_id) w1,
       set_survey_thread (Present (Some (SurveyThread force_id)))
         (set_survey_mode true
            (set_survey_start_time (Present now)
               (set_survey_thread_active true
                  (set_survey_monitoring true
                     (set_survey_detections (Present [])
                        (set_survey_force_id (Present force_id) s1))))))).
Proof.
  intros Hcap. unfold start_survey_monitoring. rewrite Hcap.
  destruct (_find_available_camera probe w) as [found w1]. reflexivity.
Qed.

(** A survey start that finds a camera and applies the settings. *)
Lemma start_survey_started (force_id : string) (now : datetime)
    (probe : nat -> probe_result) (w : world) (s : service) :
  world_ok w ->
  cap s = None ->
  camera_ready (probe 1%nat) = true \/ camera_ready (probe 0%nat) = true ->
  exists c : capture,
    (cap_serial c ∉ open_captures w) /\
    start_survey_monitoring force_id now probe true w s
    = (true,
       spawn (SurveyThread force_id)
         (World ({[ cap_serial c ]} ∪ open_captures w) (S (cap_serial c)) (db w) (spawned w)),
       set_survey_thread (Present (Some (SurveyThread force_id)))
         (set_survey_mode true
            (set_survey_start_time (Present now)
               (set_survey_thread_active true
                  (set_survey_monitoring true
                     (set_survey_detections (Present [])
                        (set_survey_force_id (Present force_id)
                           (set_cap (Some c) s)))))))).
Proof.
  intros Hok Hcap Hready.
  rewrite (start_survey_without_handle _ _ _ _ _ _ Hcap). cbv zeta.
  destruct (find_camera_cases probe w Hok)
    as [[H1 Hfind]|[(H1 & H0 & Hfind)|(H1 & H0 & _)]].
  - exists (Capture 1 (next_capture w)). split; [apply fresh_capture, Hok|].
    rewrite Hfind. cbn [fst snd]. rewrite bool_decide_eq_true_2 by eauto. reflexivity.
  - exists (Capture 0 (S (next_capture w))).
    split; [cbn [cap_serial]; intros Hin; apply Hok in Hin; lia|].
    rewrite Hfind. cbn [fst snd]. rewrite bool_decide_eq_true_2 by eauto. reflexivity.
  - destruct Hready; congruence.
Qed.

(** X22. From a service that holds no capture, with a camera ready,
    [start_survey_monitoring] returns [True] holding an open capture, and the
    [stop_survey_monitoring] that follows leaves the set of open captures
    exactly as it was before the start, with no capture held. *)
Theorem survey_start_then_stop_holds_no_camera (set_order : set_iteration)
    (force_id force_id' : string) (session_id : option nat) (now : datetime)
    (probe : nat -> probe_result) (w : world) (s : service) :
  world_ok w ->
  cap s = None ->
  camera_ready (probe 1%nat) = true \/ camera_ready (probe 0%nat) = true ->
  let started := start_survey_monitoring force_id now probe true w s in
  let stopped := stop_survey_monitoring set_order force_id' session_id
                   started.1.2 started.2 in
  started.1.1 = true /\
  (exists c, cap started.2 = Some c /\ isOpened c started.1.2 = true) /\
  cap stopped.2 = None /\
  open_captures stopped.1.2 = open_captures w /\
  survey_monitoring stopped.2 = false /\ survey_mode stopped.2 = false.
Proof.
  intros Hok Hcap Hready. cbv zeta.
  destruct (start_survey_started force_id now probe w s Hok Hcap Hready)
    as (c & Hfresh & Hstart).
  rewrite Hstart. clear Hstart. cbn [fst snd].
  match goal with
  | |- context [stop_survey_monitoring set_order force_id' session_id ?w0 ?s0] =>
      assert (Hheld : cap s0 = Some c) by reflexivity;
      assert (Hworker : survey_thread s0 = Present (Some (SurveyThread force_id)))
        by reflexivity;
      assert (Hopened : open_captures w0 = {[ cap_serial c ]} ∪ open_captures w)
        by reflexivity;
      generalize dependent s0; generalize dependent w0
  end.
  intros w0 Hopened s0 Hheld Hworker.
  split; [reflexivity|].
  split.
  { exists c. split; [exact Hheld|]. unfold isOpened. rewrite Hopened.
    apply bool_decide_eq_true_2, elem_of_union_l, elem_of_singleton. reflexivity. }
  rewrite stop_survey_parts. cbn [fst snd].
  destruct (survey_summary_effect set_order force_id' session_id w0 s0)
    as (Hc & Hth & _ & _ & _ & Hopen & _).
  destruct (survey_cleanup_effect
              (survey_summary set_order force_id' session_id w0 s0).1.2
              (survey_summary set_order force_id' session_id w0 s0).2)
    as (Hsm & _ & _ & _ & _ & _ & _ & _ & Hrest).
  rewrite Hth, Hworker in Hrest.
  destruct (Hrest ltac:(discriminate)) as (Hcap' & Hmode & _ & _ & _ & Hset).
  split; [exact Hcap'|]. split; [|split; assumption].
  rewrite Hset, Hc, Hheld, Hopen, Hopened.
  rewrite difference_union_distr_l_L, difference_diag_L, (left_id_L ∅ (∪)).
  apply difference_disjoint_L, disjoint_singleton_r. exact Hfresh.
Qed.

Lemma survey_start_then_stop_holds_no_camera_witness :
  world_ok empty_world /\ cap init = None /\
  (camera_ready (working_cameras 1%nat) = true \/ camera_ready (working_cameras 0%nat) = true) /\
  let started := start_survey_monitoring "CRPF001" (DateTime 15 900) working_cameras true
                   empty_world init in
  let stopped := stop_survey_monitoring latest_first "CRPF001" (Some 7%nat)
                   started.1.2 started.2 in
  started.1.1 = true /\
  (exists c, cap started.2 = Some c /\ isOpened c started.1.2 = true) /\
  cap stopped.2 = None /\
  open_captures stopped.1.2 = open_captures empty_world /\
  survey_monitoring stopped.2 = false /\ survey_mode stopped.2 = false.
Proof.
  assert (Hok : world_ok empty_world).
  { intros n Hn. exfalso. revert Hn. apply not_elem_of_empty. }
  split; [exact Hok|]. split; [reflexivity|]. split; [left; reflexivity|].
  apply (survey_start_then_stop_holds_no_camera latest_first "CRPF001" "CRPF001"
           (Some 7%nat) (DateTime 15 900) working_cameras empty_world init);
    [exact Hok | reflexivity | left; reflexivity].
Defined.

(** X23. With no camera ready, [start_survey_monitoring] returns [False] and
    starts nothing: no capture is held or left open, [survey_monitoring] is
    [False], the survey detections and the general session flag are as
    before, no thread is started and the database is unchanged. *)
Theorem failed_survey_start (force_id : string) (now : datetime)
    (probe : nat -> probe_result) (settings_ok : bool) (w : world) (s : service) :
  world_ok w ->
  cap s = None ->
  camera_ready (probe 1%nat) = false ->
  camera_ready (probe 0%nat) = false ->
  let started := start_survey_monitoring force_id now probe settings_ok w s in
  started.1.1 = false /\
  cap started.2 = None /\ survey_monitoring started.2 = false /\
  survey_detections started.2 = survey_detections s /\
  is_monitoring started.2 = is_monitoring s /\
  open_captures started.1.2 = open_captures w /\
  spawned started.1.2 = spawned w /\ db started.1.2 = db w.
Proof.
  intros Hok Hcap H1 H0. cbv zeta.
  rewrite (start_survey_without_handle _ _ _ _ _ _ Hcap). cbv zeta.
  rewrite (find_camera_none probe w Hok H1 H0). cbn. repeat split.
Qed.

Lemma failed_survey_start_witness :
  world_ok empty_world /\ cap init = None /\
  camera_ready (no_cameras 1%nat) = false /\ camera_ready (no_cameras 0%nat) = false /\
  let started := start_survey_monitoring "CRPF001" (DateTime 15 900) no_cameras true
                   empty_world init in
  started.1.1 = false /\
  cap started.2 = None /\ survey_monitoring started.2 = false /\
  survey_detections started.2 = survey_detections init /\
  is_monitoring started.2 = is_monitoring init /\
  open_captures started.1.2 = open_captures empty_world /\
  spawned started.1.2 = spawned empty_world /\ db started.1.2 = db empty_world.
Proof.
  assert (Hok : world_ok empty_world).
  { intros n Hn. exfalso. revert Hn. apply not_elem_of_empty. }
  split; [exact Hok|]. split; [reflexivity|]. split; [reflexivity|]. split; [reflexivity|].
  apply (failed_survey_start "CRPF001" (DateTime 15 900) no_cameras true empty_world init);
    [exact Hok | reflexivity | reflexivity | reflexivity].
Defined.

End SurveyStopFacts.

(** ** Cleanup and time ranges *)

Section CleanupFacts.

Import Aggregation Emotion Service Control Runs.

Lemma closed_after_release (c : capture) (w : world) :
  isOpened c (if isOpened c w then release c w else w) = false.
Proof.
  destruct (isOpened c w) eqn:Hopen; [|exact Hopen].
  unfold isOpened, release. cbn [open_captures]. apply bool_decide_eq_false_2.
  intros Hin. apply elem_of_difference in Hin. destruct Hin as [_ Hin].
  apply Hin, elem_of_singleton. reflexivity.
Qed.

(** X24. [force_camera_cleanup] returns [True] and leaves neither a general nor
    a survey session flagged, no capture held and the capture held before
    closed; monitoring id, detection buffer and database are kept, and a
    second call changes nothing. *)
Theorem force_camera_cleanup_resets (w : world) (s : service) :
  let cleaned := force_camera_cleanup w s in
  cleaned.1.1 = true /\
  idle cleaned.2 /\ survey_thread_active cleaned.2 = false /\
  survey_mode cleaned.2 = false /\ cap cleaned.2 = None /\
  (forall c, cap s = Some c -> isOpened c cleaned.1.2 = false) /\
  monitoring_id cleaned.2 = monitoring_id s /\
  detection_buffer cleaned.2 = detection_buffer s /\
  db cleaned.1.2 = db w /\
  force_camera_cleanup cleaned.1.2 cleaned.2 = cleaned.
Proof.
  cbv zeta. unfold force_camera_cleanup, idle.
  cbn [cap set_is_monitoring set_survey_thread_active set_survey_monitoring].
  destruct (cap s) as [c|] eqn:Hcap; cbn [fst snd].
  - split; [reflexivity|]. split; [split; reflexivity|].
    split; [reflexivity|]. split; [reflexivity|]. split; [reflexivity|].
    split; [intros c' Hc'; injection Hc' as <-; apply closed_after_release|].
    split; [reflexivity|]. split; [reflexivity|].
    split; [destruct (isOpened c w); reflexivity|]. reflexivity.
  - split; [reflexivity|]. split; [split; reflexivity|].
    split; [reflexivity|]. split; [reflexivity|]. split; [exact Hcap|].
    split; [intros c' Hc'; discriminate Hc'|].
    split; [reflexivity|]. split; [reflexivity|]. split; [reflexivity|].
    cbn [cap set_survey_mode set_is_monitoring set_survey_thread_active
           set_survey_monitoring]. rewrite Hcap. reflexivity.
Qed.

(** X25. After [cleanup_camera] the capture the service held is closed, a
    capture it may still hold is closed too, and [survey_monitoring] is
    [False]; the general session flag, the monitoring id and the database
    are not changed. *)
Theorem cleanup_camera_closes_capture (w : world) (s : service) :
  let cleaned := cleanup_camera w s in
  (forall c, cap s = Some c -> isOpened c cleaned.1 = false) /\
  (forall c, cap cleaned.2 = Some c -> isOpened c cleaned.1 = false) /\
  survey_monitoring cleaned.2 = false /\
  is_monitoring cleaned.2 = is_monitoring s /\
  monitoring_id cleaned.2 = monitoring_id s /\
  db cleaned.1 = db w.
Proof.
  cbv zeta. unfold cleanup_camera.
  assert (Hcap : cap (if survey_monitoring s
                      then set_survey_thread_active false (set_survey_monitoring false s)
                      else s) = cap s) by (destruct (survey_monitoring s); reflexivity).
  rewrite Hcap.
  destruct (cap s) as [c|] eqn:Hheld.
  - destruct (isOpened c w) eqn:Hopen; cbn [fst snd].
    + split; [intros c' Hc'; injection Hc' as <-;
              pose proof (closed_after_release c w) as Hcl; rewrite Hopen in Hcl; exact Hcl|].
      split; [intros c' Hc'; discriminate Hc'|].
      destruct (survey_monitoring s) eqn:Hsm; repeat split; assumption.
    + split; [intros c' Hc'; injection Hc' as <-; exact Hopen|].
      split; [intros c' Hc'; rewrite ?Hcap, ?Hheld in Hc'; injection Hc' as <-; exact Hopen|].
      destruct (survey_monitoring s) eqn:Hsm; repeat split; assumption.
  - cbn [fst snd]. split; [intros c' Hc'; discriminate Hc'|].
    split; [intros c' Hc'; rewrite ?Hcap, ?Hheld in Hc'; discriminate Hc'|].
    destruct (survey_monitoring s) eqn:Hsm; repeat split; assumption.
Qed.

Lemma filter_all {A} (f : A -> bool) (l : list A) :
  Forall (fun x => f x = true) l -> List.filter f l = l.
Proof.
  induction 1 as [|x l Hx _ IH]; [reflexivity|].
  cbn [List.filter]. rewrite Hx, IH. reflexivity.
Qed.

Lemma scores_of_actual (ds : list survey_entry) :
  Forall (fun d => is_actual d = true) ds -> scores_of ds = Return (omap e_score ds).
Proof.
  induction 1 as [|d ds Hd _ IH]; [reflexivity|].
  unfold is_actual in Hd. apply andb_prop in Hd. destruct Hd as [Hd _].
  apply bool_decide_eq_true_1 in Hd. destruct Hd as [x Hx].
  cbn [scores_of omap list_omap]. rewrite Hx, IH. reflexivity.
Qed.

(** X27. For a running survey whose detections all carry an emotion and all fall
    in the time range, [get_emotion_data_for_timerange] returns the same
    average that [stop_survey_monitoring] reports as [avg_depression_score],
    and the reported [detection_count] is the number of detections. *)
Theorem full_timerange_matches_survey_average (set_order : set_iteration)
    (force_id : string) (session_id : option nat) (w : world) (s : service)
    (detections : list survey_entry) (survey_start : datetime)
    (start_seconds end_seconds : Q) :
  valid_set_iteration set_order ->
  survey_running s ->
  survey_thread s <> Present None ->
  survey_detections s = Present detections ->
  detections <> [] ->
  survey_start_time s = Present survey_start ->
  Forall (fun d => is_actual d = true) detections ->
  Forall (fun d => in_timerange (seconds_of survey_start + start_seconds)
                     (seconds_of survey_start + end_seconds) d = true) detections ->
  exists avg : Q,
    get_emotion_data_for_timerange start_seconds end_seconds s = Return avg /\
    r_avg_depression_score
      (stop_survey_monitoring set_order force_id session_id w s).1.1 = Present avg /\
    r_detection_count
      (stop_survey_monitoring set_order force_id session_id w s).1.1
    = Present (length detections).
Proof.
  intros Hvalid Hrun Hthread Hds Hne Hstart Hactual Hrange.
  exists (calculate_peak_weighted_average (omap e_score detections)).
  destruct detections as [|d ds]; [congruence|].
  split.
  - unfold get_emotion_data_for_timerange. rewrite Hds, Hstart.
    rewrite (filter_all _ _ Hrange), (scores_of_actual _ Hactual). reflexivity.
  - rewrite stop_survey_result. unfold survey_summary, survey_running in *. rewrite Hrun.
    cbn [negb survey_thread survey_detections set_survey_thread_active
           set_survey_monitoring].
    rewrite Hds, (filter_all _ _ Hactual).
    assert (Hemotions : omap e_emotion (d :: ds) <> []).
    { intros Hnil. apply (f_equal (@length string)) in Hnil.
      rewrite <- (filter_all _ _ Hactual) in Hnil.
      rewrite omap_emotion_actual, (filter_all _ _ Hactual) in Hnil. discriminate Hnil. }
    destruct (most_common_is_mode set_order _ Hvalid Hemotions) as (e & _ & _ & Hmost & _).
    rewrite Hmost.
    destruct (survey_thread s) as [|[t|]]; [split; reflexivity | split; reflexivity | congruence].
Qed.

Lemma full_timerange_matches_survey_average_witness :
  valid_set_iteration latest_first /\ survey_running survey_with_two /\
  survey_thread survey_with_two <> Present None /\
  survey_detections survey_with_two = Present sad_then_happy /\
  sad_then_happy <> [] /\
  survey_start_time survey_with_two = Present (DateTime 15 900) /\
  Forall (fun d => is_actual d = true) sad_then_happy /\
  Forall (fun d => in_timerange (seconds_of (DateTime 15 900) + 0)
                     (seconds_of (DateTime 15 900) + 60) d = true) sad_then_happy /\
  exists avg : Q,
    get_emotion_data_for_timerange 0 60 survey_with_two = Return avg /\
    r_avg_depression_score
      (stop_survey_monitoring latest_first "CRPF001" None empty_world survey_with_two).1.1
    = Present avg /\
    r_detection_count
      (stop_survey_monitoring latest_first "CRPF001" None empty_world survey_with_two).1.1
    = Present (length sad_then_happy).
Proof.
  assert (Hactual : Forall (fun d => is_actual d = true) sad_then_happy)
    by (repeat constructor).
  assert (Hrange : Forall (fun d => in_timerange (seconds_of (DateTime 15 900) + 0)
                                      (seconds_of (DateTime 15 900) + 60) d = true)
                     sad_then_happy)
    by (repeat constructor).
  split; [exact latest_first_valid|]. split; [reflexivity|]. split; [discriminate|].
  split; [reflexivity|]. split; [discriminate|]. split; [reflexivity|].
  split; [exact Hactual|]. split; [exact Hrange|].
  apply (full_timerange_matches_survey_average latest_first "CRPF001" None empty_world
           survey_with_two sad_then_happy (DateTime 15 900) 0 60);
    [exact latest_first_valid | reflexivity | discriminate | reflexivity | discriminate
    | reflexivity | exact Hactual | exact Hrange].
Defined.

End CleanupFacts.

(** ** Stored survey scores and camera settings *)

Section StorageFacts.

Import Aggregation Service Storage Settings Scenarios.

Local Open Scope Q_scope.

Lemma weighted_between (nlp_weight emotion_weight n avg_score : Q) :
  0 <= nlp_weight -> 0 <= emotion_weight -> nlp_weight + emotion_weight == 1 ->
  Qmin n avg_score <= n * nlp_weight + avg_score * emotion_weight /\
  n * nlp_weight + avg_score * emotion_weight <= Qmax n avg_score.
Proof.
  intros Hn He Hsum.
  pose proof (Q.le_min_l n avg_score) as H1. pose proof (Q.le_min_r n avg_score) as H2.
  pose proof (Q.le_max_l n avg_score) as H3. pose proof (Q.le_max_r n avg_score) as H4.
  set (lo := Qmin n avg_score) in *. set (hi := Qmax n avg_score) in *.
  assert (Ha : lo * nlp_weight <= n * nlp_weight) by (apply Qmult_le_compat_r; assumption).
  assert (Hb : lo * emotion_weight <= avg_score * emotion_weight)
    by (apply Qmult_le_compat_r; assumption).
  assert (Hc : n * nlp_weight <= hi * nlp_weight) by (apply Qmult_le_compat_r; assumption).
  assert (Hd : avg_score * emotion_weight <= hi * emotion_weight)
    by (apply Qmult_le_compat_r; assumption).
  assert (Hlo : lo * nlp_weight + lo * emotion_weight == lo)
    by (rewrite <- Qmult_plus_distr_r, Hsum; ring).
  assert (Hhi : hi * nlp_weight + hi * emotion_weight == hi)
    by (rewrite <- Qmult_plus_distr_r, Hsum; ring).
  split; lra.
Qed.

(** X28. With weights that are not negative and sum to 1 and the store working,
    every row [_store_survey_emotion_data] updates gets the image score it
    was given, and a combined score between the row's text score and the
    image score (the image score itself when the row has no text score). *)
Theorem stored_combined_score_is_between (nlp_weight emotion_weight : Q)
    (session_id : nat) (force_id : string) (avg_score : Q) (st : survey_store) :
  0 <= nlp_weight -> 0 <= emotion_weight -> nlp_weight + emotion_weight == 1 ->
  let st' := _store_survey_emotion_data_async (Return (nlp_weight, emotion_weight)) DbOk
               session_id force_id avg_score st in
  Forall (fun r =>
            ws_session_id r = session_id -> ws_force_id r = force_id ->
            ws_image_avg_score r = Some avg_score /\
            combined_between (ws_nlp_avg_score r) avg_score (ws_combined_avg_score r))
    (weekly_sessions st') /\
  Forall (fun r =>
            qr_session_id r = session_id ->
            qr_image_depression_score r = Some avg_score /\
            combined_between (qr_nlp_depression_score r) avg_score
              (qr_combined_depression_score r))
    (question_responses st').
Proof.
  intros Hn He Hsum. cbv zeta.
  unfold _store_survey_emotion_data_async, _store_survey_emotion_data.
  cbn [weekly_sessions question_responses]. split.
  - apply Forall_fmap, Forall_forall. intros r _. unfold compose, update_weekly.
    destruct (bool_decide (ws_session_id r = session_id)
              && bool_decide (ws_force_id r = force_id)) eqn:Hkey.
    + intros _ _. cbn. split; [reflexivity|]. unfold combined_between, weekly_combined.
      eexists. split; [reflexivity|].
      destruct (ws_nlp_avg_score r) as [n|]; [|reflexivity].
      destruct (Qle_bool n 0); cbn [negb].
      * split; [apply Q.le_min_r | apply Q.le_max_r].
      * apply weighted_between; assumption.
    + intros Hs Hf. exfalso.
      rewrite (bool_decide_eq_true_2 _ Hs), (bool_decide_eq_true_2 _ Hf) in Hkey.
      discriminate Hkey.
  - apply Forall_fmap, Forall_forall. intros r _. unfold compose, update_response.
    destruct (bool_decide (qr_session_id r = session_id)) eqn:Hkey.
    + intros _. cbn. split; [reflexivity|]. unfold combined_between, response_combined.
      eexists. split; [reflexivity|].
      destruct (qr_nlp_depression_score r) as [n|]; [|reflexivity].
      apply weighted_between; assumption.
    + intros Hs. exfalso. rewrite (bool_decide_eq_true_2 _ Hs) in Hkey. discriminate Hkey.
Qed.

Lemma stored_combined_score_is_between_witness :
  0 <= 7 # 10 /\ 0 <= 3 # 10 /\ (7 # 10) + (3 # 10) == 1 /\
  let st' := _store_survey_emotion_data_async (Return (7 # 10, 3 # 10)) DbOk
               7 "CRPF001" (45 # 100) two_surveys in
  Forall (fun r =>
            ws_session_id r = 7%nat -> ws_force_id r = "CRPF001" ->
            ws_image_avg_score r = Some (45 # 100) /\
            combined_between (ws_nlp_avg_score r) (45 # 100) (ws_combined_avg_score r))
    (weekly_sessions st') /\
  Forall (fun r =>
            qr_session_id r = 7%nat ->
            qr_image_depression_score r = Some (45 # 100) /\
            combined_between (qr_nlp_depression_score r) (45 # 100)
              (qr_combined_depression_score r))
    (question_responses st').
Proof.
  split; [discriminate|]. split; [discriminate|]. split; [reflexivity|].
  apply (stored_combined_score_is_between (7 # 10) (3 # 10) 7 "CRPF001" (45 # 100)
           two_surveys); [discriminate | discriminate | reflexivity].
Defined.

(** X29. Whatever the weights and the store do,
    [_store_survey_emotion_data_async] leaves every [weekly_sessions] row of
    another session or soldier and every [question_responses] row of another
    session as it was, adds and removes no row, and storing the same score a
    second time changes nothing. *)
Theorem store_survey_emotion_data_is_local (weights : outcome (Q * Q)) (dbb : db_behaviour)
    (session_id : nat) (force_id : string) (avg_score : Q) (st : survey_store) :
  let st' := _store_survey_emotion_data_async weights dbb session_id force_id avg_score st in
  (forall i r, weekly_sessions st !! i = Some r ->
     ws_session_id r <> session_id \/ ws_force_id r <> force_id ->
     weekly_sessions st' !! i = Some r) /\
  (forall i r, question_responses st !! i = Some r ->
     qr_session_id r <> session_id ->
     question_responses st' !! i = Some r) /\
  length (weekly_sessions st') = length (weekly_sessions st) /\
  length (question_responses st') = length (question_responses st) /\
  _store_survey_emotion_data_async weights dbb session_id force_id avg_score st' = st'.
Proof.
  cbv zeta. unfold _store_survey_emotion_data_async, _store_survey_emotion_data.
  destruct dbb; [destruct weights as [[nlp_weight emotion_weight]|e]|..];
    cbn [weekly_sessions question_responses];
    try (repeat split; auto; fail).
  split; [|split; [|split; [|split]]].
  - intros i r Hi Hother. rewrite list_lookup_fmap, Hi. cbn. f_equal.
    unfold update_weekly. destruct Hother as [Hother|Hother].
    + rewrite (bool_decide_eq_false_2 _ Hother). reflexivity.
    + rewrite (bool_decide_eq_false_2 _ Hother), andb_false_r. reflexivity.
  - intros i r Hi Hother. rewrite list_lookup_fmap, Hi. cbn. f_equal.
    unfold update_response. rewrite (bool_decide_eq_false_2 _ Hother). reflexivity.
  - apply length_fmap.
  - apply length_fmap.
  - f_equal; rewrite <- list_fmap_compose; apply list_fmap_ext; intros i r _;
      unfold compose.
    + unfold update_weekly.
      destruct (bool_decide (ws_session_id r = session_id)
                && bool_decide (ws_force_id r = force_id)) eqn:Hkey;
        cbn [ws_session_id ws_force_id ws_nlp_avg_score]; rewrite Hkey; reflexivity.
    + unfold update_response.
      destruct (bool_decide (qr_session_id r = session_id)) eqn:Hkey;
        cbn [qr_session_id qr_nlp_depression_score]; rewrite Hkey; reflexivity.
Qed.

Lemma read_settings_unreadable (int_of : string -> option Z) (rows : list (string * string))
    (acc : gmap string Z) (name value : string) :
  In (name, value) rows ->
  is_camera_setting name = true ->
  int_of value = None ->
  read_settings int_of rows acc = None.
Proof.
  revert acc. induction rows as [|[n v] rows IH]; intros acc Hin Hname Hbad.
  - destruct Hin.
  - cbn [read_settings]. destruct Hin as [Heq|Hin].
    + injection Heq as -> ->. rewrite Hname, Hbad. reflexivity.
    + destruct (is_camera_setting n); [|apply IH; assumption].
      destruct (int_of v); [apply IH; assumption | reflexivity].
Qed.

(** X30. If the table holds one of the three camera settings with a value that
    [int] cannot read, [get_camera_settings] returns all three defaults
    (640, 480, 30), also for the settings whose values were readable. *)
Theorem unreadable_setting_discards_all (int_of : string -> option Z) (dbb : db_behaviour)
    (system_settings : list (string * string)) (name value : string) :
  In (name, value) system_settings ->
  is_camera_setting name = true ->
  int_of value = None ->
  get_camera_settings int_of dbb system_settings = default_settings.
Proof.
  intros Hin Hname Hbad. unfold get_camera_settings.
  destruct dbb; try reflexivity.
  rewrite (read_settings_unreadable int_of _ ∅ name value); [reflexivity| |assumption..].
  apply filter_In. split; [exact Hin | exact Hname].
Qed.

Lemma unreadable_setting_discards_all_witness :
  In ("camera_height", "72o") misspelt_settings /\
  is_camera_setting "camera_height" = true /\
  int_of_sample "72o" = None /\
  get_camera_settings int_of_sample DbOk misspelt_settings = default_settings.
Proof.
  assert (Hin : In ("camera_height", "72o") misspelt_settings) by (right; left; reflexivity).
  split; [exact Hin|]. split; [reflexivity|]. split; [reflexivity|].
  apply (unreadable_setting_discards_all int_of_sample DbOk misspelt_settings
           "camera_height" "72o"); [exact Hin | reflexivity | reflexivity].
Defined.

End StorageFacts.
